(** * Hospital data cleaning and imputation: a shallow embedding

    This development embeds the two scripts of the repository,

    - [src/data_cleaning/clean_hospital_data.py]
      (class [HospitalDataCleaner]) and
    - [src/data_cleaning/ml_missing_value_imputation.py]
      (class [MLExpertMissingValueHandler]),

    as pure functions over an explicit model of a pandas data frame, and
    states the properties of the specification against them.

    Modelling conventions.
    - A data frame is an ordered list of named, typed columns; the row index
      is positional (the loader yields unique labels).  An object column
      holds text.
    - A cell is an [option]: [None] is pandas' NaN / NaT / None.
    - Numbers are rationals ([Q]).  The scripts only compare, negate and
      assign constants to the values the properties talk about, and these
      operations are exact on floats; means, medians and quantiles are the
      exact rational ones.
    - Timestamps are integers counting nanoseconds since the epoch, as in
      [datetime64[ns]].
    - Text is ASCII: the Python string methods are embedded on 7-bit
      characters, other characters are left untouched by case mappings.
    - A Python exception is a value [Raise e] of the [result] type; the
      methods of the two classes thread the object state explicitly.
    - The frame handed to a pipeline is the one [pd.read_csv] returns; the
      text-to-timestamp parser of [pd.to_datetime] is a parameter.
    - Console output is not modelled, except for the lines that carry the
      outcome of a check. *)

From Stdlib Require Import List String Ascii Bool Arith ZArith.
From Stdlib Require Import QArith Qabs Qround Lia Lqa.
From Stdlib Require OrderedTypeEx.
Import ListNotations.

Set Implicit Arguments.

(* ================================================================== *)
(** * Python strings *)
(* ================================================================== *)

Module PyStr.

Local Open Scope string_scope.
Local Open Scope nat_scope.

Definition ord (c : ascii) : nat := nat_of_ascii c.

Definition between (lo hi : nat) (c : ascii) : bool :=
  (lo <=? ord c) && (ord c <=? hi).

Definition isupper (c : ascii) : bool := between 65 90 c.
Definition islower (c : ascii) : bool := between 97 122 c.
Definition isdigit (c : ascii) : bool := between 48 57 c.
Definition iscased (c : ascii) : bool := isupper c || islower c.

(** [str.isspace] on one ASCII character: TAB, LF, VT, FF, CR, the four
    separators 0x1c-0x1f and the blank.  The regular expression class
    [\s] agrees with it. *)
Definition isspace (c : ascii) : bool :=
  between 9 13 c || between 28 32 c.

(** [\w] of the [re] module. *)
Definition isword (c : ascii) : bool :=
  isupper c || islower c || isdigit c || (ord c =? 95).

Definition toupper (c : ascii) : ascii :=
  if islower c then ascii_of_nat (ord c - 32) else c.
Definition tolower (c : ascii) : ascii :=
  if isupper c then ascii_of_nat (ord c + 32) else c.

Fixpoint smap (f : ascii -> ascii) (s : string) : string :=
  match s with
  | EmptyString => EmptyString
  | String c r => String (f c) (smap f r)
  end.

(** [str.lower] and [str.upper]. *)
Definition lower : string -> string := smap tolower.
Definition upper : string -> string := smap toupper.

(** [str.capitalize]: first character upper-cased, the rest lower-cased. *)
Definition capitalize (s : string) : string :=
  match s with
  | EmptyString => EmptyString
  | String c r => String (toupper c) (lower r)
  end.

(** [str.title]: a cased character is upper-cased when the previous
    character is not cased and lower-cased otherwise. *)
Fixpoint title_from (prev_cased : bool) (s : string) : string :=
  match s with
  | EmptyString => EmptyString
  | String c r =>
      String (if prev_cased then tolower c else toupper c)
             (title_from (iscased c) r)
  end.
Definition title : string -> string := title_from false.

Fixpoint srev_onto (acc s : string) : string :=
  match s with
  | EmptyString => acc
  | String c r => srev_onto (String c acc) r
  end.
Definition srev : string -> string := srev_onto EmptyString.

Fixpoint drop_while (p : ascii -> bool) (s : string) : string :=
  match s with
  | EmptyString => EmptyString
  | String c r => if p c then drop_while p r else s
  end.

(** [str.lstrip()], [str.rstrip()], [str.strip()] and [str.rstrip(',')]. *)
Definition lstrip : string -> string := drop_while isspace.
Definition rstrip (s : string) : string := srev (drop_while isspace (srev s)).
Definition strip (s : string) : string := lstrip (rstrip s).
Definition rstrip_char (ch : ascii) (s : string) : string :=
  srev (drop_while (Ascii.eqb ch) (srev s)).

Definition snoc (s : string) (c : ascii) : string := s ++ String c EmptyString.

Definition is_empty (s : string) : bool :=
  match s with EmptyString => true | _ => false end.

(** [str.split()] without argument: the maximal runs of characters that
    are not white space. *)
Fixpoint split_ws_from (cur s : string) : list string :=
  match s with
  | EmptyString => if is_empty cur then [] else [cur]
  | String c r =>
      if isspace c
      then (if is_empty cur then split_ws_from EmptyString r
            else cur :: split_ws_from EmptyString r)
      else split_ws_from (snoc cur c) r
  end.
Definition split_ws : string -> list string := split_ws_from EmptyString.

(** [str.split(sep)] for a one-character separator: empty pieces are
    kept and the result is never empty. *)
Fixpoint split_char_from (sep : ascii) (cur s : string) : list string :=
  match s with
  | EmptyString => [cur]
  | String c r =>
      if Ascii.eqb c sep
      then cur :: split_char_from sep EmptyString r
      else split_char_from sep (snoc cur c) r
  end.
Definition split_char (sep : ascii) : string -> list string :=
  split_char_from sep EmptyString.

(** [sep.join(parts)]. *)
Definition join (sep : string) (parts : list string) : string :=
  String.concat sep parts.

(** [ch in s]. *)
Fixpoint contains_char (ch : ascii) (s : string) : bool :=
  match s with
  | EmptyString => false
  | String c r => Ascii.eqb c ch || contains_char ch r
  end.

(** [re.sub(r'\s+', ' ', s)]: every maximal run of white space becomes one
    blank. *)
Fixpoint collapse_ws_from (in_run : bool) (s : string) : string :=
  match s with
  | EmptyString => EmptyString
  | String c r =>
      if isspace c
      then (if in_run then collapse_ws_from true r
            else String " " (collapse_ws_from true r))
      else String c (collapse_ws_from false r)
  end.
Definition collapse_ws : string -> string := collapse_ws_from false.

Fixpoint sdrop (n : nat) (s : string) : string :=
  match n, s with
  | O, _ => s
  | S k, String _ r => sdrop k r
  | S _, EmptyString => EmptyString
  end.

(** [s.endswith(ch)]. *)
Definition endswith_char (ch : ascii) (s : string) : bool :=
  match srev s with
  | String c _ => Ascii.eqb c ch
  | EmptyString => false
  end.

(** [re.search(r'[a-z][A-Z]|[A-Z][a-z][A-Z]', s)] succeeds. *)
Fixpoint irregular_caps (s : string) : bool :=
  match s with
  | String a ((String b r) as t) =>
      (islower a && isupper b)
      || (isupper a && islower b
          && match r with String c _ => isupper c | EmptyString => false end)
      || irregular_caps t
  | _ => false
  end.

(** [re.match(r'^[Nn]a[Nn]$', s)] succeeds: [$] also matches just before
    one final line feed. *)
Definition is_N (c : ascii) : bool := (ord c =? 78) || (ord c =? 110).
Definition match_literal_nan (s : string) : bool :=
  match s with
  | String a (String b (String c r)) =>
      is_N a && (ord b =? 97) && is_N c
      && match r with
         | EmptyString => true
         | String d EmptyString => ord d =? 10
         | _ => false
         end
  | _ => false
  end.

(** [re.sub(r'\bW\b', repl, s, flags=re.IGNORECASE)] for a word [W] made
    of word characters: every occurrence of [W], in any case, that is
    delimited by word boundaries is replaced, scanning from the left. *)
Fixpoint sub_word_from (fuel : nat) (w repl : string) (prev_word : bool)
  (s : string) : string :=
  match fuel with
  | O => s
  | S fuel' =>
      match s with
      | EmptyString => EmptyString
      | String c r =>
          let after := sdrop (String.length w) s in
          let bounded_right :=
            match after with
            | EmptyString => true
            | String d _ => negb (isword d)
            end in
          if negb prev_word
             && (String.length w <=? String.length s)
             && String.eqb (lower (substring 0 (String.length w) s)) (lower w)
             && bounded_right
             && negb (is_empty w)
          then repl ++ sub_word_from fuel' w repl true after
          else String c (sub_word_from fuel' w repl (isword c) r)
      end
  end.
Definition sub_word_ci (w repl s : string) : string :=
  sub_word_from (S (String.length s)) w repl false s.

End PyStr.

(* ================================================================== *)
(** * Name formatting ([clean_names], inner function) *)
(* ================================================================== *)

Local Open Scope string_scope.

(** The alternatives of [title_pattern], in the order of the pattern. *)
Definition title_alternatives : list string := ["mr."; "mrs."; "dr."; "ms."].

(** [re.match(title_pattern, s)] on an already lower-cased [s]: the first
    alternative that is a prefix of [s] ([group(1)]). *)
Definition title_match (s : string) : option string :=
  find (fun t => String.prefix t s) title_alternatives.

(** One whitespace-separated part of a name. *)
Definition capitalize_part (part : string) : string :=
  if PyStr.contains_char "-" part
  then PyStr.join "-" (map PyStr.capitalize (PyStr.split_char "-" part))
  else PyStr.capitalize part.

(** [fix_name_formatting(name)] for a present [name]. *)
Definition fix_name_text (name0 : string) : string :=
  let name := PyStr.collapse_ws (PyStr.strip name0) in
  let '(title, name) :=
    match title_match (PyStr.lower name) with
    | Some t =>
        (PyStr.title t ++ " ",
         PyStr.lstrip (PyStr.sdrop (String.length t) name))
    | None => ("", name)
    end in
  let name_parts := PyStr.split_ws name in
  let cleaned_parts := map capitalize_part name_parts in
  title ++ PyStr.join " " cleaned_parts.

(** [fix_name_formatting]: an absent name is returned as it is. *)
Definition fix_name_formatting (name : option string) : option string :=
  match name with
  | None => None
  | Some s => Some (fix_name_text s)
  end.

(* ================================================================== *)
(** * Python exceptions *)
(* ================================================================== *)

(** The exceptions the two scripts can run into.  [OutsideModel] is not a
    Python exception: it marks a run that leaves the modelled fragment
    (the text or the timestamp of a number, a statistic of a datetime
    column, text written into a column that keeps numbers). *)
Inductive exn : Type :=
| KeyError (key : string)
| TypeError
| AttributeError
| ValueError
| OutsideModel.

Inductive result (A : Type) : Type :=
| Ok (a : A)
| Raise (e : exn).

Arguments Ok {A} a.
Arguments Raise {A} e.

Definition bind {A B : Type} (r : result A) (k : A -> result B) : result B :=
  match r with
  | Ok a => k a
  | Raise e => Raise e
  end.

Notation "x <- r ;; k" := (bind r (fun x => k))
  (at level 61, r at next level, right associativity).
Notation "r ;;; k" := (bind r (fun _ => k))
  (at level 61, right associativity).

(** [for x in xs: body], where the body may raise. *)
Fixpoint for_each {A S : Type} (xs : list A) (body : A -> S -> result S)
  (s : S) : result S :=
  match xs with
  | [] => Ok s
  | x :: rest => s' <- body x s ;; for_each rest body s'
  end.

(* ================================================================== *)
(** * Data frames *)
(* ================================================================== *)

(** A column with its dtype: [object] (text), [float64]/[int64] and
    [datetime64[ns]]. *)
Inductive Series : Type :=
| SObject (xs : list (option string))
| SNum (xs : list (option Q))
| SDatetime (xs : list (option Z)).

Definition DataFrame : Type := list (string * Series).

Definition is_none {A : Type} (x : option A) : bool :=
  match x with None => true | Some _ => false end.
Definition is_some {A : Type} (x : option A) : bool := negb (is_none x).

(** [len(series)], [series.isna()], [series.notna()], [mask.sum()]. *)
Definition slen (s : Series) : nat :=
  match s with
  | SObject xs => List.length xs
  | SNum xs => List.length xs
  | SDatetime xs => List.length xs
  end.
Definition isna (s : Series) : list bool :=
  match s with
  | SObject xs => map is_none xs
  | SNum xs => map is_none xs
  | SDatetime xs => map is_none xs
  end.
Definition notna (s : Series) : list bool := map negb (isna s).
Definition count_true (mask : list bool) : nat :=
  List.length (filter (fun b => b) mask).

(** [a & b], [a | b] and [~a] on boolean masks. *)
Definition mask_and (a b : list bool) : list bool :=
  map (fun p : bool * bool => fst p && snd p) (combine a b).
Definition mask_or (a b : list bool) : list bool :=
  map (fun p : bool * bool => fst p || snd p) (combine a b).
Definition mask_not (a : list bool) : list bool := map negb a.

(** [xs[mask] = v] and [xs[mask] = f(xs[mask])] cell by cell. *)
Definition assign_where {A : Type} (mask : list bool) (v : A) (xs : list A)
  : list A :=
  map (fun p : bool * A => if fst p then v else snd p) (combine mask xs).
Definition update_where {A : Type} (mask : list bool) (f : A -> A)
  (xs : list A) : list A :=
  map (fun p : bool * A => if fst p then f (snd p) else snd p) (combine mask xs).

(** [xs[mask]]: the selected cells. *)
Fixpoint select {A : Type} (mask : list bool) (xs : list A) : list A :=
  match mask, xs with
  | true :: m, x :: r => x :: select m r
  | false :: m, _ :: r => select m r
  | _, _ => []
  end.

Definition select_series (mask : list bool) (s : Series) : Series :=
  match s with
  | SObject xs => SObject (select mask xs)
  | SNum xs => SNum (select mask xs)
  | SDatetime xs => SDatetime (select mask xs)
  end.

(** [col in df.columns], [df[col]], [df[col] = s], [df.drop(columns=...)]
    and [len(df)]. *)
Fixpoint df_lookup (df : DataFrame) (col : string) : option Series :=
  match df with
  | [] => None
  | (c, s) :: rest => if String.eqb c col then Some s else df_lookup rest col
  end.
Definition df_has (df : DataFrame) (col : string) : bool :=
  is_some (df_lookup df col).
Definition df_get (df : DataFrame) (col : string) : result Series :=
  match df_lookup df col with
  | Some s => Ok s
  | None => Raise (KeyError col)
  end.
Fixpoint df_set (df : DataFrame) (col : string) (s : Series) : DataFrame :=
  match df with
  | [] => [(col, s)]
  | (c, s0) :: rest =>
      if String.eqb c col then (c, s) :: rest
      else (c, s0) :: df_set rest col s
  end.
Definition df_drop (df : DataFrame) (cols : list string) : DataFrame :=
  filter (fun p : string * Series => negb (existsb (String.eqb (fst p)) cols)) df.
Definition df_columns (df : DataFrame) : list string := map fst df.
Definition nrows (df : DataFrame) : nat :=
  match df with
  | [] => 0%nat
  | (_, s) :: _ => slen s
  end.

(** ** Rows, for duplicate detection *)

Inductive pyval : Type :=
| VText (s : string)
| VNumber (q : Q)
| VTime (t : Z).

Definition pyval_eqb (a b : pyval) : bool :=
  match a, b with
  | VText s, VText t => String.eqb s t
  | VNumber p, VNumber q => Qeq_bool p q
  | VTime s, VTime t => Z.eqb s t
  | _, _ => false
  end.

(** Two cells of a row are the same for [duplicated] when both are
    missing or both hold the same value. *)
Definition cell_eqb (a b : option pyval) : bool :=
  match a, b with
  | None, None => true
  | Some x, Some y => pyval_eqb x y
  | _, _ => false
  end.

Fixpoint row_eqb (r1 r2 : list (option pyval)) : bool :=
  match r1, r2 with
  | [], [] => true
  | a :: r1', b :: r2' => cell_eqb a b && row_eqb r1' r2'
  | _, _ => false
  end.

Definition cells (s : Series) : list (option pyval) :=
  match s with
  | SObject xs => map (option_map VText) xs
  | SNum xs => map (option_map VNumber) xs
  | SDatetime xs => map (option_map VTime) xs
  end.

Definition row (df : DataFrame) (i : nat) : list (option pyval) :=
  map (fun p : string * Series => nth i (cells (snd p)) None) df.
Definition rows (df : DataFrame) : list (list (option pyval)) :=
  map (row df) (seq 0 (nrows df)).

(** [df.duplicated()]: a row is marked when an earlier row equals it. *)
Fixpoint duplicated_from (seen rs : list (list (option pyval))) : list bool :=
  match rs with
  | [] => []
  | r :: rest => existsb (row_eqb r) seen :: duplicated_from (r :: seen) rest
  end.
Definition duplicated (df : DataFrame) : list bool :=
  duplicated_from [] (rows df).

(** [df.drop_duplicates()]: the first occurrence of each row is kept. *)
Definition drop_duplicates (df : DataFrame) : DataFrame :=
  let keep := mask_not (duplicated df) in
  map (fun p : string * Series => (fst p, select_series keep (snd p))) df.

(** ** Numeric columns *)

Definition Qlt_bool (x y : Q) : bool := negb (Qle_bool y x).

(** [series < c] and [series > c]: a missing cell compares false. *)
Definition lt_const (c : Q) (xs : list (option Q)) : list bool :=
  map (fun x => match x with Some q => Qlt_bool q c | None => false end) xs.
Definition gt_const (c : Q) (xs : list (option Q)) : list bool :=
  map (fun x => match x with Some q => Qlt_bool c q | None => false end) xs.

(** The cells of a column seen as numbers by a comparison with a number.
    Text and timestamps do not compare with numbers. *)
Definition numeric_cells (s : Series) : result (list (option Q)) :=
  match s with
  | SNum xs => Ok xs
  | SObject xs =>
      if forallb is_none xs then Ok (map (fun _ => None) xs)
      else Raise TypeError
  | SDatetime _ => Raise TypeError
  end.

(** The cells of a column seen as numbers by [median], [mean] and
    [quantile]. *)
Definition statistic_cells (s : Series) : result (list (option Q)) :=
  match s with
  | SNum xs => Ok xs
  | SObject xs =>
      if forallb is_none xs then Ok (map (fun _ => None) xs)
      else Raise TypeError
  | SDatetime _ => Raise OutsideModel
  end.

(** The present values of a column, in row order. *)
Fixpoint present {A : Type} (xs : list (option A)) : list A :=
  match xs with
  | [] => []
  | Some x :: r => x :: present r
  | None :: r => present r
  end.

Fixpoint insert_sorted (x : Q) (l : list Q) : list Q :=
  match l with
  | [] => [x]
  | y :: r => if Qle_bool x y then x :: l else y :: insert_sorted x r
  end.
Definition sort_values (l : list Q) : list Q := fold_right insert_sorted [] l.

Definition Qsum (l : list Q) : Q := fold_right Qplus 0%Q l.

(** [series.mean()]: missing cells are skipped; no value at all gives
    NaN. *)
Definition mean (xs : list (option Q)) : option Q :=
  match present xs with
  | [] => None
  | v :: vs => Some (Qsum (v :: vs) / inject_Z (Z.of_nat (List.length (v :: vs))))%Q
  end.

(** [series.quantile(p)] with linear interpolation between the two
    closest ranks. *)
Definition quantile (p : Q) (xs : list (option Q)) : option Q :=
  match sort_values (present xs) with
  | [] => None
  | v :: vs =>
      let sorted := v :: vs in
      let pos := (inject_Z (Z.of_nat (List.length vs)) * p)%Q in
      let lo := Qfloor pos in
      let frac := (pos - inject_Z lo)%Q in
      let a := nth (Z.to_nat lo) sorted v in
      let b := nth (Z.to_nat (lo + 1)) sorted (last sorted v) in
      Some (a + (b - a) * frac)%Q
  end.

(** [series.median()]. *)
Definition median (xs : list (option Q)) : option Q := quantile (1 # 2) xs.

(** [series.fillna(v)]; filling with NaN changes nothing. *)
Definition fillna {A : Type} (v : option A) (xs : list (option A))
  : list (option A) :=
  match v with
  | None => xs
  | Some _ => map (fun x => match x with None => v | Some _ => x end) xs
  end.

(** [series.fillna(method='ffill')] and [series.fillna(method='bfill')]. *)
Fixpoint ffill_from {A : Type} (prev : option A) (xs : list (option A))
  : list (option A) :=
  match xs with
  | [] => []
  | Some x :: r => Some x :: ffill_from (Some x) r
  | None :: r => prev :: ffill_from prev r
  end.
Definition ffill {A : Type} (xs : list (option A)) : list (option A) :=
  ffill_from None xs.
Definition bfill {A : Type} (xs : list (option A)) : list (option A) :=
  rev (ffill (rev xs)).

(** ** Text columns *)

(** [series.str]: the accessor exists on object columns only. *)
Definition str_accessor (s : Series) : result (list (option string)) :=
  match s with
  | SObject xs => Ok xs
  | _ => Raise AttributeError
  end.

(** [series.str.f(..., na=False)] for a boolean test [f]. *)
Definition str_test (f : string -> bool) (xs : list (option string))
  : list bool :=
  map (fun x => match x with Some t => f t | None => false end) xs.

(** [series.isin(values)] for a list of texts: a missing cell, a number
    and a timestamp are not in the list. *)
Definition isin_text (values : list string) (s : Series) : list bool :=
  match s with
  | SObject xs => str_test (fun t => existsb (String.eqb t) values) xs
  | SNum xs => map (fun _ => false) xs
  | SDatetime xs => map (fun _ => false) xs
  end.

(** [df.loc[mask, col] = np.nan]: the dtype is kept. *)
Definition assign_nan (mask : list bool) (s : Series) : Series :=
  match s with
  | SObject xs => SObject (assign_where mask None xs)
  | SNum xs => SNum (assign_where mask None xs)
  | SDatetime xs => SDatetime (assign_where mask None xs)
  end.

(** Text written over the cells selected by [mask] of a column that is
    not an object column: the column becomes an object column.  The model
    has it when no number or timestamp is left in place. *)
Definition overwrite_as_text {A : Type} (mask : list bool) (v : string)
  (xs : list (option A)) : result (list (option string)) :=
  if forallb (fun p : bool * option A => fst p || is_none (snd p))
             (combine mask xs)
  then Ok (map (fun p : bool * option A => if fst p then Some v else None)
               (combine mask xs))
  else Raise OutsideModel.

(** [df.loc[mask, col] = text]. *)
Definition assign_text (mask : list bool) (v : string) (s : Series)
  : result Series :=
  match s with
  | SObject xs => Ok (SObject (assign_where mask (Some v) xs))
  | SNum xs =>
      if (count_true mask =? 0)%nat then Ok s
      else xs' <- overwrite_as_text mask v xs ;; Ok (SObject xs')
  | SDatetime xs =>
      if (count_true mask =? 0)%nat then Ok s
      else xs' <- overwrite_as_text mask v xs ;; Ok (SObject xs')
  end.

(** [series.fillna(text)]. *)
Definition fillna_text (v : string) (s : Series) : result Series :=
  assign_text (isna s) v s.

(** [series.apply(f)] for a Python function [f] that returns a missing
    argument as it is and works on [str(argument)] otherwise.  The text of
    a number or of a timestamp is outside the model. *)
Definition apply (f : option string -> option string) (s : Series)
  : result Series :=
  match s with
  | SObject xs => Ok (SObject (map f xs))
  | SNum xs => if forallb is_none xs then Ok s else Raise OutsideModel
  | SDatetime xs => if forallb is_none xs then Ok s else Raise OutsideModel
  end.

Section ToDatetime.

(** What [pd.to_datetime(text, errors='coerce')] makes of one text: the
    parser belongs to the library. *)
Variable parse_datetime : string -> option Z.

(** [pd.to_datetime(series, errors='coerce')].  The timestamp of a number
    is outside the model. *)
Definition to_datetime (s : Series) : result Series :=
  match s with
  | SObject xs =>
      Ok (SDatetime (map (fun x => match x with
                                   | Some t => parse_datetime t
                                   | None => None
                                   end) xs))
  | SNum xs =>
      if forallb is_none xs then Ok (SDatetime (map (fun _ => None) xs))
      else Raise OutsideModel
  | SDatetime xs => Ok (SDatetime xs)
  end.

End ToDatetime.

(** ** Datetime columns *)

Definition ns_per_day : Z := 86400000000000.

(** [(end - start).dt.days] cell by cell: the whole days of the
    difference, rounded down; missing when either side is. *)
Definition days_between (e s : option Z) : option Z :=
  match e, s with
  | Some te, Some ts => Some ((te - ts) / ns_per_day)%Z
  | _, _ => None
  end.

Definition timedelta_days (e s : Series) : result (list (option Z)) :=
  match e, s with
  | SDatetime xe, SDatetime xs =>
      Ok (map (fun p : option Z * option Z => days_between (fst p) (snd p))
              (combine xe xs))
  | SNum _, SNum _ => Raise AttributeError
  | _, _ => Raise TypeError
  end.

(** [a < b] on two datetime columns; a missing side compares false. *)
Definition datetime_lt (a b : Series) : result (list bool) :=
  match a, b with
  | SDatetime xa, SDatetime xb =>
      Ok (map (fun p : option Z * option Z =>
                 match fst p, snd p with
                 | Some ta, Some tb => (ta <? tb)%Z
                 | _, _ => false
                 end) (combine xa xb))
  | _, _ => Raise TypeError
  end.

(** [series < 0] on day counts. *)
Definition negative_days (d : list (option Z)) : list bool :=
  map (fun x => match x with Some n => (n <? 0)%Z | None => false end) d.

(** [df.loc[mask, col] = other], where [other] carries the same row
    labels: the selected cells are taken from [other]. *)
Definition take_where {A : Type} (mask : list bool) (other xs : list A)
  : list A :=
  map (fun p : bool * (A * A) => if fst p then fst (snd p) else snd (snd p))
      (combine mask (combine other xs)).

(** ** Most frequent value *)

Section Mode.

Variable A : Type.
Variables eqb ltb : A -> A -> bool.

Definition occurrences (x : A) (l : list A) : nat :=
  List.length (filter (eqb x) l).

(** [series.mode()[0]]: the most frequent present value, the smallest
    one among equally frequent values; nothing when no value is present. *)
Definition mode (xs : list (option A)) : option A :=
  let l := present xs in
  fold_left
    (fun best x =>
       match best with
       | None => Some x
       | Some b =>
           if (occurrences b l <? occurrences x l)%nat
              || ((occurrences b l =? occurrences x l)%nat && ltb x b)
           then Some x else best
       end) l None.

End Mode.

Definition string_ltb (s t : string) : bool :=
  match String.compare s t with Lt => true | _ => false end.

(** [series.fillna(series.mode()[0])] when the mode exists. *)
Definition fill_with_mode (s : Series) : option Series :=
  match s with
  | SObject xs =>
      match mode String.eqb string_ltb xs with
      | Some m => Some (SObject (fillna (Some m) xs))
      | None => None
      end
  | SNum xs =>
      match mode Qeq_bool Qlt_bool xs with
      | Some m => Some (SNum (fillna (Some m) xs))
      | None => None
      end
  | SDatetime xs =>
      match mode Z.eqb Z.ltb xs with
      | Some m => Some (SDatetime (fillna (Some m) xs))
      | None => None
      end
  end.

(** ** Binning *)

Inductive edge : Type :=
| Finite (q : Q)
| PlusInfinity.

Definition above (lo : edge) (x : Q) : bool :=
  match lo with Finite q => Qlt_bool q x | PlusInfinity => false end.
Definition at_most (hi : edge) (x : Q) : bool :=
  match hi with Finite q => Qle_bool x q | PlusInfinity => true end.

(** [pd.cut(x, bins, labels)] on one value: the label of the interval
    [(lo, hi]] that holds it, nothing when no interval does. *)
Fixpoint cut_from (lo : edge) (bins : list edge) (labels : list string)
  (x : Q) : option string :=
  match bins, labels with
  | hi :: bins', l :: labels' =>
      if above lo x && at_most hi x then Some l
      else cut_from hi bins' labels' x
  | _, _ => None
  end.
Definition cut (bins : list edge) (labels : list string) (x : option Q)
  : option string :=
  match x, bins with
  | Some q, lo :: rest => cut_from lo rest labels q
  | _, _ => None
  end.

(** The cells [pd.cut] bins: numbers. *)
Definition binned_cells (s : Series) : result (list (option Q)) :=
  match s with
  | SNum xs => Ok xs
  | SObject xs =>
      if forallb is_none xs then Ok (map (fun _ => None) xs)
      else Raise TypeError
  | SDatetime _ => Raise ValueError
  end.

(** ** Substring test, [sub in s] *)
Fixpoint contains_sub (sub s : string) : bool :=
  String.prefix sub s
  || match s with
     | EmptyString => false
     | String _ r => contains_sub sub r
     end.

(* ================================================================== *)
(** * [clean_hospital_data.py]: class [HospitalDataCleaner] *)
(* ================================================================== *)

Module HospitalDataCleaner.

(** The entries appended to [cleaning_report['issues_fixed']], with the
    numbers the messages are formatted from. *)
Inductive issue : Type :=
| RemovedDuplicates (n : nat)
| FixedNames (n : nat)
| FixedLiteralNan (n : nat)
| ConvertedInvalidGender (n : nat)
| MarkedInvalidBlood (n : nat)
| ConvertedInvalidDates (n : nat) (col : string)
| FixedDateSequences (n : nat)
| CleanedHospitalNames (n : nat)
| FixedAge (n : nat)
| FixedBilling (n : nat)
| FixedRoom (n : nat)
| StandardizedCategorical
| FilledAges (n : nat)
| AppliedMissingPolicies.

(** The object state: [self.df] and [self.cleaning_report]. *)
Record Cleaner : Type := {
  df : DataFrame;
  original_rows : nat;
  issues_fixed : list issue
}.

Definition with_df (self : Cleaner) (d : DataFrame) : Cleaner :=
  {| df := d;
     original_rows := original_rows self;
     issues_fixed := issues_fixed self |}.

Definition report (self : Cleaner) (i : issue) : Cleaner :=
  {| df := df self;
     original_rows := original_rows self;
     issues_fixed := issues_fixed self ++ [i] |}.

(** [__init__]. *)
Definition init : Cleaner :=
  {| df := []; original_rows := 0; issues_fixed := [] |}.

(** [load_data], given the frame [pd.read_csv] returns. *)
Definition load_data (raw : DataFrame) (self : Cleaner) : Cleaner :=
  {| df := raw;
     original_rows := nrows raw;
     issues_fixed := issues_fixed self |}.

Definition valid_genders : list string := ["Male"; "Female"].
Definition valid_blood_types : list string :=
  ["A+"; "A-"; "B+"; "B-"; "AB+"; "AB-"; "O+"; "O-"].
Definition date_columns : list string :=
  ["Date of Admission"; "Discharge Date"].
Definition numerical_columns : list string :=
  ["Age"; "Billing Amount"; "Room Number"].

(** [clean_hospital_name(name)]. *)
Definition clean_hospital_name (name : option string) : option string :=
  match name with
  | None => None
  | Some s =>
      let s := PyStr.strip (PyStr.rstrip_char "," (PyStr.strip s)) in
      let s := PyStr.sub_word_ci "LLC" "LLC" s in
      let s := PyStr.sub_word_ci "PLC" "PLC" s in
      let s := PyStr.sub_word_ci "Inc" "Inc" s in
      let s := PyStr.sub_word_ci "Ltd" "Ltd" s in
      Some s
  end.

(** [clean_insurance_name(name)] and [clean_medication_name(name)]. *)
Definition clean_insurance_name (name : option string) : option string :=
  option_map (fun s => PyStr.title (PyStr.strip s)) name.
Definition clean_medication_name (name : option string) : option string :=
  option_map (fun s => PyStr.title (PyStr.strip s)) name.

(** [remove_duplicates]. *)
Definition remove_duplicates (self : Cleaner) : Cleaner :=
  let duplicates := duplicated (df self) in
  let duplicate_count := count_true duplicates in
  if (0 <? duplicate_count)%nat
  then report (with_df self (drop_duplicates (df self)))
              (RemovedDuplicates duplicate_count)
  else self.

(** The pre-pass of [clean_gender_data] on an object column: the mask of
    the literal spellings, their number, and the column after the mask has
    been set to NaN (when the number is positive). *)
Definition astype_str (xs : list (option string)) : list (option string) :=
  map (fun x => match x with Some t => Some t | None => Some "nan" end) xs.

Definition literal_nan_mask (xs : list (option string)) : list bool :=
  mask_and (str_test PyStr.match_literal_nan (astype_str xs))
           (notna (SObject xs)).

Definition gender_literal_pass (self : Cleaner) (gender : Series) : Cleaner :=
  match gender with
  | SObject xs =>
      let mask := literal_nan_mask xs in
      let nan_strings := count_true mask in
      if (0 <? nan_strings)%nat
      then report (with_df self (df_set (df self) "Gender"
                                        (SObject (assign_where mask None xs))))
                  (FixedLiteralNan nan_strings)
      else self
  | _ => self
  end.

(** [clean_gender_data]. *)
Definition clean_gender_data (self : Cleaner) : result Cleaner :=
  gender <- df_get (df self) "Gender" ;;
  let self := gender_literal_pass self gender in
  gender <- df_get (df self) "Gender" ;;
  let invalid_mask :=
    mask_and (mask_not (isin_text valid_genders gender)) (notna gender) in
  let invalid_genders := count_true invalid_mask in
  if (0 <? invalid_genders)%nat
  then Ok (report (with_df self (df_set (df self) "Gender"
                                        (assign_nan invalid_mask gender)))
                  (ConvertedInvalidGender invalid_genders))
  else Ok self.

(** [clean_blood_types]. *)
Definition clean_blood_types (self : Cleaner) : result Cleaner :=
  blood <- df_get (df self) "Blood Type" ;;
  let invalid_mask := mask_not (isin_text valid_blood_types blood) in
  let invalid_blood := count_true invalid_mask in
  if (0 <? invalid_blood)%nat
  then blood' <- assign_text invalid_mask "Unknown" blood ;;
       Ok (report (with_df self (df_set (df self) "Blood Type" blood'))
                  (MarkedInvalidBlood invalid_blood))
  else Ok self.

(** [clean_numerical_data], one block per column.  Each block reads the
    column again after every assignment, as the script does. *)
Definition clean_age (self : Cleaner) : result (Cleaner * nat) :=
  age <- df_get (df self) "Age" ;;
  ages <- numeric_cells age ;;
  let unrealistic := mask_or (lt_const 0 ages) (gt_const 120 ages) in
  let unrealistic_age := count_true unrealistic in
  if (0 <? unrealistic_age)%nat
  then Ok (with_df self (df_set (df self) "Age"
                                (SNum (assign_where unrealistic None ages))),
           unrealistic_age)
  else Ok (self, 0%nat).

Definition clean_billing (self : Cleaner) : result (Cleaner * nat) :=
  billing <- df_get (df self) "Billing Amount" ;;
  amounts <- numeric_cells billing ;;
  let negative := lt_const 0 amounts in
  let negative_billing := count_true negative in
  let '(self, amounts, billing_issues) :=
    if (0 <? negative_billing)%nat
    then let flipped := update_where negative (option_map Qabs) amounts in
         (with_df self (df_set (df self) "Billing Amount" (SNum flipped)),
          flipped, negative_billing)
    else (self, amounts, 0%nat) in
  let unrealistic_billing :=
    count_true (mask_or (lt_const 1 amounts) (gt_const 1000000 amounts)) in
  if (0 <? unrealistic_billing)%nat
  then let capped :=
         assign_where (gt_const 1000000 amounts) (Some 1000000%Q) amounts in
       let nulled := assign_where (lt_const 1 capped) None capped in
       Ok (with_df self (df_set (df self) "Billing Amount" (SNum nulled)),
           (billing_issues + unrealistic_billing)%nat)
  else Ok (self, billing_issues).

Definition clean_room (self : Cleaner) : result (Cleaner * nat) :=
  room <- df_get (df self) "Room Number" ;;
  rooms <- numeric_cells room ;;
  let unrealistic := mask_or (lt_const 1 rooms) (gt_const 9999 rooms) in
  let unrealistic_rooms := count_true unrealistic in
  if (0 <? unrealistic_rooms)%nat
  then Ok (with_df self (df_set (df self) "Room Number"
                                (SNum (assign_where unrealistic None rooms))),
           unrealistic_rooms)
  else Ok (self, 0%nat).

Definition report_if (n : nat) (i : issue) (self : Cleaner) : Cleaner :=
  if (0 <? n)%nat then report self i else self.

Definition clean_numerical_data (self : Cleaner) : result Cleaner :=
  r <- clean_age self ;;
  let '(self, age_issues) := r in
  r <- clean_billing self ;;
  let '(self, billing_issues) := r in
  r <- clean_room self ;;
  let '(self, room_issues) := r in
  Ok (report_if room_issues (FixedRoom room_issues)
        (report_if billing_issues (FixedBilling billing_issues)
           (report_if age_issues (FixedAge age_issues) self))).

(** [detect_outliers]: the quartiles of the numeric columns are computed
    and printed; the frame is not touched. *)
Definition detect_outliers (self : Cleaner) : result Cleaner :=
  for_each numerical_columns
    (fun col self =>
       if df_has (df self) col
       then s <- df_get (df self) col ;;
            statistic_cells s ;;;
            Ok self
       else Ok self)
    self.

(** The columns with missing cells and their counts
    ([missing_summary[missing_summary > 0]]). *)
Definition missing_summary (d : DataFrame) : list (string * nat) :=
  filter (fun p : string * nat => (0 <? snd p)%nat)
         (map (fun p : string * Series => (fst p, count_true (isna (snd p)))) d).

(** [handle_missing_values]: only [Age] is filled. *)
Definition handle_missing_values (self : Cleaner) : result Cleaner :=
  let summary := missing_summary (df self) in
  if (0 <? List.length summary)%nat
  then
    self <-
      match find (fun p : string * nat => String.eqb (fst p) "Age") summary with
      | Some (_, missing_age) =>
          age <- df_get (df self) "Age" ;;
          ages <- statistic_cells age ;;
          let median_age := median ages in
          let self :=
            match median_age with
            | Some _ =>
                with_df self (df_set (df self) "Age"
                                     (SNum (fillna median_age ages)))
            | None => self
            end in
          Ok (report self (FilledAges missing_age))
      | None => Ok self
      end ;;
    Ok (report self AppliedMissingPolicies)
  else Ok self.

(** [clean_names]. *)
Definition clean_names (self : Cleaner) : result Cleaner :=
  name <- df_get (df self) "Name" ;;
  texts <- str_accessor name ;;
  let irregular_names := count_true (str_test PyStr.irregular_caps texts) in
  name <- df_get (df self) "Name" ;;
  name' <- apply fix_name_formatting name ;;
  Ok (report (with_df self (df_set (df self) "Name" name'))
             (FixedNames irregular_names)).

(** [clean_hospital_names]. *)
Definition clean_hospital_names (self : Cleaner) : result Cleaner :=
  hospital <- df_get (df self) "Hospital" ;;
  texts <- str_accessor hospital ;;
  let trailing_comma := count_true (str_test (PyStr.endswith_char ",") texts) in
  hospital <- df_get (df self) "Hospital" ;;
  hospital' <- apply clean_hospital_name hospital ;;
  Ok (report (with_df self (df_set (df self) "Hospital" hospital'))
             (CleanedHospitalNames trailing_comma)).

(** [clean_categorical_data]. *)
Definition clean_categorical_data (self : Cleaner) : result Cleaner :=
  df_get (df self) "Medical Condition" ;;;
  df_get (df self) "Admission Type" ;;;
  df_get (df self) "Test Results" ;;;
  insurance <- df_get (df self) "Insurance Provider" ;;
  insurance' <- apply clean_insurance_name insurance ;;
  let self := with_df self (df_set (df self) "Insurance Provider" insurance') in
  medication <- df_get (df self) "Medication" ;;
  medication' <- apply clean_medication_name medication ;;
  let self := with_df self (df_set (df self) "Medication" medication') in
  Ok (report self StandardizedCategorical).

Section WithParser.

Variable parse_datetime : string -> option Z.

(** The loop body of [clean_dates]. *)
Definition clean_date_column (col : string) (self : Cleaner) : result Cleaner :=
  s <- df_get (df self) col ;;
  let original_invalid := count_true (isna s) in
  s' <- to_datetime parse_datetime s ;;
  let self := with_df self (df_set (df self) col s') in
  let new_invalid := count_true (isna s') in
  if (original_invalid <? new_invalid)%nat
  then Ok (report self (ConvertedInvalidDates (new_invalid - original_invalid)
                                              col))
  else Ok self.

(** [clean_dates]: the repair policy sets a discharge date that lies
    before the admission date to NaT. *)
Definition clean_dates (self : Cleaner) : result Cleaner :=
  self <- for_each date_columns clean_date_column self ;;
  if df_has (df self) "Date of Admission" && df_has (df self) "Discharge Date"
  then
    discharge <- df_get (df self) "Discharge Date" ;;
    admission <- df_get (df self) "Date of Admission" ;;
    mask <- datetime_lt discharge admission ;;
    let invalid_date_logic := count_true mask in
    if (0 <? invalid_date_logic)%nat
    then Ok (report (with_df self (df_set (df self) "Discharge Date"
                                          (assign_nan mask discharge)))
                    (FixedDateSequences invalid_date_logic))
    else Ok self
  else Ok self.

(** [run_full_cleaning], from the loaded frame to the object state whose
    [df] the method returns.  The report and the file written at the end
    are output only. *)
Definition run_full_cleaning (raw : DataFrame) : result Cleaner :=
  let self := load_data raw init in
  let self := remove_duplicates self in
  self <- clean_names self ;;
  self <- clean_gender_data self ;;
  self <- clean_blood_types self ;;
  self <- clean_dates self ;;
  self <- clean_hospital_names self ;;
  self <- clean_numerical_data self ;;
  self <- clean_categorical_data self ;;
  self <- handle_missing_values self ;;
  self <- detect_outliers self ;;
  Ok self.

End WithParser.

End HospitalDataCleaner.

(* ================================================================== *)
(** * [ml_missing_value_imputation.py]:
      class [MLExpertMissingValueHandler] *)
(* ================================================================== *)

Module MLExpertMissingValueHandler.

(** The entries appended to [imputation_report['strategies_applied']]. *)
Inductive strategy : Type :=
| DroppedPII (cols : list string)
| ModeImputation (col : string)
| DomainImputation (col : string)
| StatisticalImputation (col : string)
| ForwardBackwardFill (col : string)
| GenderModeImputation
| FixedDateLogic (n : nat)
| CreatedLengthOfStay
| CreatedAgeGroup
| CreatedBillingCategory.

(** The console lines that report the outcome of a check. *)
Inductive console_line : Type :=
| DateFixVerified
    (** "Successfully fixed all date logic errors" *)
| DateFixResidual (remaining_negative : nat)
    (** "{remaining_negative} records still have negative length of stay" *)
| NoDateLogicErrors
    (** "No date logic errors found" *)
| LengthOfStayWarning (negative_los : nat)
    (** "Warning: {negative_los} records still have negative length of stay" *)
| LengthOfStayNonNegative
    (** "All length of stay values are non-negative" *).

(** The column lists [analyze_missing_patterns] stores on the object. *)
Record Buckets : Type := {
  pii_columns : list string;
  categorical_low_missing : list string;
  categorical_high_missing : list string;
  numerical_missing : list string;
  date_missing : list string;
  keep_missing : list string
}.

(** The object state: [self.df], [self.imputation_report], the column
    lists once the analysis has run, and the console. *)
Record Handler : Type := {
  df : DataFrame;
  strategies_applied : list strategy;
  columns_processed : list string;
  rows_affected : list (string * nat);
  buckets : option Buckets;
  console : list console_line
}.

Definition with_df (self : Handler) (d : DataFrame) : Handler :=
  {| df := d;
     strategies_applied := strategies_applied self;
     columns_processed := columns_processed self;
     rows_affected := rows_affected self;
     buckets := buckets self;
     console := console self |}.

Definition with_buckets (self : Handler) (b : Buckets) : Handler :=
  {| df := df self;
     strategies_applied := strategies_applied self;
     columns_processed := columns_processed self;
     rows_affected := rows_affected self;
     buckets := Some b;
     console := console self |}.

Definition say (self : Handler) (l : console_line) : Handler :=
  {| df := df self;
     strategies_applied := strategies_applied self;
     columns_processed := columns_processed self;
     rows_affected := rows_affected self;
     buckets := buckets self;
     console := console self ++ [l] |}.

Definition add_strategy (self : Handler) (s : strategy) : Handler :=
  {| df := df self;
     strategies_applied := strategies_applied self ++ [s];
     columns_processed := columns_processed self;
     rows_affected := rows_affected self;
     buckets := buckets self;
     console := console self |}.

(** [rows_affected[key] = n] on a dictionary. *)
Fixpoint dict_set (d : list (string * nat)) (key : string) (n : nat)
  : list (string * nat) :=
  match d with
  | [] => [(key, n)]
  | (k, v) :: rest =>
      if String.eqb k key then (k, n) :: rest else (k, v) :: dict_set rest key n
  end.

Definition set_rows_affected (self : Handler) (key : string) (n : nat)
  : Handler :=
  {| df := df self;
     strategies_applied := strategies_applied self;
     columns_processed := columns_processed self;
     rows_affected := dict_set (rows_affected self) key n;
     buckets := buckets self;
     console := console self |}.

Definition extend_processed (self : Handler) (cols : list string) : Handler :=
  {| df := df self;
     strategies_applied := strategies_applied self;
     columns_processed := columns_processed self ++ cols;
     rows_affected := rows_affected self;
     buckets := buckets self;
     console := console self |}.

(** The three report updates every imputation ends with. *)
Definition record_imputation (self : Handler) (s : strategy) (col : string)
  (missing_count : nat) : Handler :=
  extend_processed (set_rows_affected (add_strategy self s) col missing_count)
                   [col].

(** Reading one of the column lists before the analysis has set it is an
    [AttributeError]. *)
Definition get_buckets (self : Handler) : result Buckets :=
  match buckets self with
  | Some b => Ok b
  | None => Raise AttributeError
  end.

(** [__init__]. *)
Definition init : Handler :=
  {| df := [];
     strategies_applied := [];
     columns_processed := [];
     rows_affected := [];
     buckets := None;
     console := [] |}.

Definition date_cols : list string := ["Date of Admission"; "Discharge Date"].

Definition is_object (s : Series) : bool :=
  match s with SObject _ => true | _ => false end.
Definition is_number (s : Series) : bool :=
  match s with SNum _ => true | _ => false end.
Definition is_datetime (s : Series) : bool :=
  match s with SDatetime _ => true | _ => false end.

(** [(missing / len(df)) * 100]. *)
Definition missing_pct (miss_count n : nat) : Q :=
  (inject_Z (Z.of_nat miss_count) / inject_Z (Z.of_nat n) * 100)%Q.

Definition empty_buckets : Buckets :=
  {| pii_columns := ["Name"];
     categorical_low_missing := [];
     categorical_high_missing := [];
     numerical_missing := [];
     date_missing := [];
     keep_missing := [] |}.

(** The loop body of [analyze_missing_patterns]. *)
Definition classify (n : nat) (b : Buckets) (p : string * Series) : Buckets :=
  let '(col, s) := p in
  let miss_count := count_true (isna s) in
  let miss_pct_val := missing_pct miss_count n in
  if (miss_count =? 0)%nat then b
  else if existsb (String.eqb col) (pii_columns b) then b
  else if contains_sub "date" (PyStr.lower col) || is_datetime s then
    {| pii_columns := pii_columns b;
       categorical_low_missing := categorical_low_missing b;
       categorical_high_missing := categorical_high_missing b;
       numerical_missing := numerical_missing b;
       date_missing := date_missing b ++ [col];
       keep_missing := keep_missing b |}
  else if is_object s && Qlt_bool miss_pct_val 5 then
    {| pii_columns := pii_columns b;
       categorical_low_missing := categorical_low_missing b ++ [col];
       categorical_high_missing := categorical_high_missing b;
       numerical_missing := numerical_missing b;
       date_missing := date_missing b;
       keep_missing := keep_missing b |}
  else if is_object s && Qle_bool 5 miss_pct_val then
    {| pii_columns := pii_columns b;
       categorical_low_missing := categorical_low_missing b;
       categorical_high_missing := categorical_high_missing b ++ [col];
       numerical_missing := numerical_missing b;
       date_missing := date_missing b;
       keep_missing := keep_missing b |}
  else if is_number s then
    {| pii_columns := pii_columns b;
       categorical_low_missing := categorical_low_missing b;
       categorical_high_missing := categorical_high_missing b;
       numerical_missing := numerical_missing b ++ [col];
       date_missing := date_missing b;
       keep_missing := keep_missing b |}
  else
    {| pii_columns := pii_columns b;
       categorical_low_missing := categorical_low_missing b;
       categorical_high_missing := categorical_high_missing b;
       numerical_missing := numerical_missing b;
       date_missing := date_missing b;
       keep_missing := keep_missing b ++ [col] |}.

(** [analyze_missing_patterns]. *)
Definition analyze_missing_patterns (self : Handler) : Handler :=
  with_buckets self
    (fold_left (classify (nrows (df self))) (df self) empty_buckets).

(** [drop_pii_columns]. *)
Definition drop_pii_columns (self : Handler) : result Handler :=
  b <- get_buckets self ;;
  let cols_to_drop := filter (df_has (df self)) (pii_columns b) in
  match cols_to_drop with
  | [] => Ok self
  | _ :: _ =>
      Ok (extend_processed
            (add_strategy (with_df self (df_drop (df self) cols_to_drop))
                          (DroppedPII cols_to_drop))
            cols_to_drop)
  end.

(** The loop body of [impute_categorical_low_missing]. *)
Definition impute_low_column (col : string) (self : Handler) : result Handler :=
  match df_lookup (df self) col with
  | None => Ok self
  | Some s =>
      let missing_count := count_true (isna s) in
      if (missing_count =? 0)%nat then Ok self
      else
        match fill_with_mode s with
        | Some s' =>
            Ok (record_imputation (with_df self (df_set (df self) col s'))
                                  (ModeImputation col) col missing_count)
        | None => Ok self
        end
  end.

(** [impute_categorical_low_missing]. *)
Definition impute_categorical_low_missing (self : Handler) : result Handler :=
  b <- get_buckets self ;;
  for_each (categorical_low_missing b) impute_low_column self.

(** The loop body of [impute_categorical_high_missing]. *)
Definition impute_high_column (col : string) (self : Handler) : result Handler :=
  match df_lookup (df self) col with
  | None => Ok self
  | Some s =>
      let missing_count := count_true (isna s) in
      if (missing_count =? 0)%nat then Ok self
      else
        s' <-
          (if String.eqb col "Insurance Provider" then fillna_text "Self-Pay" s
           else if String.eqb col "Medication" then fillna_text "No Medication" s
           else if String.eqb col "Admission Type" then
             match fill_with_mode s with
             | Some filled => Ok filled
             | None => fillna_text "Emergency" s
             end
           else fillna_text "Unknown" s) ;;
        Ok (record_imputation (with_df self (df_set (df self) col s'))
                              (DomainImputation col) col missing_count)
  end.

(** [impute_categorical_high_missing]. *)
Definition impute_categorical_high_missing (self : Handler) : result Handler :=
  b <- get_buckets self ;;
  for_each (categorical_high_missing b) impute_high_column self.

(** The loop body of [impute_numerical_data]. *)
Definition impute_numerical_column (col : string) (self : Handler)
  : result Handler :=
  match df_lookup (df self) col with
  | None => Ok self
  | Some s =>
      let missing_count := count_true (isna s) in
      if (missing_count =? 0)%nat then Ok self
      else
        xs <- statistic_cells s ;;
        let value :=
          if contains_sub "billing" (PyStr.lower col)
             || contains_sub "amount" (PyStr.lower col)
          then median xs
          else mean xs in
        let self :=
          match value with
          | Some _ => with_df self (df_set (df self) col (SNum (fillna value xs)))
          | None => self
          end in
        Ok (record_imputation self (StatisticalImputation col) col missing_count)
  end.

(** [impute_numerical_data]. *)
Definition impute_numerical_data (self : Handler) : result Handler :=
  b <- get_buckets self ;;
  for_each (numerical_missing b) impute_numerical_column self.

(** [series.fillna(method='ffill').fillna(method='bfill')]. *)
Definition ffill_bfill (s : Series) : Series :=
  match s with
  | SObject xs => SObject (bfill (ffill xs))
  | SNum xs => SNum (bfill (ffill xs))
  | SDatetime xs => SDatetime (bfill (ffill xs))
  end.

(** The loop body of [impute_date_data]; its two branches are the same. *)
Definition impute_date_column (col : string) (self : Handler) : result Handler :=
  match df_lookup (df self) col with
  | None => Ok self
  | Some s =>
      let missing_count := count_true (isna s) in
      if (missing_count =? 0)%nat then Ok self
      else
        let self :=
          if contains_sub "admission" (PyStr.lower col)
          then with_df self (df_set (df self) col (ffill_bfill s))
          else with_df self (df_set (df self) col (ffill_bfill s)) in
        Ok (record_imputation self (ForwardBackwardFill col) col missing_count)
  end.

(** [impute_date_data]. *)
Definition impute_date_data (self : Handler) : result Handler :=
  b <- get_buckets self ;;
  for_each (date_missing b) impute_date_column self.

(** [handle_gender_missing]. *)
Definition handle_gender_missing (self : Handler) : Handler :=
  match df_lookup (df self) "Gender" with
  | None => self
  | Some s =>
      let missing_count := count_true (isna s) in
      if (missing_count =? 0)%nat then self
      else
        match fill_with_mode s with
        | Some s' =>
            record_imputation (with_df self (df_set (df self) "Gender" s'))
                              GenderModeImputation "Gender" missing_count
        | None => self
        end
  end.

(** [validate_imputation]: no column has a missing cell. *)
Definition validate_imputation (self : Handler) : bool :=
  forallb (fun p : string * Series => (count_true (isna (snd p)) =? 0)%nat)
          (df self).

(** The check that ends [fix_date_logic_errors] ("Verify the fix"): the
    length of stay is computed again and the number of negative values is
    printed. *)
Definition verify_date_fix (self : Handler) : result Handler :=
  discharge <- df_get (df self) "Discharge Date" ;;
  admission <- df_get (df self) "Date of Admission" ;;
  los_fixed <- timedelta_days discharge admission ;;
  let remaining_negative := count_true (negative_days los_fixed) in
  if (remaining_negative =? 0)%nat
  then Ok (say self DateFixVerified)
  else Ok (say self (DateFixResidual remaining_negative)).

(** The exchange of [fix_date_logic_errors] on the rows of [mask]. *)
Definition swap_dates (mask : list bool) (admission discharge : Series)
  : result (Series * Series) :=
  match admission, discharge with
  | SDatetime adm, SDatetime dis =>
      let admission_temp := adm in
      let adm' := take_where mask dis adm in
      let dis' := take_where mask admission_temp dis in
      Ok (SDatetime adm', SDatetime dis')
  | _, _ => Raise TypeError
  end.

(** [fix_date_logic_errors]: the repair policy exchanges the two dates of
    a row whose discharge lies before its admission. *)
Definition fix_date_logic_errors (self : Handler) : result Handler :=
  if df_has (df self) "Date of Admission" && df_has (df self) "Discharge Date"
  then
    discharge <- df_get (df self) "Discharge Date" ;;
    admission <- df_get (df self) "Date of Admission" ;;
    los_initial <- timedelta_days discharge admission ;;
    let negative_los := negative_days los_initial in
    let negative_count := count_true negative_los in
    if (0 <? negative_count)%nat
    then
      swapped <- swap_dates negative_los admission discharge ;;
      let '(admission', discharge') := swapped in
      let self :=
        with_df self
          (df_set (df_set (df self) "Date of Admission" admission')
                  "Discharge Date" discharge') in
      let self := add_strategy self (FixedDateLogic negative_count) in
      let self := set_rows_affected self "Date_Logic_Fix" negative_count in
      verify_date_fix self
    else Ok (say self NoDateLogicErrors)
  else Ok self.

Definition age_bins : list edge :=
  [Finite 0; Finite 18; Finite 35; Finite 50; Finite 65; Finite 100].
Definition age_labels : list string :=
  ["Child"; "Young_Adult"; "Adult"; "Middle_Age"; "Senior"].
Definition billing_labels : list string :=
  ["Low"; "Medium"; "High"; "Very_High"].

(** Feature 1 of [generate_ml_ready_features]: [Length_of_Stay]. *)
Definition feature_length_of_stay (self : Handler) : result Handler :=
  if df_has (df self) "Date of Admission" && df_has (df self) "Discharge Date"
  then
    discharge <- df_get (df self) "Discharge Date" ;;
    admission <- df_get (df self) "Date of Admission" ;;
    los <- timedelta_days discharge admission ;;
    let self :=
      with_df self (df_set (df self) "Length_of_Stay"
                           (SNum (map (option_map inject_Z) los))) in
    let negative_los := count_true (negative_days los) in
    let self :=
      if (0 <? negative_los)%nat
      then say self (LengthOfStayWarning negative_los)
      else say self LengthOfStayNonNegative in
    Ok (add_strategy self CreatedLengthOfStay)
  else Ok self.

(** Feature 2: [Age_Group]; the category column is a column of labels. *)
Definition feature_age_group (self : Handler) : result Handler :=
  match df_lookup (df self) "Age" with
  | Some age =>
      ages <- binned_cells age ;;
      Ok (add_strategy
            (with_df self (df_set (df self) "Age_Group"
                                  (SObject (map (cut age_bins age_labels) ages))))
            CreatedAgeGroup)
  | None => Ok self
  end.

(** The bin edges of feature 3 have to increase strictly. *)
Definition increasing_edges (q25 q50 q75 : Q) : bool :=
  Qlt_bool 0 q25 && Qlt_bool q25 q50 && Qlt_bool q50 q75.

(** Feature 3: [Billing_Category], binned at the quartiles. *)
Definition feature_billing_category (self : Handler) : result Handler :=
  match df_lookup (df self) "Billing Amount" with
  | Some billing =>
      amounts <- statistic_cells billing ;;
      match quantile (1 # 4) amounts, quantile (1 # 2) amounts,
            quantile (3 # 4) amounts with
      | Some q25, Some q50, Some q75 =>
          if increasing_edges q25 q50 q75
          then
            let bins := [Finite 0; Finite q25; Finite q50; Finite q75;
                         PlusInfinity] in
            Ok (add_strategy
                  (with_df self
                     (df_set (df self) "Billing_Category"
                             (SObject (map (cut bins billing_labels) amounts))))
                  CreatedBillingCategory)
          else Raise ValueError
      | _, _, _ => Raise ValueError
      end
  | None => Ok self
  end.

(** [generate_ml_ready_features]. *)
Definition generate_ml_ready_features (self : Handler) : result Handler :=
  self <- feature_length_of_stay self ;;
  self <- feature_age_group self ;;
  feature_billing_category self.

(** The imputation steps of the pipeline, from the analysis to the gender
    fill. *)
Definition impute_all (self : Handler) : result Handler :=
  let self := analyze_missing_patterns self in
  self <- drop_pii_columns self ;;
  self <- impute_categorical_low_missing self ;;
  self <- impute_categorical_high_missing self ;;
  self <- impute_numerical_data self ;;
  self <- impute_date_data self ;;
  Ok (handle_gender_missing self).

Section WithParser.

Variable parse_datetime : string -> option Z.

(** [load_data], given the frame [pd.read_csv] returns. *)
Definition load_data (raw : DataFrame) (self : Handler) : result Handler :=
  d <- for_each date_cols
         (fun col d =>
            match df_lookup d col with
            | Some s => s' <- to_datetime parse_datetime s ;;
                        Ok (df_set d col s')
            | None => Ok d
            end)
         raw ;;
  Ok (with_df self d).

(** [run_ml_imputation_pipeline], from the loaded frame to the pair the
    method returns: the object state, whose [df] is the first component,
    and [success]. *)
Definition run_ml_imputation_pipeline (raw : DataFrame)
  : result (Handler * bool) :=
  self <- load_data raw init ;;
  self <- impute_all self ;;
  self <- fix_date_logic_errors self ;;
  let success := validate_imputation self in
  self <- generate_ml_ready_features self ;;
  Ok (self, success).

End WithParser.

End MLExpertMissingValueHandler.

(* ================================================================== *)
(** * Calendar dates, for the scenarios *)
(* ================================================================== *)

Module Calendar.

Local Open Scope Z_scope.

(** Days from 1970-01-01 to the given date of the proleptic Gregorian
    calendar. *)
Definition days_from_civil (y m d : Z) : Z :=
  let y' := if m <=? 2 then y - 1 else y in
  let era := y' / 400 in
  let yoe := y' - era * 400 in
  let mp := (m + 9) mod 12 in
  let doy := (153 * mp + 2) / 5 + d - 1 in
  let doe := yoe * 365 + yoe / 4 - yoe / 100 + doy in
  era * 146097 + doe - 719468.

(** The timestamp of midnight of a date. *)
Definition timestamp (y m d : Z) : Z := days_from_civil y m d * ns_per_day.

Definition is_leap (y : Z) : bool :=
  ((y mod 4 =? 0) && negb (y mod 100 =? 0)) || (y mod 400 =? 0).

Definition days_in_month (y m : Z) : Z :=
  if m =? 2 then (if is_leap y then 29 else 28)
  else if (m =? 4) || (m =? 6) || (m =? 9) || (m =? 11) then 30
  else 31.

Definition digit (c : ascii) : option Z :=
  if PyStr.isdigit c then Some (Z.of_nat (PyStr.ord c) - 48) else None.

Fixpoint number_from (acc : Z) (cs : list ascii) : option Z :=
  match cs with
  | [] => Some acc
  | c :: r =>
      match digit c with
      | Some v => number_from (acc * 10 + v) r
      | None => None
      end
  end.

(** A parser for the text [YYYY-MM-DD]: the timestamp of a date that
    exists, nothing for any other text. *)
Definition parse_iso_date (s : string) : option Z :=
  match list_ascii_of_string s with
  | [y1; y2; y3; y4; s1; m1; m2; s2; d1; d2] =>
      if Ascii.eqb s1 "-" && Ascii.eqb s2 "-" then
        match number_from 0 [y1; y2; y3; y4], number_from 0 [m1; m2],
              number_from 0 [d1; d2] with
        | Some y, Some m, Some d =>
            if (1 <=? m) && (m <=? 12) && (1 <=? d) && (d <=? days_in_month y m)
            then Some (timestamp y m d)
            else None
        | _, _, _ => None
        end
      else None
  | _ => None
  end.

End Calendar.

(* ================================================================== *)
(** * What the rules do to one cell *)
(* ================================================================== *)

(** The numeric range rule on one age: outside [0, 120] becomes missing. *)
Definition age_cell (x : option Q) : option Q :=
  match x with
  | Some q => if Qlt_bool q 0 || Qlt_bool 120 q then None else x
  | None => None
  end.

(** The three assignments of the billing block on one amount. *)
Definition flip_cell (x : option Q) : option Q :=
  match x with
  | Some q => if Qlt_bool q 0 then Some (Qabs q) else x
  | None => None
  end.
Definition cap_cell (x : option Q) : option Q :=
  match x with
  | Some q => if Qlt_bool 1000000 q then Some 1000000%Q else x
  | None => None
  end.
Definition null_cell (x : option Q) : option Q :=
  match x with
  | Some q => if Qlt_bool q 1 then None else x
  | None => None
  end.
Definition billing_cell (x : option Q) : option Q :=
  null_cell (cap_cell (flip_cell x)).

(** The numeric range rule on one room number. *)
Definition room_cell (x : option Q) : option Q :=
  match x with
  | Some q => if Qlt_bool q 1 || Qlt_bool 9999 q then None else x
  | None => None
  end.

(** The two passes of the gender rule on one cell of an object column. *)
Definition literal_nan_cell (x : option string) : bool :=
  match x with
  | Some t => PyStr.match_literal_nan t
  | None => false
  end.
Definition gender_cell (x : option string) : option string :=
  match x with
  | Some t =>
      if existsb (String.eqb t) HospitalDataCleaner.valid_genders
      then x else None
  | None => None
  end.

(** The blood type rule on one cell of an object column. *)
Definition blood_cell (x : option string) : option string :=
  match x with
  | Some t =>
      if existsb (String.eqb t) HospitalDataCleaner.valid_blood_types
      then x else Some "Unknown"
  | None => Some "Unknown"
  end.


(** A column has at least one present cell; a column has no missing
    cell. *)
Definition has_present (s : Series) : Prop :=
  exists i, nth_error (isna s) i = Some false.
Definition no_missing (s : Series) : Prop :=
  count_true (isna s) = 0%nat.

(** Two columns have the same dtype. *)
Definition same_dtype (s t : Series) : Prop :=
  match s, t with
  | SObject _, SObject _ => True
  | SNum _, SNum _ => True
  | SDatetime _, SDatetime _ => True
  | _, _ => False
  end.

(** The column names of a frame are distinct, as [pd.read_csv] makes
    them. *)
Definition unique_columns (d : DataFrame) : Prop := NoDup (df_columns d).

(* ================================================================== *)
(** * Vocabulary of the statements *)
(* ================================================================== *)

Module HDC := HospitalDataCleaner.
Module MLH := MLExpertMissingValueHandler.

(** The age bucket of a present age, in the words of the bin edges. *)
Definition age_bucket (q : Q) (l : string) : Prop :=
  (l = "Child" /\ 0 < q /\ q <= 18)%Q
  \/ (l = "Young_Adult" /\ 18 < q /\ q <= 35)%Q
  \/ (l = "Adult" /\ 35 < q /\ q <= 50)%Q
  \/ (l = "Middle_Age" /\ 50 < q /\ q <= 65)%Q
  \/ (l = "Senior" /\ 65 < q /\ q <= 100)%Q.

(** The tests of the numeric range rule on one cell. *)
Definition unrealistic_age (x : option Q) : bool :=
  match x with Some q => Qlt_bool q 0 || Qlt_bool 120 q | None => false end.

(** The pre-pass of the gender rule and its accepted-set test on one
    cell. *)
Definition prepass_cell (x : option string) : option string :=
  if literal_nan_cell x then None else x.
Definition invalid_gender_cell (x : option string) : bool :=
  match x with
  | Some t => negb (existsb (String.eqb t) HDC.valid_genders)
  | None => false
  end.

(** The test of the blood type rule on one cell. *)
Definition invalid_blood_cell (x : option string) : bool :=
  negb match x with
       | Some t => existsb (String.eqb t) HDC.valid_blood_types
       | None => false
       end.

Definition LF : ascii := "010"%char.

(** The texts the pattern of the pre-pass matches. *)
Definition literal_nan_spellings : list string :=
  ["nan"; "naN"; "Nan"; "NaN";
   String "n" (String "a" (String "n" (String LF "")));
   String "n" (String "a" (String "N" (String LF "")));
   String "N" (String "a" (String "n" (String LF "")));
   String "N" (String "a" (String "N" (String LF "")))].

(** The lengths of stay of two datetime columns, in whole days. *)
Definition los_cells (dis adm : list (option Z)) : list (option Z) :=
  map (fun p : option Z * option Z => days_between (fst p) (snd p))
      (combine dis adm).




(** A list of cells without a missing one; with a present one. *)
Definition all_present {A : Type} (xs : list (option A)) : Prop :=
  count_true (map is_none xs) = 0%nat.
Definition some_present {A : Type} (xs : list (option A)) : Prop :=
  exists i, nth_error (map is_none xs) i = Some false.

(** A column after a fill: same dtype, same length, and either untouched
    or without a missing cell. *)
Definition column_evolves (s s' : Series) : Prop :=
  same_dtype s s' /\ slen s' = slen s /\ (s' = s \/ no_missing s').

(** What one imputation step may do to the frame: nothing, or replace the
    column [col] by a filled column of the same dtype and length. *)
Definition touches (col : string) (d d' : DataFrame) : Prop :=
  d' = d
  \/ exists s s', df_lookup d col = Some s
                  /\ d' = df_set d col s'
                  /\ same_dtype s s' /\ slen s' = slen s /\ no_missing s'.

(** The frame after some imputation steps. *)
Definition evolves (d d' : DataFrame) : Prop :=
  forall c s, df_lookup d c = Some s ->
              exists s', df_lookup d' c = Some s' /\ column_evolves s s'.

(** Column [c] exists and has no missing cell. *)
Definition filled (c : string) (d : DataFrame) : Prop :=
  exists s, df_lookup d c = Some s /\ no_missing s.

(** What a loop body of the dispatch does on a column whose dtype passes
    [ok]: it returns, keeps the column lists, touches its column only and
    fills it when there is a value to fill with. *)
Definition body_spec (body : string -> MLH.Handler -> result MLH.Handler)
  (ok : Series -> bool) : Prop :=
  forall (col : string) (self : MLH.Handler),
    (forall s, df_lookup (MLH.df self) col = Some s -> ok s = true) ->
    exists self',
      body col self = Ok self'
      /\ MLH.buckets self' = MLH.buckets self
      /\ touches col (MLH.df self) (MLH.df self')
      /\ (forall s, df_lookup (MLH.df self) col = Some s ->
                    has_present s \/ no_missing s ->
                    filled col (MLH.df self')).

(** The column lists the analysis computes for a frame, and the columns
    it designates for a fill. *)
Definition analysis (d : DataFrame) : MLH.Buckets :=
  fold_left (MLH.classify (nrows d)) d MLH.empty_buckets.
Definition fill_columns (b : MLH.Buckets) : list string :=
  (MLH.categorical_low_missing b ++ MLH.categorical_high_missing b
   ++ MLH.numerical_missing b ++ MLH.date_missing b)%list.

(** What the analysis guarantees about its lists on frame [d]. *)
Record buckets_ok (d : DataFrame) (b : MLH.Buckets) : Prop := {
  ok_pii : MLH.pii_columns b = ["Name"];
  ok_keep : MLH.keep_missing b = [];
  ok_low : forall c, In c (MLH.categorical_low_missing b) ->
                     c <> "Name"
                     /\ exists s, df_lookup d c = Some s
                                  /\ MLH.is_object s = true;
  ok_high : forall c, In c (MLH.categorical_high_missing b) ->
                      c <> "Name"
                      /\ exists s, df_lookup d c = Some s
                                   /\ MLH.is_object s = true;
  ok_num : forall c, In c (MLH.numerical_missing b) ->
                     c <> "Name"
                     /\ exists s, df_lookup d c = Some s
                                  /\ MLH.is_number s = true;
  ok_date : forall c, In c (MLH.date_missing b) ->
                      c <> "Name" /\ exists s, df_lookup d c = Some s
}.

(* ================================================================== *)
(** * Frames of the scenarios *)
(* ================================================================== *)

(** The imputation object on a given frame. *)
Definition handler_on (d : DataFrame) : MLH.Handler := MLH.with_df MLH.init d.

(** The cleaning object on a given frame. *)
Definition cleaner_on (d : DataFrame) : HDC.Cleaner := HDC.with_df HDC.init d.

(** A name with irregular capitals, an apostrophe and a hyphen. *)
Definition name_scenario : HDC.Cleaner :=
  cleaner_on [("Name", SObject [Some "jOHN o'BRIEN-smith"])].

(** A gender column with the spelling "NAN". *)
Definition upper_nan_state : HDC.Cleaner :=
  cleaner_on [("Gender", SObject [Some "NAN"; Some "Male"])].

(** A gender column with the literal text "NaN". *)
Definition literal_nan_state : HDC.Cleaner :=
  cleaner_on
    [("Gender", SObject [Some "Male"; Some "NaN"; Some "Male"; Some "Female"])].

(** A blood type column with a missing and an invalid cell. *)
Definition missing_blood_state : HDC.Cleaner :=
  cleaner_on [("Blood Type", SObject [Some "A+"; None; Some "X"])].

(** Numeric columns with a negative, a missing, a huge and a tiny
    amount, and with the ages 0, 101, 120 and 121. *)
Definition numeric_state : HDC.Cleaner :=
  cleaner_on
    [("Age", SNum [Some 0%Q; Some 101%Q; Some 120%Q; Some 121%Q]);
     ("Billing Amount",
      SNum [Some (-500)%Q; None; Some 2000000%Q; Some (1 # 2)%Q]);
     ("Room Number", SNum [Some 101%Q; Some 0%Q; Some 328%Q; None])].

(** A frame with an [Age] column and none of the other columns the rules
    read. *)
Definition age_only : DataFrame := [("Age", SNum [Some 30%Q; Some 40%Q])].

(** Two rows that differ in the capitalisation of the name only. *)
Definition two_patients : DataFrame :=
  [("Name", SObject [Some "Bobby JacksOn"; Some "bOBBY jACKSON"]);
   ("Age", SNum [Some 30%Q; Some 30%Q]);
   ("Gender", SObject [Some "Male"; Some "Male"]);
   ("Blood Type", SObject [Some "B-"; Some "B-"]);
   ("Medical Condition", SObject [Some "Cancer"; Some "Cancer"]);
   ("Date of Admission", SObject [Some "2024-01-31"; Some "2024-01-31"]);
   ("Doctor", SObject [Some "Matthew Smith"; Some "Matthew Smith"]);
   ("Hospital", SObject [Some "Sons and Miller"; Some "Sons and Miller"]);
   ("Insurance Provider", SObject [Some "Blue Cross"; Some "Blue Cross"]);
   ("Billing Amount", SNum [Some 18856%Q; Some 18856%Q]);
   ("Room Number", SNum [Some 328%Q; Some 328%Q]);
   ("Admission Type", SObject [Some "Urgent"; Some "Urgent"]);
   ("Discharge Date", SObject [Some "2024-02-02"; Some "2024-02-02"]);
   ("Medication", SObject [Some "Paracetamol"; Some "Paracetamol"]);
   ("Test Results", SObject [Some "Normal"; Some "Normal"])].



(** A numeric and a date column without any value. *)
Definition nothing_to_fill_with : DataFrame :=
  [("Age", SNum [None; None]);
   ("Discharge Date", SDatetime [None; None])].

(** A frame with one column for each list of the analysis. *)
Definition mixed_missing : DataFrame :=
  [("Gender", SObject [Some "Male"; None; Some "Male"; Some "Female"]);
   ("Age", SNum [Some 30%Q; None; Some 50%Q; Some 40%Q]);
   ("Discharge Date",
    SDatetime [None; Some (Calendar.timestamp 2024 5 1); None; None]);
   ("Room Number", SNum [Some 101%Q; Some 102%Q; Some 103%Q; Some 104%Q])].

(* ================================================================== *)
(** * More vocabulary: shapes, rows and fills *)
(* ================================================================== *)

(** The column names of a frame with the lengths of the columns. *)
Definition shape (d : DataFrame) : list (string * nat) :=
  map (fun p : string * Series => (fst p, slen (snd p))) d.

(** Every column has as many cells as the frame has rows. *)
Definition rectangular (d : DataFrame) : bool :=
  forallb (fun p : string * Series => (slen (snd p) =? nrows d)%nat) d.

(** The rows of [n]-row columns, read by position. *)
Definition table_rows (n : nat) (cols : list (list (option pyval)))
  : list (list (option pyval)) :=
  map (fun i => map (fun col => nth i col None) cols) (seq 0 n).

(** Three rows, the third a copy of the first (with a missing cell and an
    age written as another fraction). *)
Definition duplicate_rows : DataFrame :=
  [("Name", SObject [Some "Ann"; Some "Bob"; Some "Ann"]);
   ("Age", SNum [Some 30%Q; Some 30%Q; Some (60 # 2)%Q]);
   ("Medication", SObject [None; Some "Aspirin"; None])].


(** The tests of the analysis loop on one column: it has a missing cell
    and is not the PII column; it is a date column by name or by dtype;
    fewer than 5 percent of the [n] rows are missing. *)
Definition needs_fill (p : string * Series) : bool :=
  negb (count_true (isna (snd p)) =? 0)%nat && negb (String.eqb (fst p) "Name").
Definition date_like (p : string * Series) : bool :=
  contains_sub "date" (PyStr.lower (fst p)) || MLH.is_datetime (snd p).
Definition low_share (n : nat) (p : string * Series) : bool :=
  Qlt_bool (MLH.missing_pct (count_true (isna (snd p))) n) 5.

(** The columns each branch of the analysis loop takes. *)
Definition takes_date (p : string * Series) : bool :=
  needs_fill p && date_like p.
Definition takes_low (n : nat) (p : string * Series) : bool :=
  needs_fill p && negb (date_like p) && MLH.is_object (snd p) && low_share n p.
Definition takes_high (n : nat) (p : string * Series) : bool :=
  needs_fill p && negb (date_like p) && MLH.is_object (snd p)
  && negb (low_share n p).
Definition takes_number (p : string * Series) : bool :=
  needs_fill p && negb (date_like p) && MLH.is_number (snd p).

(** A cell after a fill: a present cell is as it was. *)
Definition kept {A : Type} (x y : option A) : Prop := x = None \/ y = x.

(** A column after a fill: as many cells, the present ones as they
    were. *)
Definition keeps_present (s s' : Series) : Prop :=
  Forall2 kept (cells s) (cells s').

(** A frame after a fill: the same columns in the same order, each with
    its present cells as they were. *)
Definition frame_keeps (d d' : DataFrame) : Prop :=
  Forall2 (fun p p' : string * Series =>
             fst p = fst p' /\ keeps_present (snd p) (snd p')) d d'.

(** What a cleaning step leaves as it is: the column names with the
    column lengths, and the number of rows recorded by [load_data]. *)
Definition keeps_shape (self self' : HDC.Cleaner) : Prop :=
  shape (HDC.df self') = shape (HDC.df self)
  /\ HDC.original_rows self' = HDC.original_rows self.

(** Two texts with white space at the same places. *)
Fixpoint same_spaces (s t : string) : Prop :=
  match s, t with
  | EmptyString, EmptyString => True
  | String a r, String b r' =>
      PyStr.isspace a = PyStr.isspace b /\ same_spaces r r'
  | _, _ => False
  end.

(** [b] is the best of the values [seen] for [mode] on the values [l0]:
    none of them occurs more often in [l0], and none that occurs as often
    comes before [b] in the order. *)
Definition best_of {A : Type} (eqb ltb : A -> A -> bool) (l0 seen : list A)
  (b : A) : Prop :=
  In b seen
  /\ forall y, In y seen ->
               (occurrences eqb y l0 <= occurrences eqb b l0)%nat
               /\ (occurrences eqb y l0 = occurrences eqb b l0 ->
                   ltb y b = false).

(** The text that the loop of [impute_categorical_high_missing] writes
    into the missing cells of column [col] with cells [xs]. *)
Definition high_fill_value (col : string) (xs : list (option string)) : string :=
  if String.eqb col "Insurance Provider" then "Self-Pay"
  else if String.eqb col "Medication" then "No Medication"
  else if String.eqb col "Admission Type" then
    match mode String.eqb string_ltb xs with
    | Some m => m
    | None => "Emergency"
    end
  else "Unknown".

(** Every column of the frame has [n] cells. *)
Definition all_rows (n : nat) (d : DataFrame) : Prop :=
  Forall (fun p : string * Series => slen (snd p) = n) d.

(** The columns [generate_ml_ready_features] adds. *)
Definition feature_columns : list string :=
  ["Length_of_Stay"; "Age_Group"; "Billing_Category"].

(* ================================================================== *)
(** * Facts on masks and frames *)
(* ================================================================== *)

Section MaskFacts.

Variable A : Type.

Lemma assign_where_map (p : A -> bool) (v : A) (xs : list A) :
  assign_where (map p xs) v xs = map (fun x => if p x then v else x) xs.
Proof.
  unfold assign_where. induction xs as [|x r IH]; simpl; [reflexivity|].
  now rewrite IH.
Qed.

Lemma update_where_map (p : A -> bool) (f : A -> A) (xs : list A) :
  update_where (map p xs) f xs = map (fun x => if p x then f x else x) xs.
Proof.
  unfold update_where. induction xs as [|x r IH]; simpl; [reflexivity|].
  now rewrite IH.
Qed.

Lemma mask_or_map (p q : A -> bool) (xs : list A) :
  mask_or (map p xs) (map q xs) = map (fun x => p x || q x) xs.
Proof.
  unfold mask_or. induction xs as [|x r IH]; simpl; [reflexivity|].
  now rewrite IH.
Qed.

Lemma mask_and_map (p q : A -> bool) (xs : list A) :
  mask_and (map p xs) (map q xs) = map (fun x => p x && q x) xs.
Proof.
  unfold mask_and. induction xs as [|x r IH]; simpl; [reflexivity|].
  now rewrite IH.
Qed.

Lemma count_true_cons (b : bool) (m : list bool) :
  count_true (b :: m) = ((if b then 1 else 0) + count_true m)%nat.
Proof. unfold count_true. destruct b; reflexivity. Qed.

Lemma count_true_none (p : A -> bool) (xs : list A) :
  count_true (map p xs) = 0%nat <-> (forall x, In x xs -> p x = false).
Proof.
  induction xs as [|x r IH]; simpl.
  - split; [intros _ y []|reflexivity].
  - rewrite count_true_cons. split.
    + intros H y [<-|Hy].
      * destruct (p x); [discriminate|reflexivity].
      * apply IH; [|assumption]. destruct (p x); [discriminate|exact H].
    + intros H. rewrite (H x (or_introl eq_refl)). simpl.
      apply IH. intros y Hy. apply H. now right.
Qed.

Lemma map_fixed (f : A -> A) (xs : list A) :
  (forall x, In x xs -> f x = x) -> map f xs = xs.
Proof.
  intros H. induction xs as [|x r IH]; simpl; [reflexivity|].
  rewrite (H x (or_introl eq_refl)), IH; [reflexivity|].
  intros y Hy. apply H. now right.
Qed.

(** A guarded assignment is the assignment: with no row selected it
    changes nothing. *)
Lemma guarded_map (p : A -> bool) (f : A -> A) (xs : list A) :
  (if (0 <? count_true (map p xs))%nat
   then map (fun x => if p x then f x else x) xs else xs)
  = map (fun x => if p x then f x else x) xs.
Proof.
  destruct (0 <? count_true (map p xs))%nat eqn:E; [reflexivity|].
  apply Nat.ltb_ge in E. symmetry. apply map_fixed. intros x Hx.
  assert (H0 : count_true (map p xs) = 0%nat) by lia.
  now rewrite (proj1 (count_true_none p xs) H0 x Hx).
Qed.

End MaskFacts.

Lemma df_lookup_set_same (d : DataFrame) (c : string) (s : Series) :
  df_lookup (df_set d c s) c = Some s.
Proof.
  induction d as [|[c0 s0] r IH]; simpl.
  - now rewrite String.eqb_refl.
  - destruct (String.eqb c0 c) eqn:E; simpl; rewrite E; [reflexivity|exact IH].
Qed.

Lemma df_lookup_set_other (d : DataFrame) (c c' : string) (s : Series) :
  c <> c' -> df_lookup (df_set d c s) c' = df_lookup d c'.
Proof.
  intros Hne. induction d as [|[c0 s0] r IH]; simpl.
  - destruct (String.eqb c c') eqn:E; [|reflexivity].
    apply String.eqb_eq in E. contradiction.
  - destruct (String.eqb c0 c) eqn:E; simpl.
    + apply String.eqb_eq in E. subst c0.
      destruct (String.eqb c c') eqn:E'; [|reflexivity].
      apply String.eqb_eq in E'. contradiction.
    + destruct (String.eqb c0 c'); [reflexivity|exact IH].
Qed.

Lemma df_set_same_value (d : DataFrame) (c : string) (s : Series) :
  df_lookup d c = Some s -> df_set d c s = d.
Proof.
  induction d as [|[c0 s0] r IH]; simpl; [discriminate|].
  destruct (String.eqb c0 c) eqn:E.
  - intros [= ->]. reflexivity.
  - intros H. now rewrite IH.
Qed.

Lemma df_get_lookup (d : DataFrame) (c : string) (s : Series) :
  df_lookup d c = Some s -> df_get d c = Ok s.
Proof. unfold df_get. now intros ->. Qed.


(* ================================================================== *)
(** * Comparisons of rationals *)
(* ================================================================== *)

Lemma Qlt_bool_iff (x y : Q) : Qlt_bool x y = true <-> (x < y)%Q.
Proof.
  unfold Qlt_bool. rewrite negb_true_iff. split.
  - intros H. apply Qnot_le_lt. intros Hle.
    apply Qle_bool_iff in Hle. congruence.
  - intros H. destruct (Qle_bool y x) eqn:E; [|reflexivity].
    apply Qle_bool_iff in E. exfalso. exact (Qlt_not_le _ _ H E).
Qed.

Lemma Qlt_bool_false_iff (x y : Q) : Qlt_bool x y = false <-> (y <= x)%Q.
Proof.
  unfold Qlt_bool. rewrite negb_false_iff. apply Qle_bool_iff.
Qed.

(* ================================================================== *)
(** * The numeric range rule *)
(* ================================================================== *)

Section NumericRange.

Import HospitalDataCleaner.




Lemma clean_billing_cells (self : Cleaner) (xs : list (option Q)) :
  df_lookup (df self) "Billing Amount" = Some (SNum xs) ->
  exists self' n,
    clean_billing self = Ok (self', n)
    /\ df_lookup (df self') "Billing Amount" = Some (SNum (map billing_cell xs))
    /\ (forall c, c <> "Billing Amount" ->
                  df_lookup (df self') c = df_lookup (df self) c)
    /\ issues_fixed self' = issues_fixed self.
Proof.
  intros Hb. unfold clean_billing.
  rewrite (df_get_lookup _ _ Hb). simpl.
  set (isneg := fun x : option Q =>
                  match x with Some q => Qlt_bool q 0 | None => false end).
  assert (Hflip : forall l, map (fun x => if isneg x then option_map Qabs x else x) l
                            = map flip_cell l).
  { intros l. apply map_ext. intros [q|]; simpl; [|reflexivity].
    destruct (Qlt_bool q 0); reflexivity. }
  change (lt_const 0 xs) with (map isneg xs).
  rewrite update_where_map, Hflip.
  set (islow := fun x : option Q =>
                  match x with Some q => Qlt_bool q 1 | None => false end).
  set (ishigh := fun x : option Q =>
                   match x with Some q => Qlt_bool 1000000 q | None => false end).
  assert (Hcap : forall l, map (fun x => if ishigh x then Some 1000000%Q else x) l
                           = map cap_cell l).
  { intros l. apply map_ext. intros [q|]; simpl; [|reflexivity].
    destruct (Qlt_bool 1000000 q); reflexivity. }
  assert (Hnull : forall l, map (fun x => if islow x then None else x) l
                            = map null_cell l).
  { intros l. apply map_ext. intros [q|]; simpl; [|reflexivity].
    destruct (Qlt_bool q 1); reflexivity. }
  assert (Hflip0 : count_true (map isneg xs) = 0%nat -> map flip_cell xs = xs).
  { intros H0. apply map_fixed. intros [q|] Hx; simpl; [|reflexivity].
    pose proof (proj1 (count_true_none isneg xs) H0 _ Hx) as E. simpl in E.
    now rewrite E. }
  assert (Hrest0 : forall l,
             count_true (mask_or (map islow l) (map ishigh l)) = 0%nat ->
             map null_cell (map cap_cell l) = l).
  { intros l H0. rewrite mask_or_map in H0.
    rewrite map_map. apply map_fixed. intros [q|] Hx; simpl; [|reflexivity].
    pose proof (proj1 (count_true_none _ l) H0 _ Hx) as E. simpl in E.
    apply orb_false_iff in E. destruct E as [E1 E2]. rewrite E2. simpl.
    now rewrite E1. }
  assert (Hcell : forall l, map null_cell (map cap_cell (map flip_cell l))
                            = map billing_cell l).
  { intros l. rewrite !map_map. reflexivity. }
  destruct (0 <? count_true (map isneg xs))%nat eqn:Eneg.
  - change (lt_const 1 (map flip_cell xs)) with (map islow (map flip_cell xs)).
    change (gt_const 1000000 (map flip_cell xs))
      with (map ishigh (map flip_cell xs)).
    destruct (0 <? count_true (mask_or (map islow (map flip_cell xs))
                                       (map ishigh (map flip_cell xs))))%nat
      eqn:Eun.
    + eexists _, _. split; [reflexivity|]. simpl.
      rewrite df_lookup_set_same.
      change (gt_const 1000000 (map flip_cell xs))
        with (map ishigh (map flip_cell xs)).
      rewrite assign_where_map, Hcap.
      change (lt_const 1 (map cap_cell (map flip_cell xs)))
        with (map islow (map cap_cell (map flip_cell xs))).
      rewrite assign_where_map, Hnull, Hcell.
      split; [reflexivity|split; [|reflexivity]].
      intros c Hc. rewrite !df_lookup_set_other by congruence. reflexivity.
    + eexists _, _. split; [reflexivity|]. simpl.
      rewrite df_lookup_set_same.
      apply Nat.ltb_ge in Eun.
      rewrite <- Hcell, Hrest0 by lia.
      split; [reflexivity|split; [|reflexivity]].
      intros c Hc. rewrite !df_lookup_set_other by congruence. reflexivity.
  - apply Nat.ltb_ge in Eneg.
    change (lt_const 1 xs) with (map islow xs).
    change (gt_const 1000000 xs) with (map ishigh xs).
    destruct (0 <? count_true (mask_or (map islow xs) (map ishigh xs)))%nat
      eqn:Eun.
    + eexists _, _. split; [reflexivity|]. simpl.
      rewrite df_lookup_set_same.
      change (gt_const 1000000 xs) with (map ishigh xs).
      rewrite assign_where_map, Hcap.
      change (lt_const 1 (map cap_cell xs)) with (map islow (map cap_cell xs)).
      rewrite assign_where_map, Hnull.
      rewrite <- Hcell, Hflip0 by lia.
      split; [reflexivity|split; [|reflexivity]].
      intros c Hc. rewrite !df_lookup_set_other by congruence. reflexivity.
    + eexists _, _. split; [reflexivity|]. simpl.
      apply Nat.ltb_ge in Eun.
      rewrite <- Hcell, Hflip0, Hrest0 by lia.
      split; [exact Hb|split; [|reflexivity]]. reflexivity.
Qed.

Lemma clean_age_cells (self : Cleaner) (xs : list (option Q)) :
  df_lookup (df self) "Age" = Some (SNum xs) ->
  exists self' n,
    clean_age self = Ok (self', n)
    /\ df_lookup (df self') "Age" = Some (SNum (map age_cell xs))
    /\ (forall c, c <> "Age" -> df_lookup (df self') c = df_lookup (df self) c)
    /\ issues_fixed self' = issues_fixed self.
Proof.
  intros Ha. unfold clean_age. rewrite (df_get_lookup _ _ Ha). simpl.
  set (p := fun x : option Q =>
              match x with Some q => Qlt_bool q 0 | None => false end).
  set (r := fun x : option Q =>
              match x with Some q => Qlt_bool 120 q | None => false end).
  change (lt_const 0 xs) with (map p xs).
  change (gt_const 120 xs) with (map r xs).
  rewrite mask_or_map.
  assert (Hcell : map (fun x => if p x || r x then None else x) xs
                  = map age_cell xs).
  { apply map_ext. intros [q|]; reflexivity. }
  destruct (0 <? count_true (map (fun x => p x || r x) xs))%nat eqn:E.
  - eexists _, _. split; [reflexivity|]. simpl.
    rewrite df_lookup_set_same, assign_where_map, Hcell.
    split; [reflexivity|split; [|reflexivity]].
    intros c Hc. now rewrite df_lookup_set_other by congruence.
  - eexists _, _. split; [reflexivity|].
    rewrite <- Hcell, <- (guarded_map (fun x => p x || r x) (fun _ => None) xs), E.
    split; [exact Ha|split; reflexivity].
Qed.

Lemma clean_room_cells (self : Cleaner) (xs : list (option Q)) :
  df_lookup (df self) "Room Number" = Some (SNum xs) ->
  exists self' n,
    clean_room self = Ok (self', n)
    /\ df_lookup (df self') "Room Number" = Some (SNum (map room_cell xs))
    /\ (forall c, c <> "Room Number" ->
                  df_lookup (df self') c = df_lookup (df self) c)
    /\ issues_fixed self' = issues_fixed self.
Proof.
  intros Ha. unfold clean_room. rewrite (df_get_lookup _ _ Ha). simpl.
  set (p := fun x : option Q =>
              match x with Some q => Qlt_bool q 1 | None => false end).
  set (r := fun x : option Q =>
              match x with Some q => Qlt_bool 9999 q | None => false end).
  change (lt_const 1 xs) with (map p xs).
  change (gt_const 9999 xs) with (map r xs).
  rewrite mask_or_map.
  assert (Hcell : map (fun x => if p x || r x then None else x) xs
                  = map room_cell xs).
  { apply map_ext. intros [q|]; reflexivity. }
  destruct (0 <? count_true (map (fun x => p x || r x) xs))%nat eqn:E.
  - eexists _, _. split; [reflexivity|]. simpl.
    rewrite df_lookup_set_same, assign_where_map, Hcell.
    split; [reflexivity|split; [|reflexivity]].
    intros c Hc. now rewrite df_lookup_set_other by congruence.
  - eexists _, _. split; [reflexivity|].
    rewrite <- Hcell, <- (guarded_map (fun x => p x || r x) (fun _ => None) xs), E.
    split; [exact Ha|split; reflexivity].
Qed.

Lemma df_report_if (n : nat) (i : issue) (self : Cleaner) :
  df (report_if n i self) = df self.
Proof. unfold report_if. now destruct (0 <? n)%nat. Qed.

(** The three blocks of [clean_numerical_data] on numeric columns: every
    column is mapped cell by cell. *)
Lemma clean_numerical_data_cells (self : Cleaner)
  (ages amounts rooms : list (option Q)) :
  df_lookup (df self) "Age" = Some (SNum ages) ->
  df_lookup (df self) "Billing Amount" = Some (SNum amounts) ->
  df_lookup (df self) "Room Number" = Some (SNum rooms) ->
  exists self',
    clean_numerical_data self = Ok self'
    /\ df_lookup (df self') "Age" = Some (SNum (map age_cell ages))
    /\ df_lookup (df self') "Billing Amount"
       = Some (SNum (map billing_cell amounts))
    /\ df_lookup (df self') "Room Number" = Some (SNum (map room_cell rooms)).
Proof.
  intros Ha Hb Hr. unfold clean_numerical_data.
  destruct (clean_age_cells self Ha) as (s1 & n1 & E1 & A1 & O1 & _).
  rewrite E1. simpl.
  assert (Hb1 : df_lookup (df s1) "Billing Amount" = Some (SNum amounts))
    by (rewrite O1 by discriminate; exact Hb).
  destruct (clean_billing_cells s1 Hb1) as (s2 & n2 & E2 & B2 & O2 & _).
  rewrite E2. simpl.
  assert (Hr2 : df_lookup (df s2) "Room Number" = Some (SNum rooms))
    by (rewrite O2, O1 by discriminate; exact Hr).
  destruct (clean_room_cells s2 Hr2) as (s3 & n3 & E3 & R3 & O3 & _).
  rewrite E3. simpl.
  eexists. split; [reflexivity|].
  rewrite !df_report_if.
  split; [|split].
  - rewrite O3, O2 by discriminate. exact A1.
  - rewrite O3 by discriminate. exact B2.
  - exact R3.
Qed.


End NumericRange.

(* ================================================================== *)
(** * Age groups *)
(* ================================================================== *)

Lemma in_bin (lo hi q : Q) :
  above (Finite lo) q && at_most (Finite hi) q = true -> (lo < q /\ q <= hi)%Q.
Proof.
  intros H. apply andb_true_iff in H. destruct H as [H1 H2]. split.
  - now apply Qlt_bool_iff.
  - now apply Qle_bool_iff.
Qed.

Lemma out_bin (lo hi q : Q) :
  above (Finite lo) q && at_most (Finite hi) q = false -> (q <= lo \/ hi < q)%Q.
Proof.
  intros H. apply andb_false_iff in H. destruct H as [H|H].
  - left. now apply Qlt_bool_false_iff.
  - right. apply Qnot_le_lt. intros Hle. apply Qle_bool_iff in Hle.
    cbn [at_most] in H. congruence.
Qed.

Ltac next_bin :=
  match goal with
  | |- context [above (Finite ?lo) ?q && at_most (Finite ?hi) ?q] =>
      let E := fresh "E" in
      destruct (above (Finite lo) q && at_most (Finite hi) q) eqn:E;
      [apply in_bin in E|apply out_bin in E]
  end.

(** The label [pd.cut] gives an age is the one of the bin that holds it. *)
Lemma cut_age_bucket (q : Q) (l : string) :
  cut MLH.age_bins MLH.age_labels (Some q) = Some l <-> age_bucket q l.
Proof.
  unfold age_bucket. cbn [cut cut_from MLH.age_bins MLH.age_labels].
  repeat next_bin;
    (split;
     [ intros [= <-]; tauto
     | intros [(-> & ? & ?)|[(-> & ? & ?)|[(-> & ? & ?)|[(-> & ? & ?)|(-> & ? & ?)]]]];
       first [reflexivity | exfalso; lra] ]).
Qed.

Lemma cut_age_absent (q : Q) :
  (q == 0 \/ 100 < q)%Q -> cut MLH.age_bins MLH.age_labels (Some q) = None.
Proof.
  intros H.
  destruct (cut MLH.age_bins MLH.age_labels (Some q)) as [l|] eqn:E;
    [|reflexivity].
  apply cut_age_bucket in E. unfold age_bucket in E. exfalso.
  destruct E as [(_ & ? & ?)|[(_ & ? & ?)|[(_ & ? & ?)|[(_ & ? & ?)|(_ & ? & ?)]]]];
    destruct H as [H|H]; try rewrite H in *; lra.
Qed.

Lemma age_cell_keeps (q : Q) :
  (0 <= q /\ q <= 120)%Q -> age_cell (Some q) = Some q.
Proof.
  intros [H0 H1]. unfold age_cell.
  assert (E0 : Qlt_bool q 0 = false) by now apply Qlt_bool_false_iff.
  assert (E1 : Qlt_bool 120 q = false) by now apply Qlt_bool_false_iff.
  now rewrite E0, E1.
Qed.

Section AgeGroups.

Import MLExpertMissingValueHandler.

Lemma feature_age_group_cells (self : Handler) (ages : list (option Q)) :
  df_lookup (df self) "Age" = Some (SNum ages) ->
  exists self',
    feature_age_group self = Ok self'
    /\ df_lookup (df self') "Age_Group"
       = Some (SObject (map (cut age_bins age_labels) ages))
    /\ (forall c, c <> "Age_Group" ->
                  df_lookup (df self') c = df_lookup (df self) c).
Proof.
  intros Ha. unfold feature_age_group. rewrite Ha. simpl.
  eexists. split; [reflexivity|]. simpl. split.
  - apply df_lookup_set_same.
  - intros c Hc. apply df_lookup_set_other. congruence.
Qed.

(** The first feature writes [Length_of_Stay] only. *)
Lemma feature_length_of_stay_frame (self self' : Handler) (c : string) :
  feature_length_of_stay self = Ok self' ->
  c <> "Length_of_Stay" ->
  df_lookup (df self') c = df_lookup (df self) c.
Proof.
  unfold feature_length_of_stay. intros H Hc.
  destruct (df_has (df self) "Date of Admission"
            && df_has (df self) "Discharge Date");
    [|now injection H as <-].
  destruct (df_get (df self) "Discharge Date") as [dis|]; [|discriminate].
  destruct (df_get (df self) "Date of Admission") as [adm|]; [|discriminate].
  simpl in H.
  destruct (timedelta_days dis adm) as [los|]; [|discriminate].
  simpl in H. injection H as <-.
  destruct (0 <? count_true (negative_days los))%nat; simpl;
    apply df_lookup_set_other; congruence.
Qed.

(** The third feature writes [Billing_Category] only. *)
Lemma feature_billing_category_frame (self self' : Handler) (c : string) :
  feature_billing_category self = Ok self' ->
  c <> "Billing_Category" ->
  df_lookup (df self') c = df_lookup (df self) c.
Proof.
  unfold feature_billing_category. intros H Hc.
  destruct (df_lookup (df self) "Billing Amount") as [billing|];
    [|now injection H as <-].
  destruct (statistic_cells billing) as [amounts|]; [|discriminate].
  simpl in H.
  destruct (quantile (1 # 4) amounts) as [q25|]; [|discriminate].
  destruct (quantile (1 # 2) amounts) as [q50|]; [|discriminate].
  destruct (quantile (3 # 4) amounts) as [q75|]; [|discriminate].
  destruct (increasing_edges q25 q50 q75); [|discriminate].
  injection H as <-. simpl. apply df_lookup_set_other. congruence.
Qed.

(** C10.  [Age_Group] is missing whenever [Age] is missing, equal to 0 or
    greater than 100: the bins are (0, 18], (18, 35], (35, 50], (50, 65]
    and (65, 100].  The numeric range rule keeps the ages from 101 to
    120, which therefore get no bucket. *)
Theorem age_group_missing_outside_bins :
  (forall (self : Handler) (ages : list (option Q)),
      df_lookup (df self) "Age" = Some (SNum ages) ->
      exists (self' : Handler) (groups : list (option string)),
        feature_age_group self = Ok self'
        /\ df_lookup (df self') "Age_Group" = Some (SObject groups)
        /\ List.length groups = List.length ages
        /\ (forall i, nth_error ages i = Some None ->
                      nth_error groups i = Some None)
        /\ (forall i q, nth_error ages i = Some (Some q) ->
                        (q == 0 \/ 100 < q)%Q ->
                        nth_error groups i = Some None)
        /\ (forall i q l, nth_error ages i = Some (Some q) ->
                          (nth_error groups i = Some (Some l) <-> age_bucket q l))
        /\ (forall self'', generate_ml_ready_features self = Ok self'' ->
                           df_lookup (df self'') "Age_Group"
                           = Some (SObject groups)))
  /\ (forall (cleaner : HDC.Cleaner) (ages amounts rooms : list (option Q)),
         df_lookup (HDC.df cleaner) "Age" = Some (SNum ages) ->
         df_lookup (HDC.df cleaner) "Billing Amount" = Some (SNum amounts) ->
         df_lookup (HDC.df cleaner) "Room Number" = Some (SNum rooms) ->
         exists (cleaner' : HDC.Cleaner) (ages' : list (option Q)),
           HDC.clean_numerical_data cleaner = Ok cleaner'
           /\ df_lookup (HDC.df cleaner') "Age" = Some (SNum ages')
           /\ (forall i q, nth_error ages i = Some (Some q) ->
                           (100 < q /\ q <= 120)%Q ->
                           nth_error ages' i = Some (Some q)
                           /\ cut age_bins age_labels (Some q) = None)).
Proof.
  split.
  - intros self ages Ha.
    destruct (feature_age_group_cells self Ha) as (self' & E & G & O).
    exists self', (map (cut age_bins age_labels) ages).
    split; [exact E|]. split; [exact G|]. split; [apply length_map|].
    split; [|split; [|split]].
    + intros i H. now rewrite nth_error_map, H.
    + intros i q H Hq. rewrite nth_error_map, H. cbn [option_map].
      now rewrite (cut_age_absent Hq).
    + intros i q l H. rewrite nth_error_map, H. cbn [option_map].
      split; intros X.
      * apply cut_age_bucket. now injection X.
      * apply cut_age_bucket in X. now rewrite X.
    + intros self'' Hgen. unfold generate_ml_ready_features in Hgen.
      destruct (feature_length_of_stay self) as [s1|] eqn:E1; [|discriminate].
      simpl in Hgen.
      assert (Ha1 : df_lookup (df s1) "Age" = Some (SNum ages)).
      { rewrite (feature_length_of_stay_frame self E1) by discriminate.
        exact Ha. }
      destruct (feature_age_group_cells s1 Ha1) as (s2 & E2 & G2 & _).
      rewrite E2 in Hgen. simpl in Hgen.
      rewrite (feature_billing_category_frame s2 Hgen) by discriminate.
      exact G2.
  - intros cleaner ages amounts rooms Ha Hb Hr.
    destruct (clean_numerical_data_cells cleaner Ha Hb Hr)
      as (cleaner' & E & A & _).
    exists cleaner', (map age_cell ages).
    split; [exact E|]. split; [exact A|].
    intros i q H [Hlo Hhi]. split.
    + rewrite nth_error_map, H. cbn [option_map]. f_equal. apply age_cell_keeps.
      split; [|exact Hhi].
      apply Qle_trans with (y := 100%Q); [discriminate|now apply Qlt_le_weak].
    + apply cut_age_absent. now right.
Qed.

End AgeGroups.

Section SwapPolicy.

Import MLExpertMissingValueHandler.

(* ================================================================== *)
(** * The swap policy *)
(* ================================================================== *)




Lemma timedelta_days_datetime (dis adm : list (option Z)) :
  timedelta_days (SDatetime dis) (SDatetime adm) = Ok (los_cells dis adm).
Proof. reflexivity. Qed.





Lemma df_has_lookup (d : DataFrame) (c : string) (s : Series) :
  df_lookup d c = Some s -> df_has d c = true.
Proof. unfold df_has. now intros ->. Qed.















End SwapPolicy.

(* ================================================================== *)
(** * Name formatting *)
(* ================================================================== *)

Lemma append_empty (s : string) : s ++ "" = s.
Proof. induction s as [|a t IH]; simpl; [reflexivity|now rewrite IH]. Qed.

Lemma append_snoc (cur r : string) (c : ascii) :
  PyStr.snoc cur c ++ r = cur ++ String c r.
Proof.
  unfold PyStr.snoc.
  induction cur as [|a t IH]; simpl; [reflexivity|now rewrite IH].
Qed.

Lemma split_char_without_separator (sep : ascii) (s cur : string) :
  PyStr.contains_char sep s = false ->
  PyStr.split_char_from sep cur s = [cur ++ s].
Proof.
  revert cur. induction s as [|c r IH]; intros cur; simpl.
  - intros _. now rewrite append_empty.
  - intros H. apply orb_false_iff in H. destruct H as [Hc Hr].
    now rewrite Hc, (IH _ Hr), append_snoc.
Qed.

(** Both branches of the loop body of [fix_name_formatting] do the same:
    the segments between hyphens are capitalised and joined again. *)
Lemma capitalize_part_segments (part : string) :
  capitalize_part part
  = PyStr.join "-" (map PyStr.capitalize (PyStr.split_char "-" part)).
Proof.
  unfold capitalize_part.
  destruct (PyStr.contains_char "-" part) eqn:E; [reflexivity|].
  unfold PyStr.split_char.
  now rewrite (split_char_without_separator _ _ EmptyString E).
Qed.

(** C3, as stated, fails: the scenario name does not come out as
    "John O'Brien-Smith". *)
Lemma name_scenario_not_title_cased :
  fix_name_formatting (Some "jOHN o'BRIEN-smith") <> Some "John O'Brien-Smith".
Proof. vm_compute. discriminate. Qed.

(** C3, amended.  The name "jOHN o'BRIEN-smith" becomes
    "John O'brien-Smith": the parts between white space are split again at
    hyphens, every segment is capitalised on its own (first character
    upper case, all the others lower case) and the segments are joined
    with a hyphen. *)
Theorem name_scenario_capitalized :
  fix_name_formatting (Some "jOHN o'BRIEN-smith") = Some "John O'brien-Smith"
  /\ (forall part : string,
         capitalize_part part
         = PyStr.join "-" (map PyStr.capitalize (PyStr.split_char "-" part)))
  /\ (forall (c : ascii) (rest : string),
         PyStr.capitalize (String c rest)
         = String (PyStr.toupper c) (PyStr.lower rest))
  /\ HDC.clean_names name_scenario
     = Ok (HDC.report
             (HDC.with_df name_scenario
                          [("Name", SObject [Some "John O'brien-Smith"])])
             (HDC.FixedNames 1)).
Proof.
  split; [reflexivity|]. split; [exact capitalize_part_segments|].
  split; reflexivity.
Qed.

(* ================================================================== *)
(** * Categorical validation *)
(* ================================================================== *)

Section CategoricalRules.

Import HospitalDataCleaner.

Lemma literal_nan_mask_cells (xs : list (option string)) :
  literal_nan_mask xs = map literal_nan_cell xs.
Proof.
  unfold literal_nan_mask, mask_and, str_test, astype_str, notna. simpl.
  induction xs as [|[t|] r IH]; simpl; [reflexivity| |];
    rewrite <- IH; f_equal.
  apply andb_true_r.
Qed.

Lemma invalid_gender_mask_cells (xs : list (option string)) :
  mask_and (mask_not (isin_text valid_genders (SObject xs)))
           (notna (SObject xs))
  = map invalid_gender_cell xs.
Proof.
  unfold mask_and, mask_not, notna. simpl. unfold str_test.
  induction xs as [|[t|] r IH]; simpl; [reflexivity| |];
    rewrite <- IH; f_equal.
  apply andb_true_r.
Qed.

Lemma gender_cell_two_passes (x : option string) :
  (if invalid_gender_cell (prepass_cell x) then None else prepass_cell x)
  = gender_cell x.
Proof.
  destruct x as [t|]; [|reflexivity].
  unfold prepass_cell, gender_cell, invalid_gender_cell, literal_nan_cell.
  destruct (PyStr.match_literal_nan t) eqn:E.
  - destruct (existsb (String.eqb t) valid_genders) eqn:V; [|reflexivity].
    exfalso. unfold valid_genders in V. simpl in V.
    rewrite orb_false_r in V. apply orb_true_iff in V.
    destruct V as [V|V]; apply String.eqb_eq in V; subst t; discriminate.
  - now destruct (existsb (String.eqb t) valid_genders).
Qed.

(** The pre-pass of the gender rule on an object column. *)
Lemma gender_literal_pass_cells (self : Cleaner) (xs : list (option string)) :
  df_lookup (df self) "Gender" = Some (SObject xs) ->
  let n := count_true (map literal_nan_cell xs) in
  let self1 := gender_literal_pass self (SObject xs) in
  df_lookup (df self1) "Gender" = Some (SObject (map prepass_cell xs))
  /\ (forall c, c <> "Gender" -> df_lookup (df self1) c = df_lookup (df self) c)
  /\ issues_fixed self1
     = (issues_fixed self ++ (if (0 <? n)%nat then [FixedLiteralNan n] else []))%list.
Proof.
  intros Hg. cbv zeta. unfold gender_literal_pass.
  rewrite literal_nan_mask_cells.
  pose proof (guarded_map literal_nan_cell (fun _ => None) xs) as G.
  destruct (0 <? count_true (map literal_nan_cell xs))%nat eqn:E; simpl.
  - rewrite df_lookup_set_same, assign_where_map.
    split; [reflexivity|]. split; [|reflexivity].
    intros c Hc. apply df_lookup_set_other. congruence.
  - rewrite app_nil_r. split; [|split; reflexivity].
    rewrite Hg. unfold prepass_cell. now rewrite <- G.
Qed.

(** The gender rule on an object column, cell by cell, with its report. *)
Lemma clean_gender_data_cells (self : Cleaner) (xs : list (option string)) :
  df_lookup (df self) "Gender" = Some (SObject xs) ->
  let n := count_true (map literal_nan_cell xs) in
  let m := count_true (map invalid_gender_cell (map prepass_cell xs)) in
  exists self',
    clean_gender_data self = Ok self'
    /\ df_lookup (df self') "Gender" = Some (SObject (map gender_cell xs))
    /\ (forall c, c <> "Gender" -> df_lookup (df self') c = df_lookup (df self) c)
    /\ issues_fixed self'
       = (issues_fixed self
          ++ (if (0 <? n)%nat then [FixedLiteralNan n] else [])
          ++ (if (0 <? m)%nat then [ConvertedInvalidGender m] else []))%list.
Proof.
  intros Hg. cbv zeta.
  destruct (gender_literal_pass_cells self Hg) as (G1 & O1 & R1).
  unfold clean_gender_data. rewrite (df_get_lookup _ _ Hg). cbn [bind].
  set (self1 := gender_literal_pass self (SObject xs)) in *.
  rewrite (df_get_lookup _ _ G1). cbn [bind assign_nan].
  rewrite invalid_gender_mask_cells.
  pose proof (guarded_map invalid_gender_cell (fun _ => None)
                          (map prepass_cell xs)) as G.
  assert (Hcells : map (fun x => if invalid_gender_cell x then None else x)
                       (map prepass_cell xs) = map gender_cell xs).
  { rewrite map_map. apply map_ext. exact gender_cell_two_passes. }
  destruct (0 <? count_true (map invalid_gender_cell (map prepass_cell xs)))%nat
    eqn:E.
  - eexists. split; [reflexivity|]. simpl.
    rewrite df_lookup_set_same, assign_where_map, Hcells.
    split; [reflexivity|]. split.
    + intros c Hc. rewrite df_lookup_set_other by congruence. now apply O1.
    + rewrite R1. now rewrite <- app_assoc.
  - eexists. split; [reflexivity|].
    split; [rewrite G1; f_equal; f_equal; rewrite <- Hcells; exact G|].
    split; [exact O1|]. rewrite R1. now rewrite app_nil_r.
Qed.


Lemma ord_eq (c : ascii) (n : nat) :
  (PyStr.ord c =? n)%nat = true -> c = ascii_of_nat n.
Proof.
  intros H. apply Nat.eqb_eq in H. rewrite <- H. unfold PyStr.ord.
  symmetry. apply ascii_nat_embedding.
Qed.

Lemma is_N_cases (c : ascii) :
  PyStr.is_N c = true -> c = "N"%char \/ c = "n"%char.
Proof.
  unfold PyStr.is_N. intros H. apply orb_true_iff in H.
  destruct H as [H|H]; apply ord_eq in H; [now left|now right].
Qed.

Lemma match_literal_nan_spellings (s : string) :
  PyStr.match_literal_nan s = true <-> In s literal_nan_spellings.
Proof.
  split.
  - destruct s as [|a [|b [|c r]]]; try discriminate.
    unfold PyStr.match_literal_nan. intros H.
    apply andb_true_iff in H. destruct H as [H Hr].
    apply andb_true_iff in H. destruct H as [H Hc].
    apply andb_true_iff in H. destruct H as [Ha Hb].
    apply ord_eq in Hb. subst b.
    destruct r as [|d [|e r']]; try discriminate.
    + destruct (is_N_cases _ Ha) as [-> | ->], (is_N_cases _ Hc) as [-> | ->];
        simpl; tauto.
    + apply ord_eq in Hr. subst d.
      destruct (is_N_cases _ Ha) as [-> | ->], (is_N_cases _ Hc) as [-> | ->];
        simpl; tauto.
  - intros H. simpl in H.
    repeat (destruct H as [<-|H]; [reflexivity|]). contradiction.
Qed.

(** C5, as stated, fails: the pre-pass does not match the spelling "NAN".
    It leaves the cell in place and reports nothing; the cell is nulled by
    the accepted-set check and counted there. *)
Lemma upper_case_nan_not_matched :
  PyStr.match_literal_nan "NAN" = false
  /\ gender_literal_pass upper_nan_state (SObject [Some "NAN"; Some "Male"])
     = upper_nan_state
  /\ clean_gender_data upper_nan_state
     = Ok (report (with_df upper_nan_state
                           [("Gender", SObject [None; Some "Male"])])
                  (ConvertedInvalidGender 1)).
Proof. repeat split. Qed.

(** C5, amended.  Before the accepted-set check every Gender cell whose
    text is "nan", "naN", "Nan" or "NaN" (possibly followed by one line
    feed) becomes missing and, when there is at least one, their number
    is reported; the spelling "NAN" is not among them.  A cell with the
    text "NaN" is missing after the rule and is filled like any missing
    cell, here with the most frequent gender. *)
Theorem gender_literal_nan_prepass :
  (forall s : string,
      PyStr.match_literal_nan s = true <-> In s literal_nan_spellings)
  /\ PyStr.match_literal_nan "NAN" = false
  /\ (forall (self : Cleaner) (xs : list (option string)),
         df_lookup (df self) "Gender" = Some (SObject xs) ->
         let n := count_true (map literal_nan_cell xs) in
         let self1 := gender_literal_pass self (SObject xs) in
         df_lookup (df self1) "Gender" = Some (SObject (map prepass_cell xs))
         /\ issues_fixed self1
            = (issues_fixed self
               ++ (if (0 <? n)%nat then [FixedLiteralNan n] else []))%list
         /\ exists (self' : Cleaner) (ys : list (option string)),
              clean_gender_data self = Ok self'
              /\ df_lookup (df self') "Gender" = Some (SObject ys)
              /\ (forall i t, nth_error xs i = Some (Some t) ->
                              PyStr.match_literal_nan t = true ->
                              nth_error ys i = Some None))
  /\ (exists self' : Cleaner,
         clean_gender_data literal_nan_state = Ok self'
         /\ df self'
            = [("Gender", SObject [Some "Male"; None; Some "Male"; Some "Female"])]
         /\ issues_fixed self' = [FixedLiteralNan 1]
         /\ MLH.df (MLH.handle_gender_missing (handler_on (df self')))
            = [("Gender",
                SObject [Some "Male"; Some "Male"; Some "Male"; Some "Female"])]).
Proof.
  split; [exact match_literal_nan_spellings|]. split; [reflexivity|].
  split.
  - intros self xs Hg. cbv zeta.
    destruct (gender_literal_pass_cells self Hg) as (G1 & _ & R1).
    split; [exact G1|]. split; [exact R1|].
    destruct (clean_gender_data_cells self Hg) as (self' & E & G & _).
    exists self', (map gender_cell xs).
    split; [exact E|]. split; [exact G|].
    intros i t Hi Ht. rewrite nth_error_map, Hi. cbn [option_map].
    rewrite <- gender_cell_two_passes. unfold prepass_cell.
    cbn [literal_nan_cell]. now rewrite Ht.
  - eexists. split; [reflexivity|]. repeat split.
Qed.

(* ================================================================== *)
(** * Blood types *)
(* ================================================================== *)

Lemma blood_mask_cells (xs : list (option string)) :
  mask_not (isin_text valid_blood_types (SObject xs))
  = map invalid_blood_cell xs.
Proof.
  unfold mask_not, isin_text, str_test. now rewrite map_map.
Qed.

Lemma blood_cell_assigned (xs : list (option string)) :
  map (fun x => if invalid_blood_cell x then Some "Unknown" else x) xs
  = map blood_cell xs.
Proof.
  apply map_ext. intros [t|]; [|reflexivity].
  unfold invalid_blood_cell, blood_cell.
  now destruct (existsb (String.eqb t) valid_blood_types).
Qed.

(** The blood type rule on an object column, cell by cell. *)
Lemma clean_blood_types_cells (self : Cleaner) (xs : list (option string)) :
  df_lookup (df self) "Blood Type" = Some (SObject xs) ->
  exists self',
    clean_blood_types self = Ok self'
    /\ df_lookup (df self') "Blood Type" = Some (SObject (map blood_cell xs)).
Proof.
  intros Hb. unfold clean_blood_types.
  rewrite (df_get_lookup _ _ Hb). cbn [bind].
  rewrite blood_mask_cells.
  pose proof (guarded_map invalid_blood_cell (fun _ => Some "Unknown") xs) as G.
  rewrite blood_cell_assigned in G.
  destruct (0 <? count_true (map invalid_blood_cell xs))%nat eqn:E.
  - cbn [assign_text bind]. eexists. split; [reflexivity|].
    cbn [df with_df report].
    now rewrite df_lookup_set_same, assign_where_map, blood_cell_assigned.
  - eexists. split; [reflexivity|]. now rewrite Hb, <- G.
Qed.

(** A missing blood type is marked like an invalid one. *)
Lemma clean_blood_types_marks_missing (self : Cleaner)
  (xs : list (option string)) :
  df_lookup (df self) "Blood Type" = Some (SObject xs) ->
  exists (self' : Cleaner) (ys : list (option string)),
    clean_blood_types self = Ok self'
    /\ df_lookup (df self') "Blood Type" = Some (SObject ys)
    /\ (forall i, nth_error xs i = Some None ->
                  nth_error ys i = Some (Some "Unknown")).
Proof.
  intros Hb.
  destruct (clean_blood_types_cells self Hb) as (self' & E & B).
  exists self', (map blood_cell xs). split; [exact E|]. split; [exact B|].
  intros i Hi. now rewrite nth_error_map, Hi.
Qed.

(** C4 on the blood type rule: the rule has no test for missing cells, so
    a missing blood type does not pass through unchanged; it is marked
    "Unknown" and counted with the invalid ones.  On the same cells the
    gender rule leaves the missing one missing. *)
Theorem blood_type_missing_marked_unknown :
  clean_blood_types missing_blood_state
  = Ok (report (with_df missing_blood_state
                  [("Blood Type",
                    SObject [Some "A+"; Some "Unknown"; Some "Unknown"])])
               (MarkedInvalidBlood 2))
  /\ clean_gender_data
       (cleaner_on [("Gender", SObject [Some "Male"; None; Some "X"])])
     = Ok (report (cleaner_on [("Gender", SObject [Some "Male"; None; None])])
                  (ConvertedInvalidGender 1)).
Proof. split; reflexivity. Qed.

(** The gender rule does what C4 says: only present cells outside the
    accepted set are nulled, a missing cell stays missing. *)
Lemma gender_rule_spares_missing (self : Cleaner) (xs : list (option string)) :
  df_lookup (df self) "Gender" = Some (SObject xs) ->
  exists (self' : Cleaner) (ys : list (option string)),
    clean_gender_data self = Ok self'
    /\ df_lookup (df self') "Gender" = Some (SObject ys)
    /\ (forall i, nth_error xs i = Some None -> nth_error ys i = Some None)
    /\ (forall i t, nth_error xs i = Some (Some t) ->
                    nth_error ys i
                    = Some (if existsb (String.eqb t) valid_genders
                            then Some t else None)).
Proof.
  intros Hg.
  destruct (clean_gender_data_cells self Hg) as (self' & E & G & _).
  exists self', (map gender_cell xs). split; [exact E|]. split; [exact G|].
  split; intros i; [intros Hi|intros t Hi]; now rewrite nth_error_map, Hi.
Qed.

End CategoricalRules.

(* ================================================================== *)
(** * Missing columns *)
(* ================================================================== *)






Section SettledColumns.

Import HospitalDataCleaner.

(* ================================================================== *)
(** * Rules applied to their own output *)
(* ================================================================== *)

Lemma count_true_pointwise (A : Type) (p : A -> bool) (xs : list A) :
  (forall x, p x = false) -> count_true (map p xs) = 0%nat.
Proof. intros H. apply count_true_none. intros x _. apply H. Qed.










End SettledColumns.

(* ================================================================== *)
(** * Filling missing cells *)
(* ================================================================== *)

Section FillFacts.

Variable A : Type.

Implicit Types xs : list (option A).

Lemma all_present_cons (x : option A) xs :
  all_present (x :: xs) <-> is_none x = false /\ all_present xs.
Proof.
  unfold all_present. simpl. rewrite count_true_cons.
  destruct (is_none x); split; try lia; intros [H1 H2];
    try discriminate; lia.
Qed.

Lemma some_present_in xs : some_present xs <-> exists v, In (Some v) xs.
Proof.
  unfold some_present. induction xs as [|[v|] r IH].
  - split; [intros [[|i] H]; discriminate|intros [v []]].
  - split; [intros _; exists v; now left|intros _; now exists 0%nat].
  - split.
    + intros [[|i] H]; [discriminate|].
      destruct (proj1 IH (ex_intro _ i H)) as [v Hv]. exists v. now right.
    + intros [v [Hv|Hv]]; [discriminate|].
      destruct (proj2 IH (ex_intro _ v Hv)) as [i Hi]. now exists (S i).
Qed.

Lemma present_nonempty xs : some_present xs -> present xs <> [].
Proof.
  rewrite some_present_in. intros [v Hv].
  induction xs as [|[w|] r IH]; simpl; [contradiction|discriminate|].
  destruct Hv as [Hv|Hv]; [discriminate|now apply IH].
Qed.

Lemma present_or_all_missing xs :
  some_present xs \/ forallb is_none xs = true.
Proof.
  induction xs as [|[v|] r IH].
  - now right.
  - left. now exists 0%nat.
  - destruct IH as [[i Hi]|IH]; [left; now exists (S i)|now right].
Qed.

Lemma fillna_all_present (v : A) xs : all_present (fillna (Some v) xs).
Proof.
  induction xs as [|[w|] r IH]; [reflexivity| |];
    apply all_present_cons; split; [reflexivity|exact IH|reflexivity|exact IH].
Qed.

Lemma fillna_length (v : option A) xs :
  List.length (fillna v xs) = List.length xs.
Proof. destruct v; [apply length_map|reflexivity]. Qed.

Lemma all_present_forall xs :
  all_present xs <-> Forall (fun x => is_none x = false) xs.
Proof.
  induction xs as [|x r IH].
  - split; [constructor|reflexivity].
  - rewrite all_present_cons. split.
    + intros [H1 H2]. constructor; [exact H1|now apply IH].
    + intros H. inversion H; subst. split; [assumption|now apply IH].
Qed.

Lemma ffill_from_length (prev : option A) xs :
  List.length (ffill_from prev xs) = List.length xs.
Proof.
  revert prev. induction xs as [|[v|] r IH]; intros prev; simpl;
    [reflexivity| |]; now rewrite IH.
Qed.

Lemma ffill_from_seeded (v : A) xs :
  Forall (fun x => is_none x = false) (ffill_from (Some v) xs).
Proof.
  revert v. induction xs as [|[w|] r IH]; intros v; simpl; constructor;
    try reflexivity; apply IH.
Qed.

Lemma ffill_all_missing xs :
  forallb is_none xs = true -> ffill_from None xs = xs.
Proof.
  induction xs as [|[v|] r IH]; simpl; [reflexivity|discriminate|].
  intros H. now rewrite IH.
Qed.

Lemma forallb_rev (p : option A -> bool) xs :
  forallb p (rev xs) = forallb p xs.
Proof.
  induction xs as [|x r IH]; [reflexivity|]. simpl.
  rewrite forallb_app, IH. simpl. rewrite andb_true_r. apply andb_comm.
Qed.

Lemma bfill_ffill_all_missing xs :
  forallb is_none xs = true -> bfill (ffill xs) = xs.
Proof.
  intros H. unfold bfill, ffill. rewrite (ffill_all_missing _ H).
  rewrite ffill_all_missing by (now rewrite forallb_rev).
  apply rev_involutive.
Qed.

(** After the forward fill the missing cells, if any, all come first. *)
Lemma ffill_shape xs :
  some_present xs ->
  exists k v ys,
    ffill_from None xs = (repeat None k ++ Some v :: ys)%list
    /\ Forall (fun x => is_none x = false) ys.
Proof.
  induction xs as [|[w|] r IH]; intros H.
  - destruct H as [[|i] H]; discriminate.
  - exists 0%nat, w, (ffill_from (Some w) r). split; [reflexivity|].
    apply ffill_from_seeded.
  - assert (Hr : some_present r).
    { destruct H as [[|i] H]; [discriminate|now exists i]. }
    destruct (IH Hr) as (k & v & ys & E & F).
    exists (S k), v, ys. simpl. now rewrite E.
Qed.

Lemma bfill_ffill_all_present xs :
  some_present xs -> all_present (bfill (ffill xs)).
Proof.
  intros H. destruct (ffill_shape H) as (k & v & ys & E & F).
  unfold bfill, ffill. rewrite E. apply all_present_forall.
  apply Forall_rev.
  rewrite rev_app_distr. simpl.
  destruct (rev ys) as [|[y|] t] eqn:Er.
  - simpl. constructor; [reflexivity|apply ffill_from_seeded].
  - simpl. constructor; [reflexivity|apply ffill_from_seeded].
  - exfalso. assert (Hin : In None (rev ys)) by (rewrite Er; now left).
    apply in_rev in Hin.
    rewrite Forall_forall in F. specialize (F _ Hin). discriminate.
Qed.

Lemma bfill_ffill_length xs :
  List.length (bfill (ffill xs)) = List.length xs.
Proof.
  unfold bfill, ffill.
  now rewrite length_rev, ffill_from_length, length_rev, ffill_from_length.
Qed.

Variables eqb ltb : A -> A -> bool.

Lemma mode_step_some (l0 l : list A) (b : A) :
  exists m,
    fold_left
      (fun best x =>
         match best with
         | None => Some x
         | Some b =>
             if (occurrences eqb b l0 <? occurrences eqb x l0)%nat
                || ((occurrences eqb b l0 =? occurrences eqb x l0)%nat && ltb x b)
             then Some x else best
         end) l (Some b) = Some m.
Proof.
  revert b. induction l as [|x r IH]; intros b; simpl; [now exists b|].
  destruct ((occurrences eqb b l0 <? occurrences eqb x l0)%nat
            || ((occurrences eqb b l0 =? occurrences eqb x l0)%nat && ltb x b));
    apply IH.
Qed.

Lemma mode_some xs : some_present xs -> exists m, mode eqb ltb xs = Some m.
Proof.
  intros H. apply present_nonempty in H. unfold mode.
  destruct (present xs) as [|x r] eqn:E; [contradiction|].
  simpl. apply mode_step_some.
Qed.

End FillFacts.

Lemma insert_sorted_nonempty (x : Q) (l : list Q) : insert_sorted x l <> [].
Proof. destruct l as [|y r]; simpl; [discriminate|]. now destruct (Qle_bool x y). Qed.

Lemma mean_some (xs : list (option Q)) :
  some_present xs -> exists m, mean xs = Some m.
Proof.
  intros H. apply present_nonempty in H. unfold mean.
  destruct (present xs) as [|x r]; [contradiction|]. now eexists.
Qed.

Lemma quantile_some (p : Q) (xs : list (option Q)) :
  some_present xs -> exists m, quantile p xs = Some m.
Proof.
  intros H. apply present_nonempty in H. unfold quantile.
  destruct (present xs) as [|x r]; [contradiction|].
  simpl. destruct (insert_sorted x (sort_values r)) eqn:E.
  - now apply insert_sorted_nonempty in E.
  - now eexists.
Qed.

Section Dispatch.

Import MLExpertMissingValueHandler.

Lemma same_dtype_refl (s : Series) : same_dtype s s.
Proof. now destruct s. Qed.

Lemma same_dtype_trans (s t u : Series) :
  same_dtype s t -> same_dtype t u -> same_dtype s u.
Proof. destruct s, t, u; simpl; tauto. Qed.

Lemma column_evolves_refl (s : Series) : column_evolves s s.
Proof. split; [apply same_dtype_refl|split; [reflexivity|now left]]. Qed.

Lemma column_evolves_trans (s t u : Series) :
  column_evolves s t -> column_evolves t u -> column_evolves s u.
Proof.
  intros (D1 & L1 & C1) (D2 & L2 & C2). split; [|split].
  - eapply same_dtype_trans; eassumption.
  - congruence.
  - destruct C2 as [->|C2]; [exact C1|now right].
Qed.

Lemma evolves_refl (d : DataFrame) : evolves d d.
Proof. intros c s H. exists s. split; [exact H|apply column_evolves_refl]. Qed.

Lemma evolves_trans (d1 d2 d3 : DataFrame) :
  evolves d1 d2 -> evolves d2 d3 -> evolves d1 d3.
Proof.
  intros H12 H23 c s H.
  destruct (H12 c s H) as (s2 & L2 & E2).
  destruct (H23 c s2 L2) as (s3 & L3 & E3).
  exists s3. split; [exact L3|]. eapply column_evolves_trans; eassumption.
Qed.

Lemma touches_evolves (col : string) (d d' : DataFrame) :
  touches col d d' -> evolves d d'.
Proof.
  intros [->|(s & s' & L & -> & D & N & F)]; [apply evolves_refl|].
  intros c t Hc. destruct (String.eqb col c) eqn:E.
  - apply String.eqb_eq in E. subst c. exists s'.
    split; [apply df_lookup_set_same|].
    assert (t = s) by congruence. subst t.
    split; [exact D|split; [exact N|now right]].
  - apply String.eqb_neq in E. exists t.
    split; [now rewrite df_lookup_set_other|apply column_evolves_refl].
Qed.

Lemma touches_frame (col c : string) (d d' : DataFrame) :
  touches col d d' -> c <> col -> df_lookup d' c = df_lookup d c.
Proof.
  intros [->|(s & s' & L & -> & _)] Hc; [reflexivity|].
  apply df_lookup_set_other. congruence.
Qed.

Lemma filled_evolves (c : string) (d d' : DataFrame) :
  filled c d -> evolves d d' -> filled c d'.
Proof.
  intros (s & L & N) H. destruct (H c s L) as (s' & L' & _ & _ & [->|N']).
  - now exists s.
  - now exists s'.
Qed.

(** ** The fills, on a column *)

Lemma fill_with_mode_fills (s s' : Series) :
  fill_with_mode s = Some s' ->
  same_dtype s s' /\ slen s' = slen s /\ no_missing s'.
Proof.
  destruct s as [xs|xs|xs]; cbn [fill_with_mode];
    match goal with
    | |- context [mode ?e ?l xs] => destruct (mode e l xs) as [m|]
    end; try discriminate; intros [= <-];
    (split; [exact I|]);
    (split; [exact (fillna_length (Some m) xs)|]);
    exact (fillna_all_present m xs).
Qed.

Lemma fill_with_mode_some (s : Series) :
  has_present s -> exists s', fill_with_mode s = Some s'.
Proof.
  destruct s as [xs|xs|xs]; intros H; cbn [fill_with_mode].
  - destruct (mode_some String.eqb string_ltb H) as [m ->]. now eexists.
  - destruct (mode_some Qeq_bool Qlt_bool H) as [m ->]. now eexists.
  - destruct (mode_some Z.eqb Z.ltb H) as [m ->]. now eexists.
Qed.

Lemma fillna_text_object (v : string) (s : Series) :
  MLH.is_object s = true ->
  exists s', fillna_text v s = Ok s'
             /\ same_dtype s s' /\ slen s' = slen s /\ no_missing s'.
Proof.
  destruct s as [xs|xs|xs]; try discriminate. intros _.
  unfold fillna_text. simpl. eexists. split; [reflexivity|].
  rewrite assign_where_map.
  split; [exact I|]. split; [apply length_map|].
  unfold no_missing. simpl.
  apply count_true_none. intros x Hx. apply in_map_iff in Hx.
  destruct Hx as ([t|] & <- & _); reflexivity.
Qed.

Lemma ffill_bfill_fills (s : Series) :
  (has_present s -> no_missing (ffill_bfill s))
  /\ (no_missing (ffill_bfill s) \/ ffill_bfill s = s)
  /\ same_dtype s (ffill_bfill s) /\ slen (ffill_bfill s) = slen s.
Proof.
  destruct s as [xs|xs|xs];
    (split; [exact (@bfill_ffill_all_present _ xs)|]);
    (split; [|split; [exact I|exact (bfill_ffill_length xs)]]);
    destruct (present_or_all_missing xs) as [H|H];
    solve [ left; exact (bfill_ffill_all_present H)
          | right; cbn [ffill_bfill]; f_equal; now apply bfill_ffill_all_missing ].
Qed.

Lemma no_missing_count (s : Series) :
  (count_true (isna s) =? 0)%nat = true <-> no_missing s.
Proof. unfold no_missing. apply Nat.eqb_eq. Qed.

(** ** The loop bodies *)

Lemma touches_set (col : string) (d : DataFrame) (s s' : Series) :
  df_lookup d col = Some s ->
  same_dtype s s' -> slen s' = slen s -> no_missing s' ->
  touches col d (df_set d col s').
Proof. intros. right. now exists s, s'. Qed.

Lemma filled_set (col : string) (d : DataFrame) (s' : Series) :
  no_missing s' -> filled col (df_set d col s').
Proof. intros H. exists s'. split; [apply df_lookup_set_same|exact H]. Qed.

Lemma impute_low_column_spec : body_spec impute_low_column (fun _ => true).
Proof.
  intros col self _. unfold impute_low_column.
  destruct (df_lookup (df self) col) as [s|] eqn:L.
  2:{ exists self. repeat split; [now left|discriminate]. }
  destruct (count_true (isna s) =? 0)%nat eqn:E.
  { exists self. repeat split; [now left|].
    intros t [= <-] _. exists s. split; [exact L|now apply no_missing_count]. }
  destruct (fill_with_mode s) as [s'|] eqn:F.
  - destruct (fill_with_mode_fills _ F) as (D & N & M).
    eexists. split; [reflexivity|]. split; [reflexivity|]. simpl. split.
    + now apply touches_set with (s := s).
    + intros _ _ _. now apply filled_set.
  - exists self. repeat split; [now left|].
    intros t [= <-] [H|H].
    + destruct (fill_with_mode_some H) as [s' Hs']. congruence.
    + apply no_missing_count in H. congruence.
Qed.

Lemma impute_high_column_spec : body_spec impute_high_column MLH.is_object.
Proof.
  intros col self Hok. unfold impute_high_column.
  destruct (df_lookup (df self) col) as [s|] eqn:L.
  2:{ exists self. repeat split; [now left|discriminate]. }
  specialize (Hok s eq_refl).
  destruct (count_true (isna s) =? 0)%nat eqn:E.
  { exists self. repeat split; [now left|].
    intros t [= <-] _. exists s. split; [exact L|now apply no_missing_count]. }
  assert (Hfill : exists s',
             (if String.eqb col "Insurance Provider" then fillna_text "Self-Pay" s
              else if String.eqb col "Medication" then fillna_text "No Medication" s
              else if String.eqb col "Admission Type" then
                match fill_with_mode s with
                | Some filled => Ok filled
                | None => fillna_text "Emergency" s
                end
              else fillna_text "Unknown" s) = Ok s'
             /\ same_dtype s s' /\ slen s' = slen s /\ no_missing s').
  { destruct (String.eqb col "Insurance Provider");
      [now apply fillna_text_object|].
    destruct (String.eqb col "Medication"); [now apply fillna_text_object|].
    destruct (String.eqb col "Admission Type"); [|now apply fillna_text_object].
    destruct (fill_with_mode s) as [s'|] eqn:F; [|now apply fillna_text_object].
    exists s'. split; [reflexivity|]. now apply fill_with_mode_fills. }
  destruct Hfill as (s' & -> & D & N & M). cbn [bind].
  eexists. split; [reflexivity|]. split; [reflexivity|]. simpl. split.
  - now apply touches_set with (s := s).
  - intros _ _ _. now apply filled_set.
Qed.

Lemma impute_numerical_column_spec :
  body_spec impute_numerical_column MLH.is_number.
Proof.
  intros col self Hok. unfold impute_numerical_column.
  destruct (df_lookup (df self) col) as [s|] eqn:L.
  2:{ exists self. repeat split; [now left|discriminate]. }
  specialize (Hok s eq_refl).
  destruct (count_true (isna s) =? 0)%nat eqn:E.
  { exists self. repeat split; [now left|].
    intros t [= <-] _. exists s. split; [exact L|now apply no_missing_count]. }
  destruct s as [xs|xs|xs]; try discriminate. cbn [statistic_cells bind].
  set (value := if contains_sub "billing" (PyStr.lower col)
                   || contains_sub "amount" (PyStr.lower col)
                then median xs else mean xs).
  assert (Hval : has_present (SNum xs) -> exists m, value = Some m).
  { intros H. subst value.
    destruct (contains_sub "billing" (PyStr.lower col)
              || contains_sub "amount" (PyStr.lower col));
      [now apply quantile_some|now apply mean_some]. }
  destruct value as [m|] eqn:V.
  - eexists. split; [reflexivity|]. split; [reflexivity|]. simpl. split.
    + apply touches_set with (s := SNum xs);
        [exact L|exact I|apply length_map|].
      apply (fillna_all_present m xs).
    + intros _ _ _. apply filled_set. apply (fillna_all_present m xs).
  - eexists. split; [reflexivity|]. split; [reflexivity|]. simpl.
    split; [now left|].
    intros t [= <-] [H|H].
    + destruct (Hval H) as [m Hm]. discriminate.
    + apply no_missing_count in H. congruence.
Qed.

Lemma impute_date_column_spec : body_spec impute_date_column (fun _ => true).
Proof.
  intros col self _. unfold impute_date_column.
  destruct (df_lookup (df self) col) as [s|] eqn:L.
  2:{ exists self. repeat split; [now left|discriminate]. }
  destruct (count_true (isna s) =? 0)%nat eqn:E.
  { exists self. repeat split; [now left|].
    intros t [= <-] _. exists s. split; [exact L|now apply no_missing_count]. }
  assert (Hsame : (if contains_sub "admission" (PyStr.lower col)
                   then with_df self (df_set (df self) col (ffill_bfill s))
                   else with_df self (df_set (df self) col (ffill_bfill s)))
                  = with_df self (df_set (df self) col (ffill_bfill s)))
    by now destruct (contains_sub "admission" (PyStr.lower col)).
  rewrite Hsame.
  eexists. split; [reflexivity|]. split; [reflexivity|]. simpl.
  destruct (ffill_bfill_fills s) as (P & [M|Same] & D & N).
  - split; [now apply touches_set with (s := s)|].
    intros _ _ _. now apply filled_set.
  - rewrite Same, (df_set_same_value _ _ L). split; [now left|].
    intros t [= <-] [H|H]; exists s; (split; [exact L|]).
    + rewrite <- Same. now apply P.
    + exact H.
Qed.


(** ** One loop of the dispatch *)

Section Phase.

Variable body : string -> Handler -> result Handler.
Variable ok : Series -> bool.
Hypothesis body_ok : body_spec body ok.
Hypothesis ok_dtype : forall s s', same_dtype s s' -> ok s = ok s'.

Lemma phase_runs (L : list string) (d0 : DataFrame) :
  (forall c, In c L -> exists s, df_lookup d0 c = Some s /\ ok s = true) ->
  forall self : Handler,
    evolves d0 (df self) ->
    exists self',
      for_each L body self = Ok self'
      /\ buckets self' = buckets self
      /\ evolves (df self) (df self')
      /\ (forall c, ~ In c L -> df_lookup (df self') c = df_lookup (df self) c)
      /\ (forall c s, In c L -> df_lookup d0 c = Some s -> has_present s ->
                      filled c (df self')).
Proof.
  induction L as [|col r IH]; intros Hpre self Hev.
  - exists self. repeat split; [apply evolves_refl|intros c s []].
  - destruct (Hpre col (or_introl eq_refl)) as (s0 & L0 & Ok0).
    destruct (Hev col s0 L0) as (s1 & L1 & D1 & N1 & C1).
    assert (Hbody : forall s, df_lookup (df self) col = Some s -> ok s = true).
    { intros s Hs. assert (s = s1) by congruence. subst s.
      now rewrite <- (ok_dtype _ _ D1). }
    destruct (body_ok col self Hbody) as (self1 & E1 & B1 & T1 & F1).
    pose proof (touches_evolves T1) as Ev1.
    assert (Hpre' : forall c, In c r ->
                              exists s, df_lookup d0 c = Some s /\ ok s = true)
      by (intros c Hc; apply Hpre; now right).
    destruct (IH Hpre' self1 (evolves_trans Hev Ev1))
      as (self' & E' & B' & Ev' & Fr' & Fi').
    exists self'. cbn [for_each]. rewrite E1. cbn [bind].
    split; [exact E'|]. split; [congruence|].
    split; [exact (evolves_trans Ev1 Ev')|]. split.
    + intros c Hc. rewrite Fr' by (intros Hin; apply Hc; now right).
      apply (touches_frame T1). intros ->. apply Hc. now left.
    + intros c s Hin Hs Hp.
      destruct (String.eqb c col) eqn:Ec.
      * apply String.eqb_eq in Ec. subst c.
        assert (s = s0) by congruence. subst s.
        apply filled_evolves with (d := df self1); [|exact Ev'].
        apply (F1 s1 L1).
        destruct C1 as [->|C1]; [now left|now right].
      * apply String.eqb_neq in Ec.
        destruct Hin as [Hin|Hin]; [congruence|].
        now apply (Fi' c s).
Qed.

End Phase.

(** ** The analysis *)

Lemma classify_ok (d : DataFrame) (n : nat) (b : Buckets) (col : string)
  (s : Series) :
  df_lookup d col = Some s ->
  buckets_ok d b -> buckets_ok d (classify n b (col, s)).
Proof.
  intros L [Hp Hk Hl Hh Hn Hd]. unfold classify.
  destruct (count_true (isna s) =? 0)%nat; [now constructor|].
  rewrite Hp. cbn [existsb]. rewrite orb_false_r.
  destruct (String.eqb col "Name") eqn:En; [now constructor|].
  apply String.eqb_neq in En.
  destruct (contains_sub "date" (PyStr.lower col) || is_datetime s) eqn:Ed.
  { constructor; cbn; try assumption; try reflexivity.
    intros c Hc. apply in_app_or in Hc. destruct Hc as [Hc|[<-|[]]];
      [now apply Hd|]. split; [exact En|now exists s]. }
  destruct s as [xs|xs|xs]; cbn [is_object is_number andb].
  - destruct (Qlt_bool (missing_pct (count_true (isna (SObject xs))) n) 5)
      eqn:Eq.
    + constructor; cbn; try assumption; try reflexivity.
      intros c Hc. apply in_app_or in Hc. destruct Hc as [Hc|[<-|[]]];
        [now apply Hl|]. split; [exact En|now exists (SObject xs)].
    + unfold Qlt_bool in Eq. apply negb_false_iff in Eq. rewrite Eq.
      constructor; cbn; try assumption; try reflexivity.
      intros c Hc. apply in_app_or in Hc. destruct Hc as [Hc|[<-|[]]];
        [now apply Hh|]. split; [exact En|now exists (SObject xs)].
  - constructor; cbn; try assumption; try reflexivity.
    intros c Hc. apply in_app_or in Hc. destruct Hc as [Hc|[<-|[]]];
      [now apply Hn|]. split; [exact En|now exists (SNum xs)].
  - rewrite orb_true_r in Ed. discriminate.
Qed.

Lemma unique_lookup (d : DataFrame) (c : string) (s : Series) :
  unique_columns d -> In (c, s) d -> df_lookup d c = Some s.
Proof.
  unfold unique_columns, df_columns.
  induction d as [|[c0 s0] r IH]; intros Hu Hin; [contradiction|].
  simpl in Hu. inversion Hu as [|? ? Hnot Hr]; subst.
  destruct Hin as [[= -> ->]|Hin]; simpl.
  - now rewrite String.eqb_refl.
  - destruct (String.eqb c0 c) eqn:E; [|now apply IH].
    apply String.eqb_eq in E. subst c0. exfalso. apply Hnot.
    apply in_map_iff. now exists (c, s).
Qed.

Lemma fold_classify_ok (d : DataFrame) (n : nat) (l : DataFrame) (b : Buckets) :
  (forall p, In p l -> df_lookup d (fst p) = Some (snd p)) ->
  buckets_ok d b -> buckets_ok d (fold_left (classify n) l b).
Proof.
  revert b. induction l as [|[c s] r IH]; intros b Hall Hb; [exact Hb|].
  cbn [fold_left]. apply IH.
  - intros p Hp. apply Hall. now right.
  - apply classify_ok; [|exact Hb]. apply (Hall (c, s)). now left.
Qed.

Lemma analysis_ok (d : DataFrame) :
  unique_columns d -> buckets_ok d (analysis d).
Proof.
  intros Hu. unfold analysis. apply fold_classify_ok.
  - intros [c s] Hin. now apply unique_lookup.
  - constructor; cbn; tauto.
Qed.

(** ** The steps around the loops *)

Lemma df_lookup_drop_other (d : DataFrame) (cols : list string) (c : string) :
  ~ In c cols -> df_lookup (df_drop d cols) c = df_lookup d c.
Proof.
  intros Hc. unfold df_drop. induction d as [|[c0 s0] r IH]; [reflexivity|].
  simpl. destruct (existsb (String.eqb c0) cols) eqn:E; simpl.
  - destruct (String.eqb c0 c) eqn:E'; [|exact IH].
    apply String.eqb_eq in E'. subst c0. exfalso. apply Hc.
    apply existsb_exists in E. destruct E as (x & Hx & Ex).
    apply String.eqb_eq in Ex. now subst x.
  - now rewrite IH.
Qed.

Lemma drop_pii_columns_frame (self : Handler) (b : Buckets) :
  buckets self = Some b -> pii_columns b = ["Name"] ->
  exists self',
    drop_pii_columns self = Ok self'
    /\ buckets self' = Some b
    /\ (forall c, c <> "Name" -> df_lookup (df self') c = df_lookup (df self) c).
Proof.
  intros Hb Hp. unfold drop_pii_columns, get_buckets. rewrite Hb. cbn [bind].
  rewrite Hp. cbn [filter].
  destruct (df_has (df self) "Name").
  - eexists. split; [reflexivity|]. split; [exact Hb|].
    intros c Hc. simpl. apply df_lookup_drop_other.
    intros [<-|[]]. now apply Hc.
  - exists self. now repeat split.
Qed.

Lemma handle_gender_missing_touches (self : Handler) :
  touches "Gender" (df self) (df (handle_gender_missing self)).
Proof.
  unfold handle_gender_missing.
  destruct (df_lookup (df self) "Gender") as [s|] eqn:L; [|now left].
  destruct (count_true (isna s) =? 0)%nat; [now left|].
  destruct (fill_with_mode s) as [s'|] eqn:F; [|now left].
  destruct (fill_with_mode_fills _ F) as (D & N & M). simpl.
  now apply touches_set with (s := s).
Qed.

Lemma is_object_dtype (s s' : Series) :
  same_dtype s s' -> is_object s = is_object s'.
Proof. destruct s, s'; simpl; tauto. Qed.

Lemma is_number_dtype (s s' : Series) :
  same_dtype s s' -> is_number s = is_number s'.
Proof. destruct s, s'; simpl; tauto. Qed.


(** The dispatch on a frame with distinct column names: it returns, the
    frame evolves by fills only, and the columns of each list are filled
    when they have a value to fill with. *)
Lemma impute_all_runs (self : Handler) :
  unique_columns (df self) ->
  let b := analysis (df self) in
  exists self',
    impute_all self = Ok self'
    /\ (forall c s, c <> "Name" -> df_lookup (df self) c = Some s ->
                    exists s', df_lookup (df self') c = Some s'
                               /\ column_evolves s s')
    /\ (forall c s, In c (fill_columns b) -> df_lookup (df self) c = Some s ->
                    has_present s -> filled c (df self'))
    /\ (forall c, ~ In c (fill_columns b) -> c <> "Name" -> c <> "Gender" ->
                  df_lookup (df self') c = df_lookup (df self) c).
Proof.
  intros Hu. cbv zeta. set (b := analysis (df self)).
  destruct (analysis_ok Hu) as [Hp Hk Hl Hh Hn Hd]. fold b in Hp, Hk, Hl, Hh, Hn, Hd.
  unfold impute_all.
  set (self0 := analyze_missing_patterns self).
  assert (B0 : buckets self0 = Some b) by reflexivity.
  assert (D0 : df self0 = df self) by reflexivity.
  destruct (drop_pii_columns_frame self0 B0 Hp) as (self1 & E1 & B1 & F1).
  rewrite E1. cbn [bind]. rewrite D0 in F1.
  (* the low-missing categoricals *)
  assert (P2 : forall c, In c (categorical_low_missing b) ->
                         exists s, df_lookup (df self1) c = Some s
                                   /\ (fun _ : Series => true) s = true).
  { intros c Hc. destruct (Hl c Hc) as (Hne & s & L & _).
    exists s. split; [now rewrite F1|reflexivity]. }
  destruct (phase_runs impute_low_column_spec (fun _ _ _ => eq_refl) _ P2
                       self1 (evolves_refl _))
    as (self2 & E2 & B2 & Ev2 & Fr2 & Fi2).
  unfold impute_categorical_low_missing, get_buckets at 1.
  rewrite B1. cbn [bind]. rewrite E2. cbn [bind].
  (* the high-missing categoricals *)
  assert (P3 : forall c, In c (categorical_high_missing b) ->
                         exists s, df_lookup (df self1) c = Some s
                                   /\ is_object s = true).
  { intros c Hc. destruct (Hh c Hc) as (Hne & s & L & O).
    exists s. split; [now rewrite F1|exact O]. }
  destruct (phase_runs impute_high_column_spec is_object_dtype _ P3 self2 Ev2)
    as (self3 & E3 & B3 & Ev3 & Fr3 & Fi3).
  unfold impute_categorical_high_missing, get_buckets at 1.
  rewrite B2, B1. cbn [bind]. rewrite E3. cbn [bind].
  pose proof (evolves_trans Ev2 Ev3) as Ev13.
  (* the numerical columns *)
  assert (P4 : forall c, In c (numerical_missing b) ->
                         exists s, df_lookup (df self1) c = Some s
                                   /\ is_number s = true).
  { intros c Hc. destruct (Hn c Hc) as (Hne & s & L & O).
    exists s. split; [now rewrite F1|exact O]. }
  destruct (phase_runs impute_numerical_column_spec is_number_dtype _ P4
                       self3 Ev13)
    as (self4 & E4 & B4 & Ev4 & Fr4 & Fi4).
  unfold impute_numerical_data, get_buckets at 1.
  rewrite B3, B2, B1. cbn [bind]. rewrite E4. cbn [bind].
  pose proof (evolves_trans Ev13 Ev4) as Ev14.
  (* the date columns *)
  assert (P5 : forall c, In c (date_missing b) ->
                         exists s, df_lookup (df self1) c = Some s
                                   /\ (fun _ : Series => true) s = true).
  { intros c Hc. destruct (Hd c Hc) as (Hne & s & L).
    exists s. split; [now rewrite F1|reflexivity]. }
  destruct (phase_runs impute_date_column_spec (fun _ _ _ => eq_refl) _ P5
                       self4 Ev14)
    as (self5 & E5 & B5 & Ev5 & Fr5 & Fi5).
  unfold impute_date_data, get_buckets at 1.
  rewrite B4, B3, B2, B1. cbn [bind]. rewrite E5. cbn [bind].
  pose proof (evolves_trans Ev14 Ev5) as Ev15.
  (* the gender fill *)
  pose proof (handle_gender_missing_touches self5) as T6.
  pose proof (touches_evolves T6) as Ev6.
  pose proof (evolves_trans Ev15 Ev6) as Ev16.
  eexists. split; [reflexivity|]. split; [|split].
  - intros c s Hne L. apply Ev16. now rewrite F1.
  - intros c s Hin L Hpres. unfold fill_columns in Hin.
    apply in_app_or in Hin. destruct Hin as [Hin|Hin].
    { destruct (Hl c Hin) as (Hne & _).
      apply filled_evolves with (d := df self2);
        [apply (Fi2 c s Hin); [now rewrite F1|exact Hpres]|].
      exact (evolves_trans Ev3 (evolves_trans Ev4 (evolves_trans Ev5 Ev6))). }
    apply in_app_or in Hin. destruct Hin as [Hin|Hin].
    { destruct (Hh c Hin) as (Hne & _).
      apply filled_evolves with (d := df self3);
        [apply (Fi3 c s Hin); [now rewrite F1|exact Hpres]|].
      exact (evolves_trans Ev4 (evolves_trans Ev5 Ev6)). }
    apply in_app_or in Hin. destruct Hin as [Hin|Hin].
    { destruct (Hn c Hin) as (Hne & _).
      apply filled_evolves with (d := df self4);
        [apply (Fi4 c s Hin); [now rewrite F1|exact Hpres]|].
      exact (evolves_trans Ev5 Ev6). }
    destruct (Hd c Hin) as (Hne & _).
    apply filled_evolves with (d := df self5); [|exact Ev6].
    apply (Fi5 c s Hin); [now rewrite F1|exact Hpres].
  - intros c Hnot Hname Hgender. unfold fill_columns in Hnot.
    rewrite (touches_frame T6) by exact Hgender.
    rewrite Fr5, Fr4, Fr3, Fr2, F1; try assumption; try reflexivity;
      intros Hin; apply Hnot; repeat (apply in_or_app; (now left) || right);
      try assumption.
Qed.



End Dispatch.

Section DateRule.

Import HDC.

Variable parse : string -> option Z.






End DateRule.


(* ================================================================== *)
(** * Running a rule, or the pipeline, twice *)
(* ================================================================== *)



(* ================================================================== *)
(** * The statements at concrete frames *)
(* ================================================================== *)



Lemma gender_literal_nan_prepass_witness :
  df_lookup (HDC.df literal_nan_state) "Gender"
  = Some (SObject [Some "Male"; Some "NaN"; Some "Male"; Some "Female"])
  /\ HDC.issues_fixed
       (HDC.gender_literal_pass
          literal_nan_state
          (SObject [Some "Male"; Some "NaN"; Some "Male"; Some "Female"]))
     = [HDC.FixedLiteralNan 1].
Proof.
  split; [reflexivity|].
  destruct gender_literal_nan_prepass as (_ & _ & H & _).
  destruct (H literal_nan_state _ eq_refl) as (_ & R & _).
  exact R.
Defined.


Lemma unique_columns_mixed_missing : unique_columns mixed_missing.
Proof.
  unfold unique_columns, mixed_missing, df_columns. cbn [map fst].
  repeat constructor; cbn [In]; intuition discriminate.
Defined.




Lemma age_group_missing_outside_bins_witness :
  df_lookup (MLH.df (handler_on (HDC.df numeric_state))) "Age"
  = Some (SNum [Some 0%Q; Some 101%Q; Some 120%Q; Some 121%Q])
  /\ exists (self' : MLH.Handler) (groups : list (option string)),
       MLH.feature_age_group (handler_on (HDC.df numeric_state)) = Ok self'
       /\ df_lookup (MLH.df self') "Age_Group" = Some (SObject groups)
       /\ nth_error groups 1 = Some None.
Proof.
  split; [reflexivity|].
  destruct age_group_missing_outside_bins as [H _].
  destruct (H (handler_on (HDC.df numeric_state)) _ eq_refl)
    as (self' & groups & E & G & _ & _ & Z & _).
  exists self', groups. split; [exact E|]. split; [exact G|].
  apply (Z 1%nat 101%Q); [reflexivity|]. right. reflexivity.
Defined.

(* ================================================================== *)
(** * Duplicate removal *)
(* ================================================================== *)

Lemma select_map (A B : Type) (f : A -> B) (m : list bool) (xs : list A) :
  select m (map f xs) = map f (select m xs).
Proof.
  revert xs. induction m as [|b m IH]; intros [|x xs]; try reflexivity.
  - now destruct b.
  - destruct b; simpl; now rewrite IH.
Qed.

Lemma select_length (A : Type) (m : list bool) (xs : list A) :
  List.length xs = List.length m ->
  List.length (select m xs) = count_true m.
Proof.
  revert xs. induction m as [|b m IH]; intros [|x xs] H; try discriminate;
    [reflexivity|].
  injection H as H. rewrite count_true_cons.
  destruct b; simpl; now rewrite IH.
Qed.

Lemma count_true_mask_not (m : list bool) :
  (count_true (mask_not m) + count_true m = List.length m)%nat.
Proof.
  unfold mask_not. induction m as [|b m IH]; [reflexivity|].
  simpl. rewrite !count_true_cons. destruct b; simpl; lia.
Qed.

Lemma cells_length (s : Series) : List.length (cells s) = slen s.
Proof. destruct s; apply length_map. Qed.

Lemma cells_select_series (m : list bool) (s : Series) :
  cells (select_series m s) = select m (cells s).
Proof. destruct s; simpl; symmetry; apply select_map. Qed.

Lemma slen_select_series (m : list bool) (s : Series) :
  slen s = List.length m -> slen (select_series m s) = count_true m.
Proof.
  intros H. rewrite <- cells_length, cells_select_series.
  apply select_length. now rewrite cells_length.
Qed.

Lemma duplicated_from_length (seen rs : list (list (option pyval))) :
  List.length (duplicated_from seen rs) = List.length rs.
Proof.
  revert seen. induction rs as [|r rest IH]; intros seen; [reflexivity|].
  simpl. now rewrite IH.
Qed.

Lemma duplicated_length (d : DataFrame) :
  List.length (duplicated d) = nrows d.
Proof.
  unfold duplicated, rows.
  now rewrite duplicated_from_length, length_map, length_seq.
Qed.

(** The rows that are kept are no duplicates of one another, whatever
    rows have been seen among them before. *)
Lemma kept_rows_distinct (rs seen seen' : list (list (option pyval))) :
  (forall x, In x seen' -> In x seen) ->
  count_true
    (duplicated_from seen'
       (select (mask_not (duplicated_from seen rs)) rs)) = 0%nat.
Proof.
  revert seen seen'. induction rs as [|r rest IH]; intros seen seen' Hsub;
    [reflexivity|].
  cbn [duplicated_from mask_not map].
  destruct (existsb (row_eqb r) seen) eqn:E; cbn [negb select].
  - apply IH. intros x Hx. right. now apply Hsub.
  - cbn [duplicated_from]. rewrite count_true_cons.
    assert (E' : existsb (row_eqb r) seen' = false).
    { destruct (existsb (row_eqb r) seen') eqn:E'; [|reflexivity].
      apply existsb_exists in E'. destruct E' as (x & Hx & Hr).
      assert (existsb (row_eqb r) seen = true)
        by (apply existsb_exists; exists x; split; [now apply Hsub|exact Hr]).
      congruence. }
    rewrite E'. cbn. apply IH.
    intros x [<-|Hx]; [now left|right; now apply Hsub].
Qed.

Lemma rows_table (d : DataFrame) :
  rows d
  = table_rows (nrows d) (map (fun p : string * Series => cells (snd p)) d).
Proof.
  unfold rows, table_rows, row. apply map_ext. intros i.
  now rewrite map_map.
Qed.

Lemma table_rows_S (n : nat) (cols : list (list (option pyval))) :
  table_rows (S n) cols
  = map (fun col => nth 0 col None) cols
    :: table_rows n (map (@tl (option pyval)) cols).
Proof.
  unfold table_rows. cbn [seq map]. f_equal.
  rewrite <- seq_shift, map_map. apply map_ext. intros i.
  rewrite map_map. apply map_ext. intros [|x col]; [now destruct i|reflexivity].
Qed.

(** Selecting rows on every column selects the rows of the table. *)
Lemma table_rows_select (m : list bool) (cols : list (list (option pyval))) :
  Forall (fun col => List.length col = List.length m) cols ->
  table_rows (count_true m) (map (select m) cols)
  = select m (table_rows (List.length m) cols).
Proof.
  revert cols. induction m as [|b m IH]; intros cols Hall; [reflexivity|].
  cbn [List.length]. rewrite table_rows_S.
  assert (Htl : Forall (fun col => List.length col = List.length m)
                       (map (@tl (option pyval)) cols)).
  { apply Forall_map. eapply Forall_impl; [|exact Hall].
    intros [|x col] H; [discriminate|now injection H]. }
  specialize (IH _ Htl).
  destruct b; rewrite count_true_cons; cbn [select Nat.add].
  - rewrite table_rows_S. f_equal.
    + rewrite map_map. apply map_ext_in. intros col Hin.
      rewrite Forall_forall in Hall. specialize (Hall _ Hin).
      destruct col; [discriminate|reflexivity].
    + rewrite <- IH. f_equal. rewrite !map_map. apply map_ext_in.
      intros col Hin. rewrite Forall_forall in Hall. specialize (Hall _ Hin).
      destruct col; [discriminate|reflexivity].
  - rewrite <- IH. f_equal. rewrite !map_map. apply map_ext_in.
    intros col Hin. rewrite Forall_forall in Hall. specialize (Hall _ Hin).
    destruct col; [discriminate|reflexivity].
Qed.

Lemma rectangular_columns (d : DataFrame) :
  rectangular d = true ->
  Forall (fun col => List.length col = nrows d)
         (map (fun p : string * Series => cells (snd p)) d).
Proof.
  unfold rectangular. intros H. rewrite forallb_forall in H.
  apply Forall_map. apply Forall_forall. intros p Hp.
  rewrite cells_length. now apply Nat.eqb_eq, H.
Qed.

Lemma nrows_select (m : list bool) (d : DataFrame) :
  List.length m = nrows d ->
  nrows (map (fun p : string * Series => (fst p, select_series m (snd p))) d)
  = count_true m.
Proof.
  destruct d as [|[c s] r]; simpl; intros H.
  - now destruct m.
  - now apply slen_select_series.
Qed.

Lemma rows_select (m : list bool) (d : DataFrame) :
  rectangular d = true -> List.length m = nrows d ->
  rows (map (fun p : string * Series => (fst p, select_series m (snd p))) d)
  = select m (rows d).
Proof.
  intros Hr Hm. rewrite !rows_table, (@nrows_select _ _ Hm), map_map. cbn [snd].
  rewrite <- Hm.
  rewrite <- table_rows_select
    by (rewrite Hm; now apply rectangular_columns).
  f_equal. rewrite map_map. apply map_ext. intros p.
  apply cells_select_series.
Qed.

Lemma rectangular_select (m : list bool) (d : DataFrame) :
  rectangular d = true -> List.length m = nrows d ->
  rectangular
    (map (fun p : string * Series => (fst p, select_series m (snd p))) d)
  = true.
Proof.
  intros Hr Hm. unfold rectangular. rewrite (@nrows_select _ _ Hm).
  rewrite forallb_forall. intros p Hp. apply in_map_iff in Hp.
  destruct Hp as (q & <- & Hq). cbn [snd]. apply Nat.eqb_eq.
  apply slen_select_series. rewrite Hm.
  unfold rectangular in Hr. rewrite forallb_forall in Hr.
  now apply Nat.eqb_eq, Hr.
Qed.

Lemma remove_duplicates_shape (self : HDC.Cleaner) :
  rectangular (HDC.df self) = true ->
  df_columns (HDC.df (HDC.remove_duplicates self)) = df_columns (HDC.df self)
  /\ rectangular (HDC.df (HDC.remove_duplicates self)) = true
  /\ (nrows (HDC.df (HDC.remove_duplicates self))
      + count_true (duplicated (HDC.df self)) = nrows (HDC.df self))%nat
  /\ HDC.original_rows (HDC.remove_duplicates self) = HDC.original_rows self.
Proof.
  intros Hr.
  assert (Hm : List.length (mask_not (duplicated (HDC.df self)))
               = nrows (HDC.df self))
    by (unfold mask_not; now rewrite length_map, duplicated_length).
  unfold HDC.remove_duplicates.
  destruct (0 <? count_true (duplicated (HDC.df self)))%nat eqn:E.
  - cbn [HDC.df HDC.report HDC.with_df HDC.original_rows].
    unfold drop_duplicates. split.
    { unfold df_columns. rewrite map_map. reflexivity. }
    split; [now apply rectangular_select|]. split; [|reflexivity].
    rewrite (@nrows_select _ _ Hm).
    pose proof (count_true_mask_not (duplicated (HDC.df self))) as C.
    now rewrite duplicated_length in C.
  - apply Nat.ltb_ge in E. split; [reflexivity|]. split; [exact Hr|].
    split; [lia|reflexivity].
Qed.

(** X1.  [remove_duplicates] on a rectangular frame keeps the first
    occurrence of every row, in order: the rows that are left are the
    rows not marked by [duplicated], their number and the number of marked
    rows add up to the number of rows before, the column names are as
    before, no row that is left is a duplicate, and a second removal
    changes nothing (state and report included). *)
Theorem remove_duplicates_keeps_first_occurrences :
  forall self : HDC.Cleaner,
    rectangular (HDC.df self) = true ->
    let self' := HDC.remove_duplicates self in
    rows (HDC.df self')
    = select (mask_not (duplicated (HDC.df self))) (rows (HDC.df self))
    /\ (nrows (HDC.df self') + count_true (duplicated (HDC.df self))
        = nrows (HDC.df self))%nat
    /\ df_columns (HDC.df self') = df_columns (HDC.df self)
    /\ rectangular (HDC.df self') = true
    /\ count_true (duplicated (HDC.df self')) = 0%nat
    /\ HDC.remove_duplicates self' = self'.
Proof.
  intros self Hr. cbv zeta.
  assert (Hm : List.length (mask_not (duplicated (HDC.df self)))
               = nrows (HDC.df self))
    by (unfold mask_not; now rewrite length_map, duplicated_length).
  assert (Hdup : forall d, count_true (duplicated d) = 0%nat ->
                           select (mask_not (duplicated d)) (rows d) = rows d).
  { intros d H0. unfold duplicated in *.
    assert (L : List.length (duplicated_from [] (rows d)) = List.length (rows d))
      by apply duplicated_from_length.
    revert H0 L. generalize (duplicated_from [] (rows d)). generalize (rows d).
    induction l as [|r rest IH]; intros [|b m] H0 L; try discriminate;
      [reflexivity|].
    rewrite count_true_cons in H0. destruct b; [discriminate|].
    cbn. f_equal. apply IH; [exact H0|now injection L]. }
  unfold HDC.remove_duplicates.
  destruct (0 <? count_true (duplicated (HDC.df self)))%nat eqn:E.
  - cbn [HDC.df HDC.report HDC.with_df]. unfold drop_duplicates.
    assert (R : rows (map (fun p : string * Series =>
                             (fst p, select_series
                                       (mask_not (duplicated (HDC.df self)))
                                       (snd p))) (HDC.df self))
                = select (mask_not (duplicated (HDC.df self)))
                         (rows (HDC.df self)))
      by now apply rows_select.
    assert (Z : count_true
                  (duplicated
                     (map (fun p : string * Series =>
                             (fst p, select_series
                                       (mask_not (duplicated (HDC.df self)))
                                       (snd p))) (HDC.df self))) = 0%nat).
    { unfold duplicated at 1. rewrite R. unfold duplicated.
      now apply kept_rows_distinct. }
    split; [exact R|]. split.
    { rewrite (@nrows_select _ _ Hm).
      pose proof (count_true_mask_not (duplicated (HDC.df self))) as C.
      now rewrite duplicated_length in C. }
    split.
    { unfold df_columns. rewrite map_map. reflexivity. }
    split; [now apply rectangular_select|].
    split; [exact Z|]. now rewrite Z.
  - apply Nat.ltb_ge in E.
    assert (E0 : count_true (duplicated (HDC.df self)) = 0%nat) by lia.
    split; [now rewrite Hdup|]. split; [lia|]. split; [reflexivity|].
    split; [exact Hr|]. split; [exact E0|].
    unfold HDC.remove_duplicates. now rewrite E0.
Qed.

Lemma remove_duplicates_keeps_first_occurrences_witness :
  rectangular (HDC.df (cleaner_on duplicate_rows)) = true
  /\ rows (HDC.df (HDC.remove_duplicates (cleaner_on duplicate_rows)))
     = [[Some (VText "Ann"); Some (VNumber 30%Q); None];
        [Some (VText "Bob"); Some (VNumber 30%Q); Some (VText "Aspirin")]].
Proof.
  split; [reflexivity|].
  destruct (remove_duplicates_keeps_first_occurrences
              (cleaner_on duplicate_rows) eq_refl) as (R & _).
  rewrite R. reflexivity.
Defined.

(* ================================================================== *)
(** * The accepted values of the categorical rules *)
(* ================================================================== *)

Lemma nth_error_map_some (A B : Type) (f : A -> B) (xs : list A) (i : nat)
  (y : B) :
  nth_error (map f xs) i = Some y ->
  exists x, nth_error xs i = Some x /\ f x = y.
Proof.
  rewrite nth_error_map. destruct (nth_error xs i) as [x|]; [|discriminate].
  intros [= <-]. now exists x.
Qed.

Lemma gender_cell_accepts (x : option string) (t : string) :
  gender_cell x = Some t <-> x = Some t /\ (t = "Male" \/ t = "Female").
Proof.
  destruct x as [u|]; cbn; [|split; [discriminate|now intros [? _]]].
  destruct (String.eqb_spec u "Male") as [->|NM].
  - cbn. split; [intros [= <-]; auto|now intros [? _]].
  - destruct (String.eqb_spec u "Female") as [->|NF].
    + cbn. split; [intros [= <-]; auto|now intros [? _]].
    + cbn. split; [discriminate|].
      intros ([= ->] & [->| ->]); congruence.
Qed.

Lemma literal_nan_not_accepted (t : string) :
  PyStr.match_literal_nan t = true ->
  existsb (String.eqb t) HDC.valid_genders = false.
Proof.
  intros H. apply match_literal_nan_spellings in H.
  repeat (destruct H as [<-|H]; [reflexivity|]). destruct H.
Qed.

(** Every cell falls under exactly one of: missing before, nulled by the
    pre-pass, nulled by the accepted-set test, kept. *)
Lemma gender_cell_missing_count (xs : list (option string)) :
  count_true (map is_none (map gender_cell xs))
  = (count_true (map is_none xs)
     + count_true (map literal_nan_cell xs)
     + count_true (map invalid_gender_cell (map prepass_cell xs)))%nat.
Proof.
  induction xs as [|x xs IH]; [reflexivity|].
  cbn [map]. rewrite !count_true_cons, IH.
  assert (C : ((if is_none (gender_cell x) then 1 else 0)
               = (if is_none x then 1 else 0)
                 + (if literal_nan_cell x then 1 else 0)
                 + (if invalid_gender_cell (prepass_cell x) then 1 else 0))%nat).
  { destruct x as [t|]; [|reflexivity].
    unfold prepass_cell. cbn [gender_cell literal_nan_cell is_none].
    destruct (PyStr.match_literal_nan t) eqn:L.
    - rewrite (literal_nan_not_accepted _ L). reflexivity.
    - cbn [invalid_gender_cell].
      destruct (existsb (String.eqb t) HDC.valid_genders); reflexivity. }
  lia.
Qed.

(** X2.  After [clean_gender_data] on a text column, a cell of [Gender]
    is present exactly when it held "Male" or "Female" before, and then it
    is unchanged; every other cell is missing.  No other column changes,
    and the numbers reported by the two passes add up to the number of
    cells that became missing. *)
Theorem clean_gender_data_accepted_values :
  forall (self : HDC.Cleaner) (xs : list (option string)),
    df_lookup (HDC.df self) "Gender" = Some (SObject xs) ->
    let n := count_true (map literal_nan_cell xs) in
    let m := count_true (map invalid_gender_cell (map prepass_cell xs)) in
    exists (self' : HDC.Cleaner) (ys : list (option string)),
      HDC.clean_gender_data self = Ok self'
      /\ df_lookup (HDC.df self') "Gender" = Some (SObject ys)
      /\ List.length ys = List.length xs
      /\ (forall i t, nth_error ys i = Some (Some t) <->
                      nth_error xs i = Some (Some t)
                      /\ (t = "Male" \/ t = "Female"))
      /\ (forall c, c <> "Gender" ->
                    df_lookup (HDC.df self') c = df_lookup (HDC.df self) c)
      /\ HDC.issues_fixed self'
         = (HDC.issues_fixed self
            ++ (if (0 <? n)%nat then [HDC.FixedLiteralNan n] else [])
            ++ (if (0 <? m)%nat then [HDC.ConvertedInvalidGender m] else []))%list
      /\ count_true (isna (SObject ys))
         = (count_true (isna (SObject xs)) + n + m)%nat.
Proof.
  intros self xs Hg. cbv zeta.
  destruct (clean_gender_data_cells self Hg) as (self' & Hrun & Hcol & Hfr & Hrep).
  exists self', (map gender_cell xs).
  split; [exact Hrun|]. split; [exact Hcol|].
  split; [apply length_map|]. split.
  { intros i t. rewrite nth_error_map. split.
    - destruct (nth_error xs i) as [x|]; [|discriminate].
      cbn [option_map]. intros [= H]. apply gender_cell_accepts in H.
      destruct H as [-> H]. now split.
    - intros [-> H]. cbn [option_map]. f_equal.
      apply gender_cell_accepts. now split. }
  split; [exact Hfr|]. split; [exact Hrep|].
  exact (gender_cell_missing_count xs).
Qed.

Lemma clean_gender_data_accepted_values_witness :
  df_lookup (HDC.df literal_nan_state) "Gender"
  = Some (SObject [Some "Male"; Some "NaN"; Some "Male"; Some "Female"])
  /\ exists (self' : HDC.Cleaner) (ys : list (option string)),
       HDC.clean_gender_data literal_nan_state = Ok self'
       /\ df_lookup (HDC.df self') "Gender" = Some (SObject ys)
       /\ List.length ys = 4%nat.
Proof.
  split; [reflexivity|].
  destruct (clean_gender_data_accepted_values literal_nan_state eq_refl)
    as (self' & ys & Hrun & Hcol & Hlen & _).
  exists self', ys. split; [exact Hrun|]. split; [exact Hcol|exact Hlen].
Defined.

Lemma blood_cell_vocabulary (x : option string) :
  exists t, blood_cell x = Some t
            /\ (In t HDC.valid_blood_types \/ t = "Unknown").
Proof.
  destruct x as [u|]; cbn [blood_cell]; [|now exists "Unknown"; auto].
  destruct (existsb (String.eqb u) HDC.valid_blood_types) eqn:E.
  - exists u. split; [reflexivity|left].
    apply existsb_exists in E. destruct E as (v & Hv & Huv).
    apply String.eqb_eq in Huv. now subst.
  - exists "Unknown". auto.
Qed.

Lemma blood_cell_keeps_valid (t : string) :
  In t HDC.valid_blood_types -> blood_cell (Some t) = Some t.
Proof.
  intros H. cbn [blood_cell].
  assert (E : existsb (String.eqb t) HDC.valid_blood_types = true)
    by (apply existsb_exists; exists t; split; [exact H|apply String.eqb_refl]).
  now rewrite E.
Qed.

(** A cell the rule has written is counted by the rule again. *)
Lemma blood_cell_still_counted (x : option string) :
  invalid_blood_cell (blood_cell x) = invalid_blood_cell x.
Proof.
  destruct x as [u|]; [|reflexivity]. unfold blood_cell.
  destruct (existsb (String.eqb u) HospitalDataCleaner.valid_blood_types)
    eqn:E; [reflexivity|].
  unfold invalid_blood_cell. now rewrite E.
Qed.

Lemma blood_cell_twice (x : option string) :
  blood_cell (blood_cell x) = blood_cell x.
Proof.
  destruct x as [u|]; [|reflexivity].
  destruct (existsb (String.eqb u) HospitalDataCleaner.valid_blood_types)
    eqn:E.
  - assert (H : blood_cell (Some u) = Some u)
      by (unfold blood_cell; now rewrite E).
    now rewrite !H.
  - assert (H : blood_cell (Some u) = Some "Unknown")
      by (unfold blood_cell; now rewrite E).
    now rewrite H.
Qed.

Lemma clean_blood_types_report (self : HDC.Cleaner) (xs : list (option string)) :
  df_lookup (HDC.df self) "Blood Type" = Some (SObject xs) ->
  let k := count_true (map invalid_blood_cell xs) in
  exists self',
    HDC.clean_blood_types self = Ok self'
    /\ HDC.df self' = df_set (HDC.df self) "Blood Type"
                             (SObject (map blood_cell xs))
    /\ HDC.original_rows self' = HDC.original_rows self
    /\ HDC.issues_fixed self'
       = (HDC.issues_fixed self
          ++ (if (0 <? k)%nat then [HDC.MarkedInvalidBlood k] else []))%list.
Proof.
  intros Hb. cbv zeta. unfold HDC.clean_blood_types.
  rewrite (df_get_lookup _ _ Hb). cbn [bind].
  rewrite blood_mask_cells.
  pose proof (guarded_map invalid_blood_cell (fun _ => Some "Unknown") xs) as G.
  rewrite blood_cell_assigned in G.
  destruct (0 <? count_true (map invalid_blood_cell xs))%nat eqn:E.
  - cbn [assign_text bind]. eexists. split; [reflexivity|].
    cbn [HDC.df HDC.with_df HDC.report HDC.original_rows HDC.issues_fixed].
    rewrite assign_where_map, blood_cell_assigned. now repeat split.
  - eexists. split; [reflexivity|]. rewrite <- G.
    rewrite (df_set_same_value _ _ Hb), app_nil_r. now repeat split.
Qed.

(** X3.  After [clean_blood_types] on a text column no cell of
    [Blood Type] is missing: every cell holds one of the eight codes or
    "Unknown".  A cell that held one of the codes is unchanged, no other
    column changes, and the number reported is the number of cells that
    held none of the codes, missing cells included. *)
Theorem clean_blood_types_closed_vocabulary :
  forall (self : HDC.Cleaner) (xs : list (option string)),
    df_lookup (HDC.df self) "Blood Type" = Some (SObject xs) ->
    let k := count_true (map invalid_blood_cell xs) in
    exists (self' : HDC.Cleaner) (ys : list (option string)),
      HDC.clean_blood_types self = Ok self'
      /\ df_lookup (HDC.df self') "Blood Type" = Some (SObject ys)
      /\ List.length ys = List.length xs
      /\ count_true (isna (SObject ys)) = 0%nat
      /\ (forall i y, nth_error ys i = Some y ->
                      exists t, y = Some t
                                /\ (In t HDC.valid_blood_types \/ t = "Unknown"))
      /\ (forall i t, nth_error xs i = Some (Some t) ->
                      In t HDC.valid_blood_types ->
                      nth_error ys i = Some (Some t))
      /\ (forall c, c <> "Blood Type" ->
                    df_lookup (HDC.df self') c = df_lookup (HDC.df self) c)
      /\ HDC.issues_fixed self'
         = (HDC.issues_fixed self
            ++ (if (0 <? k)%nat then [HDC.MarkedInvalidBlood k] else []))%list.
Proof.
  intros self xs Hb. cbv zeta.
  destruct (clean_blood_types_report self Hb) as (self' & Hrun & Hdf & _ & Hrep).
  exists self', (map blood_cell xs).
  split; [exact Hrun|]. split; [rewrite Hdf; apply df_lookup_set_same|].
  split; [apply length_map|]. split.
  { cbn [isna]. rewrite map_map. apply count_true_pointwise.
    intros x. now destruct (blood_cell_vocabulary x) as (t & -> & _). }
  split.
  { intros i y H. apply nth_error_map_some in H. destruct H as (x & _ & <-).
    apply blood_cell_vocabulary. }
  split.
  { intros i t H V. rewrite nth_error_map, H. cbn [option_map].
    now rewrite (blood_cell_keeps_valid V). }
  split; [|exact Hrep].
  intros c Hc. rewrite Hdf. apply df_lookup_set_other. congruence.
Qed.

Lemma clean_blood_types_closed_vocabulary_witness :
  df_lookup (HDC.df missing_blood_state) "Blood Type"
  = Some (SObject [Some "A+"; None; Some "X"])
  /\ exists (self' : HDC.Cleaner) (ys : list (option string)),
       HDC.clean_blood_types missing_blood_state = Ok self'
       /\ df_lookup (HDC.df self') "Blood Type" = Some (SObject ys)
       /\ count_true (isna (SObject ys)) = 0%nat.
Proof.
  split; [reflexivity|].
  destruct (clean_blood_types_closed_vocabulary missing_blood_state eq_refl)
    as (self' & ys & Hrun & Hcol & _ & Hna & _).
  exists self', ys. split; [exact Hrun|]. split; [exact Hcol|exact Hna].
Defined.

(** X4.  [clean_blood_types] run a second time changes no cell, but
    counts the cells it has marked "Unknown" again: when the first run
    reports [k] cells, the second run appends the same report. *)
Theorem clean_blood_types_reports_again :
  forall (self : HDC.Cleaner) (xs : list (option string)),
    df_lookup (HDC.df self) "Blood Type" = Some (SObject xs) ->
    let k := count_true (map invalid_blood_cell xs) in
    (0 < k)%nat ->
    exists self' self'' : HDC.Cleaner,
      HDC.clean_blood_types self = Ok self'
      /\ HDC.clean_blood_types self' = Ok self''
      /\ HDC.df self'' = HDC.df self'
      /\ HDC.issues_fixed self'
         = (HDC.issues_fixed self ++ [HDC.MarkedInvalidBlood k])%list
      /\ HDC.issues_fixed self''
         = (HDC.issues_fixed self
            ++ [HDC.MarkedInvalidBlood k; HDC.MarkedInvalidBlood k])%list.
Proof.
  intros self xs Hb k Hk.
  destruct (clean_blood_types_report self Hb) as (self' & Hrun & Hdf & _ & Hrep).
  assert (Hb' : df_lookup (HDC.df self') "Blood Type"
                = Some (SObject (map blood_cell xs)))
    by (rewrite Hdf; apply df_lookup_set_same).
  destruct (clean_blood_types_report self' Hb')
    as (self'' & Hrun' & Hdf' & _ & Hrep').
  assert (Hk' : count_true (map invalid_blood_cell (map blood_cell xs)) = k).
  { rewrite map_map. unfold k. f_equal. apply map_ext.
    exact blood_cell_still_counted. }
  rewrite Hk' in Hrep'. fold k in Hrep.
  apply Nat.ltb_lt in Hk. rewrite Hk in Hrep, Hrep'.
  exists self', self''. split; [exact Hrun|]. split; [exact Hrun'|].
  split.
  { rewrite Hdf'. apply df_set_same_value. rewrite Hb'. f_equal. f_equal.
    rewrite map_map. apply map_ext. intros x. symmetry.
    apply blood_cell_twice. }
  split; [exact Hrep|]. rewrite Hrep', Hrep, <- app_assoc. reflexivity.
Qed.

Lemma clean_blood_types_reports_again_witness :
  df_lookup (HDC.df missing_blood_state) "Blood Type"
  = Some (SObject [Some "A+"; None; Some "X"])
  /\ exists self' self'' : HDC.Cleaner,
       HDC.clean_blood_types missing_blood_state = Ok self'
       /\ HDC.clean_blood_types self' = Ok self''
       /\ HDC.issues_fixed self''
          = [HDC.MarkedInvalidBlood 2; HDC.MarkedInvalidBlood 2].
Proof.
  split; [reflexivity|].
  destruct (clean_blood_types_reports_again missing_blood_state eq_refl)
    as (self' & self'' & Hrun & Hrun' & _ & _ & Hrep); [cbn; lia|].
  exists self', self''. split; [exact Hrun|]. split; [exact Hrun'|exact Hrep].
Defined.

(* ================================================================== *)
(** * The numeric range rule, case by case *)
(* ================================================================== *)

Ltac by_comparison :=
  repeat match goal with
         | |- context [Qlt_bool ?a ?b] =>
             let E := fresh "E" in
             destruct (Qlt_bool a b) eqn:E;
             [apply Qlt_bool_iff in E|apply Qlt_bool_false_iff in E]
         end;
  cbn [orb andb negb]; try reflexivity; try discriminate; try lra.

Lemma age_cell_present (x : option Q) (q : Q) :
  age_cell x = Some q <-> x = Some q /\ (0 <= q /\ q <= 120)%Q.
Proof.
  destruct x as [p|]; cbn [age_cell]; [|split; [discriminate|now intros [? _]]].
  split.
  - destruct (Qlt_bool p 0 || Qlt_bool 120 p) eqn:E; [discriminate|].
    intros [= <-]. apply orb_false_iff in E. destruct E as [E1 E2].
    apply Qlt_bool_false_iff in E1, E2. auto.
  - intros ([= ->] & H1 & H2). by_comparison.
Qed.

Lemma room_cell_present (x : option Q) (q : Q) :
  room_cell x = Some q <-> x = Some q /\ (1 <= q /\ q <= 9999)%Q.
Proof.
  destruct x as [p|]; cbn [room_cell]; [|split; [discriminate|now intros [? _]]].
  split.
  - destruct (Qlt_bool p 1 || Qlt_bool 9999 p) eqn:E; [discriminate|].
    intros [= <-]. apply orb_false_iff in E. destruct E as [E1 E2].
    apply Qlt_bool_false_iff in E1, E2. auto.
  - intros ([= ->] & H1 & H2). by_comparison.
Qed.




Lemma clean_numerical_data_frame (self : HDC.Cleaner)
  (ages amounts rooms : list (option Q)) :
  df_lookup (HDC.df self) "Age" = Some (SNum ages) ->
  df_lookup (HDC.df self) "Billing Amount" = Some (SNum amounts) ->
  df_lookup (HDC.df self) "Room Number" = Some (SNum rooms) ->
  exists self',
    HDC.clean_numerical_data self = Ok self'
    /\ df_lookup (HDC.df self') "Age" = Some (SNum (map age_cell ages))
    /\ df_lookup (HDC.df self') "Billing Amount"
       = Some (SNum (map billing_cell amounts))
    /\ df_lookup (HDC.df self') "Room Number"
       = Some (SNum (map room_cell rooms))
    /\ (forall c, c <> "Age" -> c <> "Billing Amount" -> c <> "Room Number" ->
                  df_lookup (HDC.df self') c = df_lookup (HDC.df self) c).
Proof.
  intros Ha Hb Hr. unfold HDC.clean_numerical_data.
  destruct (clean_age_cells self Ha) as (s1 & n1 & E1 & A1 & O1 & _).
  rewrite E1. cbn [bind].
  assert (Hb1 : df_lookup (HDC.df s1) "Billing Amount" = Some (SNum amounts))
    by (rewrite O1 by discriminate; exact Hb).
  destruct (clean_billing_cells s1 Hb1) as (s2 & n2 & E2 & B2 & O2 & _).
  rewrite E2. cbn [bind].
  assert (Hr2 : df_lookup (HDC.df s2) "Room Number" = Some (SNum rooms))
    by (rewrite O2, O1 by discriminate; exact Hr).
  destruct (clean_room_cells s2 Hr2) as (s3 & n3 & E3 & R3 & O3 & _).
  rewrite E3. cbn [bind].
  eexists. split; [reflexivity|].
  rewrite !df_report_if.
  split; [|split; [|split]].
  - rewrite O3, O2 by discriminate. exact A1.
  - rewrite O3 by discriminate. exact B2.
  - exact R3.
  - intros c Ca Cb Cr. now rewrite O3, O2, O1.
Qed.

(** X5.  After [clean_numerical_data] a cell of [Age] is present exactly
    when it held an age in [0, 120] before, and a cell of [Room Number]
    exactly when it held a number in [1, 9999]; such a cell is unchanged
    and every other cell is missing.  The columns keep their length and
    the columns other than the three numeric ones are untouched. *)
Theorem age_and_room_within_range :
  forall (self : HDC.Cleaner) (ages amounts rooms : list (option Q)),
    df_lookup (HDC.df self) "Age" = Some (SNum ages) ->
    df_lookup (HDC.df self) "Billing Amount" = Some (SNum amounts) ->
    df_lookup (HDC.df self) "Room Number" = Some (SNum rooms) ->
    exists (self' : HDC.Cleaner) (ages' rooms' : list (option Q)),
      HDC.clean_numerical_data self = Ok self'
      /\ df_lookup (HDC.df self') "Age" = Some (SNum ages')
      /\ df_lookup (HDC.df self') "Room Number" = Some (SNum rooms')
      /\ List.length ages' = List.length ages
      /\ List.length rooms' = List.length rooms
      /\ (forall i q, nth_error ages' i = Some (Some q) <->
                      nth_error ages i = Some (Some q)
                      /\ (0 <= q /\ q <= 120)%Q)
      /\ (forall i q, nth_error rooms' i = Some (Some q) <->
                      nth_error rooms i = Some (Some q)
                      /\ (1 <= q /\ q <= 9999)%Q)
      /\ (forall c, c <> "Age" -> c <> "Billing Amount" ->
                    c <> "Room Number" ->
                    df_lookup (HDC.df self') c = df_lookup (HDC.df self) c).
Proof.
  intros self ages amounts rooms Ha Hb Hr.
  destruct (clean_numerical_data_frame self Ha Hb Hr)
    as (self' & Hrun & A & _ & R & O).
  exists self', (map age_cell ages), (map room_cell rooms).
  split; [exact Hrun|]. split; [exact A|]. split; [exact R|].
  split; [apply length_map|]. split; [apply length_map|].
  split; [|split; [|exact O]].
  - intros i q. rewrite nth_error_map. split.
    + destruct (nth_error ages i) as [x|]; [|discriminate].
      cbn [option_map]. intros [= H]. apply age_cell_present in H.
      destruct H as [-> H]. now split.
    + intros [-> H]. cbn [option_map]. f_equal.
      apply age_cell_present. now split.
  - intros i q. rewrite nth_error_map. split.
    + destruct (nth_error rooms i) as [x|]; [|discriminate].
      cbn [option_map]. intros [= H]. apply room_cell_present in H.
      destruct H as [-> H]. now split.
    + intros [-> H]. cbn [option_map]. f_equal.
      apply room_cell_present. now split.
Qed.

Lemma age_and_room_within_range_witness :
  df_lookup (HDC.df numeric_state) "Age"
  = Some (SNum [Some 0%Q; Some 101%Q; Some 120%Q; Some 121%Q])
  /\ df_lookup (HDC.df numeric_state) "Billing Amount"
     = Some (SNum [Some (-500)%Q; None; Some 2000000%Q; Some (1 # 2)%Q])
  /\ df_lookup (HDC.df numeric_state) "Room Number"
     = Some (SNum [Some 101%Q; Some 0%Q; Some 328%Q; None])
  /\ exists (self' : HDC.Cleaner) (ages' : list (option Q)),
       HDC.clean_numerical_data numeric_state = Ok self'
       /\ df_lookup (HDC.df self') "Age" = Some (SNum ages')
       /\ List.length ages' = 4%nat.
Proof.
  split; [reflexivity|]. split; [reflexivity|]. split; [reflexivity|].
  destruct (age_and_room_within_range numeric_state eq_refl eq_refl eq_refl)
    as (self' & ages' & rooms' & Hrun & A & _ & La & _).
  exists self', ages'. split; [exact Hrun|]. split; [exact A|exact La].
Defined.



(* ================================================================== *)
(** * The date rule of the cleaning script, row by row *)
(* ================================================================== *)







(* ================================================================== *)
(** * Quantiles, the median fill and the outlier report *)
(* ================================================================== *)

Lemma insert_sorted_In (x y : Q) (l : list Q) :
  In x (insert_sorted y l) -> x = y \/ In x l.
Proof.
  induction l as [|z r IH]; cbn [insert_sorted].
  - intros [<-|[]]. now left.
  - destruct (Qle_bool y z).
    + intros [<-|H]; [now left|now right].
    + intros [<-|H]; [right; now left|].
      destruct (IH H) as [->|H']; [now left|right; now right].
Qed.

Lemma sort_values_In (x : Q) (l : list Q) : In x (sort_values l) -> In x l.
Proof.
  unfold sort_values. induction l as [|y r IH]; cbn [fold_right]; [easy|].
  intros H. apply insert_sorted_In in H.
  destruct H as [->|H]; [now left|right; now apply IH].
Qed.

Lemma present_In (A : Type) (x : A) (xs : list (option A)) :
  In x (present xs) <-> In (Some x) xs.
Proof.
  induction xs as [|[y|] r IH]; cbn [present]; [tauto| |].
  - split.
    + intros [<-|H]; [now left|right; now apply IH].
    + intros [[= <-]|H]; [now left|right; now apply IH].
  - split.
    + intros H. right. now apply IH.
    + intros [H|H]; [discriminate|now apply IH].
Qed.

Lemma last_In (A : Type) (l : list A) (d : A) : l <> [] -> In (last l d) l.
Proof.
  induction l as [|x r IH]; [easy|]. intros _.
  destruct r as [|y r']; [now left|].
  right. apply IH. discriminate.
Qed.

Lemma nth_satisfies (A : Type) (P : A -> Prop) (l : list A) (d : A) (n : nat) :
  (forall x, In x l -> P x) -> P d -> P (nth n l d).
Proof.
  intros Hl Hd. destruct (nth_in_or_default n l d) as [H|H];
    [now apply Hl|now rewrite H].
Qed.

Lemma fraction_of_floor (x : Q) :
  (0 <= x - inject_Z (Qfloor x) /\ x - inject_Z (Qfloor x) <= 1)%Q.
Proof.
  pose proof (Qfloor_le x) as L. pose proof (Qlt_floor x) as U.
  rewrite inject_Z_plus in U. change (inject_Z 1) with 1%Q in U.
  split; lra.
Qed.

Lemma between_two (lo hi a b f : Q) :
  (lo <= a /\ a <= hi)%Q -> (lo <= b /\ b <= hi)%Q -> (0 <= f /\ f <= 1)%Q ->
  (lo <= a + (b - a) * f /\ a + (b - a) * f <= hi)%Q.
Proof.
  intros [A1 A2] [B1 B2] [F1 F2].
  assert (P1 : (0 <= (b - lo) * f)%Q) by (apply Qmult_le_0_compat; lra).
  assert (P2 : (0 <= (a - lo) * (1 - f))%Q) by (apply Qmult_le_0_compat; lra).
  assert (P3 : (0 <= (hi - b) * f)%Q) by (apply Qmult_le_0_compat; lra).
  assert (P4 : (0 <= (hi - a) * (1 - f))%Q) by (apply Qmult_le_0_compat; lra).
  split.
  - assert (E : (a + (b - a) * f - lo == (b - lo) * f + (a - lo) * (1 - f))%Q)
      by ring.
    lra.
  - assert (E : (hi - (a + (b - a) * f) == (hi - b) * f + (hi - a) * (1 - f))%Q)
      by ring.
    lra.
Qed.

Lemma quantile_bounded (p lo hi : Q) (xs : list (option Q)) :
  (forall q, In (Some q) xs -> (lo <= q /\ q <= hi)%Q) ->
  match quantile p xs with
  | Some m => (lo <= m /\ m <= hi)%Q
  | None => True
  end.
Proof.
  intros Hb. unfold quantile.
  destruct (sort_values (present xs)) as [|v vs] eqn:S; [exact I|].
  assert (Hin : forall q, In q (v :: vs) -> (lo <= q /\ q <= hi)%Q).
  { intros q Hq. apply Hb, present_In, sort_values_In. now rewrite S. }
  cbv beta iota zeta.
  match goal with
  | |- (lo <= ?a + (?b - ?a) * ?f /\ _)%Q => apply (@between_two lo hi a b f)
  end.
  - apply nth_satisfies with (P := fun q => (lo <= q /\ q <= hi)%Q);
      [exact Hin|apply Hin; now left].
  - apply nth_satisfies with (P := fun q => (lo <= q /\ q <= hi)%Q);
      [exact Hin|apply Hin; apply last_In; discriminate].
  - apply fraction_of_floor.
Qed.

(** A quantile of a column lies between any two bounds of its present
    values. *)
Lemma quantile_between (p lo hi : Q) (xs : list (option Q)) (m : Q) :
  (forall q, In (Some q) xs -> (lo <= q /\ q <= hi)%Q) ->
  quantile p xs = Some m -> (lo <= m /\ m <= hi)%Q.
Proof.
  intros Hb E. pose proof (quantile_bounded p xs Hb) as H.
  now rewrite E in H.
Qed.

Lemma missing_summary_find (d : DataFrame) (c : string) (s : Series) :
  df_lookup d c = Some s ->
  (0 < count_true (isna s))%nat ->
  find (fun p : string * nat => String.eqb (fst p) c) (HDC.missing_summary d)
  = Some (c, count_true (isna s)).
Proof.
  intros Hl Hpos. unfold HDC.missing_summary.
  induction d as [|[k t] r IH]; [discriminate|].
  cbn [df_lookup] in Hl. cbn [map filter fst snd].
  destruct (String.eqb_spec k c) as [->|Hk].
  - injection Hl as ->. apply Nat.ltb_lt in Hpos. rewrite Hpos.
    cbn [find fst]. now rewrite String.eqb_refl.
  - destruct (0 <? count_true (isna t))%nat.
    + cbn [find fst]. apply String.eqb_neq in Hk. rewrite Hk. now apply IH.
    + now apply IH.
Qed.

Lemma missing_summary_nonempty (d : DataFrame) (c : string) (s : Series) :
  df_lookup d c = Some s ->
  (0 < count_true (isna s))%nat ->
  (0 <? List.length (HDC.missing_summary d))%nat = true.
Proof.
  intros Hl Hpos. pose proof (missing_summary_find d c Hl Hpos) as F.
  destruct (HDC.missing_summary d); [discriminate|reflexivity].
Qed.

Lemma fillna_row (A : Type) (v : A) (xs : list (option A)) (i : nat)
  (x : option A) :
  nth_error xs i = Some x ->
  nth_error (fillna (Some v) xs) i
  = Some (match x with None => Some v | Some _ => x end).
Proof. intros H. cbn [fillna]. now rewrite nth_error_map, H. Qed.

Lemma handle_missing_values_age (self : HDC.Cleaner) (ages : list (option Q)) :
  df_lookup (HDC.df self) "Age" = Some (SNum ages) ->
  (0 < count_true (map is_none ages))%nat ->
  HDC.handle_missing_values self
  = Ok (HDC.report
          (HDC.report
             (match median ages with
              | Some _ =>
                  HDC.with_df self (df_set (HDC.df self) "Age"
                                           (SNum (fillna (median ages) ages)))
              | None => self
              end)
             (HDC.FilledAges (count_true (map is_none ages))))
          HDC.AppliedMissingPolicies).
Proof.
  intros Ha Hpos. unfold HDC.handle_missing_values.
  rewrite (missing_summary_nonempty _ _ Ha Hpos).
  rewrite (missing_summary_find _ _ Ha Hpos).
  rewrite (df_get_lookup _ _ Ha). reflexivity.
Qed.



(** X9.  [handle_missing_values] on a numeric [Age] column whose cells
    are all missing has no median to fill with: the frame is left as it
    is, and the report says all the same that the missing ages were
    filled. *)
Theorem missing_ages_without_median :
  forall (self : HDC.Cleaner) (ages : list (option Q)),
    df_lookup (HDC.df self) "Age" = Some (SNum ages) ->
    ages <> [] ->
    forallb is_none ages = true ->
    exists self' : HDC.Cleaner,
      HDC.handle_missing_values self = Ok self'
      /\ HDC.df self' = HDC.df self
      /\ HDC.issues_fixed self'
         = (HDC.issues_fixed self
            ++ [HDC.FilledAges (List.length ages);
                HDC.AppliedMissingPolicies])%list.
Proof.
  intros self ages Ha Hne Hall.
  assert (Hcount : count_true (map is_none ages) = List.length ages).
  { clear Ha Hne. induction ages as [|x r IH]; [reflexivity|].
    cbn [forallb] in Hall. apply andb_true_iff in Hall.
    destruct Hall as [Hx Hr]. cbn [map List.length].
    rewrite count_true_cons, Hx, (IH Hr). reflexivity. }
  assert (Hpos : (0 < count_true (map is_none ages))%nat)
    by (rewrite Hcount; destruct ages; [congruence|cbn; lia]).
  assert (Hmed : median ages = None).
  { unfold median, quantile.
    assert (P : present ages = []).
    { clear Ha Hne Hcount Hpos. induction ages as [|[x|] r IH];
        [reflexivity|discriminate|]. now apply IH. }
    now rewrite P. }
  rewrite (handle_missing_values_age self Ha Hpos), Hmed, Hcount.
  eexists. split; [reflexivity|]. split; [reflexivity|].
  cbn [HDC.report HDC.issues_fixed]. now rewrite <- app_assoc.
Qed.

Lemma missing_ages_without_median_witness :
  df_lookup (HDC.df (cleaner_on nothing_to_fill_with)) "Age"
  = Some (SNum [None; None])
  /\ exists self' : HDC.Cleaner,
       HDC.handle_missing_values (cleaner_on nothing_to_fill_with) = Ok self'
       /\ HDC.df self' = nothing_to_fill_with
       /\ HDC.issues_fixed self'
          = [HDC.FilledAges 2; HDC.AppliedMissingPolicies].
Proof.
  split; [reflexivity|].
  destruct (@missing_ages_without_median
              (cleaner_on nothing_to_fill_with) [None; None] eq_refl)
    as (self' & Hrun & Hdf & Hrep); [discriminate|reflexivity|].
  exists self'. split; [exact Hrun|]. split; [exact Hdf|exact Hrep].
Defined.

Lemma detect_outliers_body (col : string) (self : HDC.Cleaner) :
  (if df_has (HDC.df self) col
   then s <- df_get (HDC.df self) col ;;
        statistic_cells s ;;;
        Ok self
   else Ok self) = Ok self
  \/ exists e,
      (if df_has (HDC.df self) col
       then s <- df_get (HDC.df self) col ;;
            statistic_cells s ;;;
            Ok self
       else Ok self) = Raise e.
Proof.
  destruct (df_has (HDC.df self) col); [|now left].
  destruct (df_get (HDC.df self) col) as [s|e]; [|right; now exists e].
  cbn [bind]. destruct (statistic_cells s) as [xs|e];
    [now left|right; now exists e].
Qed.

Lemma detect_outliers_returns_self (self self' : HDC.Cleaner) :
  HDC.detect_outliers self = Ok self' -> self' = self.
Proof.
  unfold HDC.detect_outliers.
  generalize HDC.numerical_columns. intros cols. revert self.
  induction cols as [|col r IH]; intros self; cbn [for_each].
  - now intros [= <-].
  - destruct (detect_outliers_body col self) as [E|(e & E)]; rewrite E;
      cbn [bind].
    + apply IH.
    + discriminate.
Qed.

(** X10.  [detect_outliers] only reads: when it returns, the object
    state is the one it was given, and it returns whenever each of [Age],
    [Billing Amount] and [Room Number] is a numeric column or absent. *)
Theorem detect_outliers_reads_only :
  (forall self self' : HDC.Cleaner,
      HDC.detect_outliers self = Ok self' -> self' = self)
  /\ (forall self : HDC.Cleaner,
         (forall c s, In c HDC.numerical_columns ->
                      df_lookup (HDC.df self) c = Some s ->
                      MLH.is_number s = true) ->
         HDC.detect_outliers self = Ok self).
Proof.
  split; [exact detect_outliers_returns_self|].
  intros self Hnum. unfold HDC.detect_outliers.
  revert Hnum. generalize HDC.numerical_columns. intros cols.
  induction cols as [|col r IH]; intros Hnum; cbn [for_each]; [reflexivity|].
  assert (E : (if df_has (HDC.df self) col
               then s <- df_get (HDC.df self) col ;;
                    statistic_cells s ;;;
                    Ok self
               else Ok self) = Ok self).
  { unfold df_has, df_get.
    destruct (df_lookup (HDC.df self) col) as [s|] eqn:L; [|reflexivity].
    cbn [is_some is_none negb bind].
    specialize (Hnum col s (or_introl eq_refl) L).
    destruct s; try discriminate. reflexivity. }
  rewrite E. cbn [bind]. apply IH.
  intros c s Hc. apply Hnum. now right.
Qed.

Lemma detect_outliers_reads_only_witness :
  HDC.detect_outliers numeric_state = Ok numeric_state.
Proof.
  destruct detect_outliers_reads_only as [_ H]. apply H.
  intros c s [<-|[<-|[<-|[]]]] [= <-]; reflexivity.
Defined.

(* ================================================================== *)
(** * The analysis of the missing cells and the PII column *)
(* ================================================================== *)

Lemma classify_appends (n : nat) (b : MLH.Buckets) (p : string * Series) :
  MLH.pii_columns b = ["Name"] ->
  MLH.classify n b p
  = {| MLH.pii_columns := MLH.pii_columns b;
       MLH.categorical_low_missing :=
         (MLH.categorical_low_missing b
          ++ (if takes_low n p then [fst p] else []))%list;
       MLH.categorical_high_missing :=
         (MLH.categorical_high_missing b
          ++ (if takes_high n p then [fst p] else []))%list;
       MLH.numerical_missing :=
         (MLH.numerical_missing b
          ++ (if takes_number p then [fst p] else []))%list;
       MLH.date_missing :=
         (MLH.date_missing b ++ (if takes_date p then [fst p] else []))%list;
       MLH.keep_missing := MLH.keep_missing b |}.
Proof.
  intros Hpii. destruct p as [col s].
  destruct b as [pii low high num dat keep].
  cbn [MLH.pii_columns] in Hpii. subst pii.
  unfold MLH.classify, takes_low, takes_high, takes_number, takes_date,
    needs_fill, date_like, low_share.
  cbn [fst snd MLH.pii_columns MLH.categorical_low_missing
       MLH.categorical_high_missing MLH.numerical_missing MLH.date_missing
       MLH.keep_missing existsb].
  rewrite orb_false_r.
  destruct (count_true (isna s) =? 0)%nat.
  { cbn [negb andb]. now rewrite !app_nil_r. }
  destruct (String.eqb col "Name").
  { cbn [negb andb]. now rewrite !app_nil_r. }
  cbn [negb andb].
  destruct (contains_sub "date" (PyStr.lower col) || MLH.is_datetime s) eqn:D.
  { cbn [negb andb]. now rewrite !app_nil_r. }
  cbn [negb andb].
  assert (Q : Qle_bool 5 (MLH.missing_pct (count_true (isna s)) n)
              = negb (Qlt_bool (MLH.missing_pct (count_true (isna s)) n) 5))
    by (unfold Qlt_bool; now rewrite negb_involutive).
  rewrite Q.
  destruct s as [xs|xs|xs]; cbn [MLH.is_object MLH.is_number andb].
  - destruct (Qlt_bool (MLH.missing_pct (count_true (isna (SObject xs))) n) 5);
      cbn [negb]; now rewrite !app_nil_r.
  - now rewrite !app_nil_r.
  - apply orb_false_iff in D. destruct D as [_ D]. discriminate.
Qed.

(** The lists the loop builds are the columns, in frame order, that each
    branch takes. *)
Lemma fold_classify_lists (n : nat) (l : DataFrame) (b : MLH.Buckets) :
  MLH.pii_columns b = ["Name"] ->
  fold_left (MLH.classify n) l b
  = {| MLH.pii_columns := ["Name"];
       MLH.categorical_low_missing :=
         (MLH.categorical_low_missing b
          ++ map fst (filter (takes_low n) l))%list;
       MLH.categorical_high_missing :=
         (MLH.categorical_high_missing b
          ++ map fst (filter (takes_high n) l))%list;
       MLH.numerical_missing :=
         (MLH.numerical_missing b ++ map fst (filter takes_number l))%list;
       MLH.date_missing :=
         (MLH.date_missing b ++ map fst (filter takes_date l))%list;
       MLH.keep_missing := MLH.keep_missing b |}.
Proof.
  revert b. induction l as [|p r IH]; intros b Hpii.
  - cbn [fold_left filter map]. rewrite !app_nil_r, <- Hpii. now destruct b.
  - cbn [fold_left]. rewrite (@classify_appends n b p Hpii).
    rewrite IH by exact Hpii.
    cbn [MLH.categorical_low_missing MLH.categorical_high_missing
         MLH.numerical_missing MLH.date_missing MLH.keep_missing filter].
    rewrite <- !app_assoc.
    destruct (takes_low n p), (takes_high n p), (takes_number p),
      (takes_date p); reflexivity.
Qed.

Lemma analysis_lists (d : DataFrame) :
  analysis d
  = {| MLH.pii_columns := ["Name"];
       MLH.categorical_low_missing := map fst (filter (takes_low (nrows d)) d);
       MLH.categorical_high_missing :=
         map fst (filter (takes_high (nrows d)) d);
       MLH.numerical_missing := map fst (filter takes_number d);
       MLH.date_missing := map fst (filter takes_date d);
       MLH.keep_missing := [] |}.
Proof. unfold analysis. now rewrite fold_classify_lists. Qed.

Lemma in_taken (f : string * Series -> bool) (d : DataFrame) (c : string) :
  unique_columns d ->
  In c (map fst (filter f d)) <->
  exists s, df_lookup d c = Some s /\ f (c, s) = true.
Proof.
  intros Hu. rewrite in_map_iff. split.
  - intros ([k s] & <- & H). apply filter_In in H. destruct H as [Hin Hf].
    exists s. split; [now apply unique_lookup|exact Hf].
  - intros (s & Hl & Hf). exists (c, s). split; [reflexivity|].
    apply filter_In. split; [|exact Hf].
    clear Hu Hf. induction d as [|[k t] r IH]; [discriminate|].
    cbn [df_lookup] in Hl. destruct (String.eqb_spec k c) as [->|Hk].
    + injection Hl as ->. now left.
    + right. now apply IH.
Qed.

Lemma NoDup_map_filter (f : string * Series -> bool) (d : DataFrame) :
  NoDup (map fst d) -> NoDup (map fst (filter f d)).
Proof.
  induction d as [|p r IH]; cbn [map filter]; [easy|].
  intros H. inversion H as [|? ? Hn Hr]; subst.
  destruct (f p); [|now apply IH].
  cbn [map]. constructor; [|now apply IH].
  intros Hin. apply Hn. apply in_map_iff in Hin.
  destruct Hin as (q & Hq & Hin). apply filter_In in Hin.
  apply in_map_iff. exists q. now split.
Qed.

Lemma needs_fill_spec (c : string) (s : Series) :
  needs_fill (c, s) = true <-> c <> "Name" /\ ~ no_missing s.
Proof.
  unfold needs_fill, no_missing. cbn [fst snd].
  rewrite andb_true_iff, !negb_true_iff, Nat.eqb_neq, String.eqb_neq. tauto.
Qed.

Lemma dtype_cases (s : Series) :
  MLH.is_object s = true \/ MLH.is_number s = true \/ MLH.is_datetime s = true.
Proof. destruct s; cbn; auto. Qed.

Ltac pick_branch :=
  first [ solve [left; repeat split; reflexivity]
        | solve [repeat split; reflexivity]
        | right; pick_branch ].

Lemma takes_one (n : nat) (p : string * Series) :
  needs_fill p = true ->
  (takes_date p = true /\ takes_low n p = false /\ takes_high n p = false
   /\ takes_number p = false)
  \/ (takes_date p = false /\ takes_low n p = true /\ takes_high n p = false
      /\ takes_number p = false)
  \/ (takes_date p = false /\ takes_low n p = false /\ takes_high n p = true
      /\ takes_number p = false)
  \/ (takes_date p = false /\ takes_low n p = false /\ takes_high n p = false
      /\ takes_number p = true).
Proof.
  intros H. unfold takes_date, takes_low, takes_high, takes_number.
  rewrite H. cbn [andb]. unfold date_like.
  destruct p as [c [xs|xs|xs]]; cbn [fst snd MLH.is_datetime MLH.is_object
                                      MLH.is_number];
    destruct (contains_sub "date" (PyStr.lower c)); cbn [orb negb andb];
    try pick_branch.
  destruct (low_share n (c, SObject xs)); cbn [negb]; pick_branch.
Qed.

Lemma takes_needs_fill (n : nat) (p : string * Series) :
  takes_date p = true \/ takes_low n p = true \/ takes_high n p = true
  \/ takes_number p = true ->
  needs_fill p = true.
Proof.
  unfold takes_date, takes_low, takes_high, takes_number.
  destruct (needs_fill p); [reflexivity|]. cbn [andb]. intuition discriminate.
Qed.

Lemma missing_pct_low (m n : nat) :
  (0 < n)%nat ->
  Qlt_bool (MLH.missing_pct m n) 5 = (20 * m <? n)%nat.
Proof.
  intros Hn.
  assert (E : (MLH.missing_pct m n < 5)%Q <-> (20 * m < n)%nat).
  { unfold MLH.missing_pct. destruct n as [|k]; [lia|].
    unfold Qlt, Qdiv, Qmult, Qinv, inject_Z. cbn [Qnum Qden Z.of_nat]. lia. }
  destruct (20 * m <? n)%nat eqn:B.
  - apply Qlt_bool_iff, E. now apply Nat.ltb_lt.
  - apply Nat.ltb_ge in B.
    destruct (Qlt_bool (MLH.missing_pct m n) 5) eqn:C; [|reflexivity].
    apply Qlt_bool_iff, E in C. lia.
Qed.

Lemma rectangular_lookup (d : DataFrame) (c : string) (s : Series) :
  rectangular d = true -> df_lookup d c = Some s -> slen s = nrows d.
Proof.
  unfold rectangular. intros Hr Hl. rewrite forallb_forall in Hr.
  assert (Hin : In (c, s) d).
  { clear Hr. induction d as [|[k t] r IH]; [discriminate|].
    cbn [df_lookup] in Hl. destruct (String.eqb_spec k c) as [->|Hk].
    - injection Hl as ->. now left.
    - right. now apply IH. }
  now apply Nat.eqb_eq, (Hr _ Hin).
Qed.

Lemma count_true_le_length (m : list bool) :
  (count_true m <= List.length m)%nat.
Proof.
  induction m as [|b r IH]; [cbn; lia|].
  rewrite count_true_cons. cbn [List.length]. destruct b; lia.
Qed.

Lemma isna_length (s : Series) : List.length (isna s) = slen s.
Proof. destruct s; apply length_map. Qed.

Lemma in_taken_at (f : string * Series -> bool) (d : DataFrame) (c : string)
  (s : Series) :
  unique_columns d -> df_lookup d c = Some s ->
  In c (map fst (filter f d)) <-> f (c, s) = true.
Proof.
  intros Hu Hl. rewrite (in_taken f c Hu). split.
  - intros (s' & Hl' & Hf). congruence.
  - intros Hf. now exists s.
Qed.

(** X11.  [analyze_missing_patterns] on a rectangular frame with
    distinct column names designates each column once: the four lists
    have no column in common, and a column is in one of them exactly when
    it is not [Name] and has a missing cell.  Such a column goes to the
    date list when its name contains "date" or its dtype is datetime,
    whatever its dtype otherwise; else a numeric column goes to the
    numerical list and a text column to the low list when fewer than one in
    twenty of its cells are missing, to the high list when not.  Nothing is
    kept as missing. *)
Theorem analysis_designates_once :
  forall d : DataFrame,
    unique_columns d ->
    rectangular d = true ->
    let b := analysis d in
    MLH.buckets (MLH.analyze_missing_patterns (handler_on d)) = Some b
    /\ NoDup (fill_columns b)
    /\ (forall c, In c (fill_columns b) <->
                  c <> "Name"
                  /\ exists s, df_lookup d c = Some s /\ ~ no_missing s)
    /\ (forall c s,
           df_lookup d c = Some s -> In c (fill_columns b) ->
           let named_date := contains_sub "date" (PyStr.lower c) in
           let missing_count := count_true (isna s) in
           (In c (MLH.date_missing b) <->
            named_date = true \/ MLH.is_datetime s = true)
           /\ (In c (MLH.numerical_missing b) <->
               named_date = false /\ MLH.is_number s = true)
           /\ (In c (MLH.categorical_low_missing b) <->
               named_date = false /\ MLH.is_object s = true
               /\ (20 * missing_count < slen s)%nat)
           /\ (In c (MLH.categorical_high_missing b) <->
               named_date = false /\ MLH.is_object s = true
               /\ (slen s <= 20 * missing_count)%nat))
    /\ MLH.keep_missing b = []
    /\ MLH.pii_columns b = ["Name"].
Proof.
  intros d Hu Hr b. subst b.
  split; [reflexivity|].
  rewrite analysis_lists. unfold fill_columns.
  cbn [MLH.categorical_low_missing MLH.categorical_high_missing
       MLH.numerical_missing MLH.date_missing MLH.keep_missing
       MLH.pii_columns].
  set (n := nrows d).
  assert (Hone : forall c s, df_lookup d c = Some s ->
                             needs_fill (c, s) = true ->
                             _) by (intros c s _; exact (@takes_one n (c, s))).
  split.
  { (* no column twice *)
    assert (Hnf : forall p, takes_low n p = true \/ takes_high n p = true
                            \/ takes_number p = true \/ takes_date p = true ->
                            needs_fill p = true).
    { intros p H. apply (@takes_needs_fill n). tauto. }
    assert (Sole : forall c s, df_lookup d c = Some s ->
                               forall x y z w : bool,
                                 (takes_low n (c, s) = x
                                  /\ takes_high n (c, s) = y
                                  /\ takes_number (c, s) = z
                                  /\ takes_date (c, s) = w) ->
                                 (x = true \/ y = true \/ z = true \/ w = true) ->
                                 (x, y, z, w) = (true, false, false, false)
                                 \/ (x, y, z, w) = (false, true, false, false)
                                 \/ (x, y, z, w) = (false, false, true, false)
                                 \/ (x, y, z, w) = (false, false, false, true)).
    { intros c s Hl x y z w (<- & <- & <- & <-) Hany.
      destruct (Hone c s Hl (Hnf _ Hany)) as [H|[H|[H|H]]];
        destruct H as (-> & -> & -> & ->); auto. }
    assert (Excl' : forall (f g : string * Series -> bool) c,
               (forall s, df_lookup d c = Some s ->
                          f (c, s) = true -> g (c, s) = true -> False) ->
               In c (map fst (filter f d)) ->
               In c (map fst (filter g d)) -> False).
    { intros f g c Hfg Hf Hg.
      apply (in_taken f c Hu) in Hf. destruct Hf as (s & Hl & Hf).
      apply (@in_taken_at g d c s Hu Hl) in Hg. exact (Hfg s Hl Hf Hg). }
    apply NoDup_app; [now apply NoDup_map_filter| |].
    - apply NoDup_app; [now apply NoDup_map_filter| |].
      + apply NoDup_app; [now apply NoDup_map_filter
                         |now apply NoDup_map_filter|].
        intros c Hc Hin. refine (Excl' _ _ c _ Hc Hin).
        intros s Hl Hf Hg.
        destruct (Sole c s Hl _ _ _ _
                       (conj eq_refl (conj eq_refl (conj eq_refl eq_refl))))
          as [H|[H|[H|H]]]; [rewrite Hf; auto|..]; congruence.
      + intros c Hc Hin. apply in_app_iff in Hin.
        destruct Hin as [Hin|Hin]; refine (Excl' _ _ c _ Hc Hin);
          intros s Hl Hf Hg;
          (destruct (Sole c s Hl _ _ _ _
                          (conj eq_refl (conj eq_refl (conj eq_refl eq_refl))))
            as [H|[H|[H|H]]]; [rewrite Hf; auto|..]; congruence).
    - intros c Hc Hin. apply in_app_iff in Hin.
      destruct Hin as [Hin|Hin];
        [|apply in_app_iff in Hin; destruct Hin as [Hin|Hin]];
        refine (Excl' _ _ c _ Hc Hin);
        intros s Hl Hf Hg;
        (destruct (Sole c s Hl _ _ _ _
                        (conj eq_refl (conj eq_refl (conj eq_refl eq_refl))))
          as [H|[H|[H|H]]]; [rewrite Hf; auto|..]; congruence). }
  split.
  { (* the designated columns *)
    intros c. rewrite !in_app_iff, !(in_taken _ c Hu). split.
    - intros H.
      assert (exists s, df_lookup d c = Some s /\ needs_fill (c, s) = true)
        as (s & Hl & Hn).
      { destruct H as [(s & Hl & H)|[(s & Hl & H)|[(s & Hl & H)|(s & Hl & H)]]];
          exists s; (split; [exact Hl|]); apply (@takes_needs_fill n); tauto. }
      apply needs_fill_spec in Hn. destruct Hn as [Hc Hm].
      split; [exact Hc|]. now exists s.
    - intros (Hc & s & Hl & Hm).
      assert (Hn : needs_fill (c, s) = true) by now apply needs_fill_spec.
      destruct (Hone c s Hl Hn) as [H|[H|[H|H]]];
        destruct H as (H1 & H2 & H3 & H4).
      + right. right. right. now exists s.
      + left. now exists s.
      + right. left. now exists s.
      + right. right. left. now exists s. }
  split; [|split; reflexivity].
  intros c s Hl Hin. cbv zeta.
  assert (Hn : needs_fill (c, s) = true).
  { rewrite !in_app_iff, !(fun f => @in_taken_at f d c s Hu Hl) in Hin.
    apply (@takes_needs_fill n). tauto. }
  assert (Hlen : slen s = n) by now apply rectangular_lookup with (c := c).
  assert (Hpos : (0 < n)%nat).
  { apply needs_fill_spec in Hn. destruct Hn as [_ Hm]. unfold no_missing in Hm.
    pose proof (count_true_le_length (isna s)) as L.
    rewrite isna_length in L. lia. }
  rewrite !(fun f => @in_taken_at f d c s Hu Hl).
  unfold takes_date, takes_number, takes_low, takes_high, date_like, low_share.
  rewrite Hn. cbn [andb fst snd].
  rewrite (missing_pct_low _ Hpos), Hlen.
  destruct (contains_sub "date" (PyStr.lower c)); cbn [orb negb andb].
  { repeat split; intros; try discriminate; try tauto; intuition discriminate. }
  destruct s as [xs|xs|xs]; cbn [MLH.is_object MLH.is_number MLH.is_datetime
                                 andb negb].
  - split; [intuition discriminate|]. split; [intuition discriminate|].
    split.
    + rewrite Nat.ltb_lt. tauto.
    + rewrite negb_true_iff, Nat.ltb_ge. tauto.
  - repeat split; intros; try discriminate; try tauto; intuition discriminate.
  - repeat split; intros; try discriminate; try tauto; intuition discriminate.
Qed.

Lemma rectangular_mixed_missing : rectangular mixed_missing = true.
Proof. reflexivity. Qed.

Lemma analysis_designates_once_witness :
  unique_columns mixed_missing
  /\ rectangular mixed_missing = true
  /\ NoDup (fill_columns (analysis mixed_missing))
  /\ In "Discharge Date" (MLH.date_missing (analysis mixed_missing)).
Proof.
  split; [exact unique_columns_mixed_missing|]. split; [reflexivity|].
  destruct (@analysis_designates_once mixed_missing
              unique_columns_mixed_missing eq_refl)
    as (_ & Hnd & _ & Hroute & _).
  split; [exact Hnd|]. left. reflexivity.
Defined.

(** ** The PII column *)

Lemma df_lookup_drop_in (d : DataFrame) (cols : list string) (c : string) :
  In c cols -> df_lookup (df_drop d cols) c = None.
Proof.
  intros Hin. unfold df_drop.
  induction d as [|[k s] r IH]; [reflexivity|]. cbn [filter fst].
  destruct (existsb (String.eqb k) cols) eqn:E; cbn [negb]; [exact IH|].
  cbn [df_lookup]. destruct (String.eqb_spec k c) as [->|Hk]; [|exact IH].
  assert (existsb (String.eqb c) cols = true)
    by (apply existsb_exists; exists c; split;
        [exact Hin|apply String.eqb_refl]).
  congruence.
Qed.

Lemma df_columns_drop (d : DataFrame) (cols : list string) :
  df_columns (df_drop d cols)
  = filter (fun c => negb (existsb (String.eqb c) cols)) (df_columns d).
Proof.
  unfold df_columns, df_drop. induction d as [|[k s] r IH]; [reflexivity|].
  cbn [filter map fst]. destruct (existsb (String.eqb k) cols); cbn [negb map].
  - exact IH.
  - cbn [fst]. now rewrite IH.
Qed.

Lemma df_drop_nothing (d : DataFrame) (c : string) :
  df_lookup d c = None -> df_drop d [c] = d.
Proof.
  unfold df_drop. cbn [existsb].
  induction d as [|[k s] r IH]; [reflexivity|].
  cbn [df_lookup filter fst].
  destruct (String.eqb k c); [discriminate|]. intros H.
  cbn [orb negb]. now rewrite IH.
Qed.

(** X12.  [drop_pii_columns] reads the list the analysis stores: called
    before [analyze_missing_patterns] it raises [AttributeError].  Called
    after it, it removes the column [Name] and no other: the other columns
    keep their order and their cells, and the drop is reported exactly when
    the frame had a [Name] column. *)
Theorem drop_pii_columns_removes_name :
  (forall self : MLH.Handler,
      MLH.buckets self = None ->
      MLH.drop_pii_columns self = Raise AttributeError)
  /\ (forall self : MLH.Handler,
         exists self' : MLH.Handler,
           MLH.drop_pii_columns (MLH.analyze_missing_patterns self) = Ok self'
           /\ df_lookup (MLH.df self') "Name" = None
           /\ df_columns (MLH.df self')
              = filter (fun c => negb (String.eqb c "Name"))
                       (df_columns (MLH.df self))
           /\ (forall c, c <> "Name" ->
                         df_lookup (MLH.df self') c
                         = df_lookup (MLH.df self) c)
           /\ MLH.strategies_applied self'
              = (MLH.strategies_applied self
                 ++ (if df_has (MLH.df self) "Name"
                     then [MLH.DroppedPII ["Name"]] else []))%list).
Proof.
  split.
  - intros self Hb. unfold MLH.drop_pii_columns, MLH.get_buckets.
    now rewrite Hb.
  - intros self. unfold MLH.drop_pii_columns, MLH.analyze_missing_patterns.
    cbn [MLH.get_buckets MLH.buckets MLH.with_buckets bind MLH.df].
    fold (analysis (MLH.df self)). rewrite analysis_lists.
    cbn [MLH.pii_columns filter].
    assert (Hfilter : forall l : list string,
               filter (fun c => negb (existsb (String.eqb c) ["Name"])) l
               = filter (fun c => negb (String.eqb c "Name")) l).
    { intros l. apply filter_ext. intros c. cbn [existsb].
      now rewrite orb_false_r. }
    destruct (df_has (MLH.df self) "Name") eqn:E.
    + eexists. split; [reflexivity|].
      cbn [MLH.df MLH.extend_processed MLH.add_strategy MLH.with_df
           MLH.strategies_applied].
      split; [apply df_lookup_drop_in; now left|].
      split; [now rewrite df_columns_drop, Hfilter|].
      split; [|reflexivity].
      intros c Hc. apply df_lookup_drop_other. intros [<-|[]]. congruence.
    + exists (MLH.with_buckets self
                {| MLH.pii_columns := ["Name"];
                   MLH.categorical_low_missing :=
                     map fst (filter (takes_low (nrows (MLH.df self)))
                                     (MLH.df self));
                   MLH.categorical_high_missing :=
                     map fst (filter (takes_high (nrows (MLH.df self)))
                                     (MLH.df self));
                   MLH.numerical_missing :=
                     map fst (filter takes_number (MLH.df self));
                   MLH.date_missing := map fst (filter takes_date (MLH.df self));
                   MLH.keep_missing := [] |}).
      split; [reflexivity|].
      cbn [MLH.df MLH.with_buckets MLH.strategies_applied].
      assert (Hl : df_lookup (MLH.df self) "Name" = None).
      { unfold df_has in E.
        destruct (df_lookup (MLH.df self) "Name"); [discriminate|reflexivity]. }
      split; [exact Hl|]. split.
      { rewrite <- Hfilter, <- df_columns_drop. now rewrite df_drop_nothing. }
      split; [reflexivity|now rewrite app_nil_r].
Qed.

Lemma drop_pii_columns_removes_name_witness :
  MLH.drop_pii_columns MLH.init = Raise AttributeError.
Proof.
  destruct drop_pii_columns_removes_name as [H _]. now apply H.
Defined.

(* ================================================================== *)
(** * Imputation never overwrites a present cell *)
(* ================================================================== *)

Section Kept.

Variable A : Type.

Lemma kept_refl (xs : list (option A)) : Forall2 kept xs xs.
Proof. induction xs; constructor; [now right|assumption]. Qed.

Lemma kept_trans (xs ys zs : list (option A)) :
  Forall2 kept xs ys -> Forall2 kept ys zs -> Forall2 kept xs zs.
Proof.
  intros H. revert zs. induction H as [|x y xs ys Hxy _ IH]; intros zs Hz.
  - inversion Hz. constructor.
  - inversion Hz as [|? z ? zs' Hyz Hr]; subst. constructor; [|now apply IH].
    destruct Hxy as [-> | ->]; [now left|exact Hyz].
Qed.

Lemma kept_all_missing (xs : list (option A)) (B : Type) (ys : list (option B))
  (f : A -> pyval) (g : B -> pyval) :
  forallb is_none xs = true -> List.length ys = List.length xs ->
  Forall2 kept (map (option_map f) xs) (map (option_map g) ys).
Proof.
  revert ys. induction xs as [|x r IH]; intros [|y ys] Hall Hlen;
    try discriminate; [constructor|].
  cbn [forallb] in Hall. apply andb_true_iff in Hall. destruct Hall as [Hx Hr].
  cbn [map]. constructor; [|apply IH; [exact Hr|now injection Hlen]].
  destruct x; [discriminate|now left].
Qed.

Lemma kept_map (f : A -> pyval) (xs ys : list (option A)) :
  Forall2 kept xs ys ->
  Forall2 kept (map (option_map f) xs) (map (option_map f) ys).
Proof.
  induction 1 as [|x y xs ys H _ IH]; cbn [map]; constructor; [|exact IH].
  destruct H as [-> | ->]; [now left|now right].
Qed.

Lemma kept_fillna (v : option A) (xs : list (option A)) :
  Forall2 kept xs (fillna v xs).
Proof.
  destruct v as [v|]; cbn [fillna]; [|apply kept_refl].
  induction xs as [|[x|] r IH]; cbn [map]; constructor;
    [now right|exact IH|now left|exact IH].
Qed.

Lemma kept_ffill_from (prev : option A) (xs : list (option A)) :
  Forall2 kept xs (ffill_from prev xs).
Proof.
  revert prev. induction xs as [|[x|] r IH]; intros prev; cbn [ffill_from];
    constructor; [now right|apply IH|now left|apply IH].
Qed.

Lemma kept_rev (xs ys : list (option A)) :
  Forall2 kept xs ys -> Forall2 kept (rev xs) (rev ys).
Proof.
  induction 1 as [|x y xs ys H _ IH]; cbn [rev]; [constructor|].
  apply Forall2_app; [exact IH|]. constructor; [exact H|constructor].
Qed.

Lemma kept_bfill_ffill (xs : list (option A)) :
  Forall2 kept xs (bfill (ffill xs)).
Proof.
  apply kept_trans with (ys := ffill xs); [apply kept_ffill_from|].
  unfold bfill. rewrite <- (rev_involutive (ffill xs)) at 1.
  apply kept_rev. apply kept_ffill_from.
Qed.

Lemma kept_length (xs ys : list (option A)) :
  Forall2 kept xs ys -> List.length ys = List.length xs.
Proof. induction 1; cbn [List.length]; congruence. Qed.

Lemma kept_row (xs ys : list (option A)) (i : nat) (v : A) :
  Forall2 kept xs ys ->
  nth_error xs i = Some (Some v) -> nth_error ys i = Some (Some v).
Proof.
  intros H. revert i. induction H as [|x y xs ys Hxy _ IH]; intros [|i];
    cbn [nth_error]; try discriminate.
  - intros [= ->]. destruct Hxy as [H | ->]; [discriminate|reflexivity].
  - apply IH.
Qed.

End Kept.

Lemma keeps_present_refl (s : Series) : keeps_present s s.
Proof. apply kept_refl. Qed.

Lemma keeps_present_trans (s t u : Series) :
  keeps_present s t -> keeps_present t u -> keeps_present s u.
Proof. apply kept_trans. Qed.

Lemma frame_keeps_refl (d : DataFrame) : frame_keeps d d.
Proof.
  induction d; constructor; [|assumption].
  split; [reflexivity|apply keeps_present_refl].
Qed.

Lemma frame_keeps_trans (d1 d2 d3 : DataFrame) :
  frame_keeps d1 d2 -> frame_keeps d2 d3 -> frame_keeps d1 d3.
Proof.
  intros H. revert d3. induction H as [|p q r1 r2 [Hn Hk] _ IH]; intros d3 H3.
  - inversion H3. constructor.
  - inversion H3 as [|? u ? r3 [Hn' Hk'] Hr]; subst.
    constructor; [|now apply IH].
    split; [congruence|now apply keeps_present_trans with (t := snd q)].
Qed.

Lemma frame_keeps_set (d : DataFrame) (col : string) (s s' : Series) :
  df_lookup d col = Some s -> keeps_present s s' ->
  frame_keeps d (df_set d col s').
Proof.
  intros Hl Hk. induction d as [|[k t] r IH]; [discriminate|].
  cbn [df_lookup] in Hl. cbn [df_set].
  destruct (String.eqb k col).
  - injection Hl as ->. constructor; [now split|apply frame_keeps_refl].
  - constructor; [split; [reflexivity|apply keeps_present_refl]|now apply IH].
Qed.

Lemma frame_keeps_lookup (d d' : DataFrame) (c : string) (s : Series) :
  frame_keeps d d' -> df_lookup d c = Some s ->
  exists s', df_lookup d' c = Some s' /\ keeps_present s s'.
Proof.
  induction 1 as [|[k t] [k' t'] r r' [Hn Hk] _ IH]; [discriminate|].
  cbn [fst snd] in Hn, Hk. subst k'. cbn [df_lookup].
  destruct (String.eqb k c); [|exact IH].
  intros [= <-]. now exists t'.
Qed.

Lemma frame_keeps_columns (d d' : DataFrame) :
  frame_keeps d d' -> df_columns d' = df_columns d.
Proof.
  unfold df_columns. induction 1 as [|p q r r' [Hn _] _ IH]; [reflexivity|].
  cbn [map]. congruence.
Qed.

Lemma fill_with_mode_keeps (s s' : Series) :
  fill_with_mode s = Some s' -> keeps_present s s'.
Proof.
  unfold keeps_present.
  destruct s as [xs|xs|xs]; cbn [fill_with_mode].
  - destruct (mode String.eqb string_ltb xs); [|discriminate].
    intros [= <-]. apply kept_map. exact (kept_fillna (Some _) xs).
  - destruct (mode Qeq_bool Qlt_bool xs); [|discriminate].
    intros [= <-]. apply kept_map. exact (kept_fillna (Some _) xs).
  - destruct (mode Z.eqb Z.ltb xs); [|discriminate].
    intros [= <-]. apply kept_map. exact (kept_fillna (Some _) xs).
Qed.

Lemma overwrite_as_text_missing (A : Type) (v : string)
  (xs : list (option A)) (ys : list (option string)) :
  overwrite_as_text (map is_none xs) v xs = Ok ys ->
  forallb is_none xs = true /\ List.length ys = List.length xs.
Proof.
  unfold overwrite_as_text.
  destruct (forallb (fun p : bool * option A => fst p || is_none (snd p))
                    (combine (map is_none xs) xs)) eqn:E; [|discriminate].
  intros [= <-]. split.
  - clear v. induction xs as [|x r IH]; [reflexivity|].
    cbn [map combine forallb fst snd] in E. apply andb_true_iff in E.
    destruct E as [Ex Er]. cbn [forallb]. rewrite (IH Er).
    now destruct x.
  - now rewrite length_map, length_combine, length_map, Nat.min_id.
Qed.

Lemma fillna_text_keeps (v : string) (s s' : Series) :
  fillna_text v s = Ok s' -> keeps_present s s'.
Proof.
  unfold fillna_text, keeps_present.
  destruct s as [xs|xs|xs]; cbn [assign_text isna cells].
  - intros [= <-]. cbn [cells]. apply kept_map.
    rewrite assign_where_map.
    induction xs as [|[x|] r IH]; cbn [map is_none]; constructor;
      [now right|exact IH|now left|exact IH].
  - destruct (count_true (map is_none xs) =? 0)%nat.
    + intros [= <-]. apply kept_refl.
    + destruct (overwrite_as_text (map is_none xs) v xs) as [ys|e] eqn:E;
        [|discriminate].
      cbn [bind]. intros [= <-]. cbn [cells].
      destruct (overwrite_as_text_missing _ _ E) as [Hall Hlen].
      now apply kept_all_missing.
  - destruct (count_true (map is_none xs) =? 0)%nat.
    + intros [= <-]. apply kept_refl.
    + destruct (overwrite_as_text (map is_none xs) v xs) as [ys|e] eqn:E;
        [|discriminate].
      cbn [bind]. intros [= <-]. cbn [cells].
      destruct (overwrite_as_text_missing _ _ E) as [Hall Hlen].
      now apply kept_all_missing.
Qed.

Lemma statistic_cells_keeps (s : Series) (xs : list (option Q))
  (value : option Q) :
  statistic_cells s = Ok xs -> keeps_present s (SNum (fillna value xs)).
Proof.
  unfold keeps_present. destruct s as [ys|ys|ys]; cbn [statistic_cells].
  - destruct (forallb is_none ys) eqn:E; [|discriminate].
    intros [= <-]. cbn [cells]. apply kept_all_missing; [exact E|].
    now rewrite fillna_length, length_map.
  - intros [= <-]. cbn [cells]. apply kept_map, kept_fillna.
  - discriminate.
Qed.

Lemma ffill_bfill_keeps (s : Series) : keeps_present s (MLH.ffill_bfill s).
Proof.
  unfold keeps_present.
  destruct s; cbn [MLH.ffill_bfill cells]; apply kept_map, kept_bfill_ffill.
Qed.

Lemma record_imputation_df (self : MLH.Handler) (st : MLH.strategy)
  (col : string) (n : nat) :
  MLH.df (MLH.record_imputation self st col n) = MLH.df self.
Proof. reflexivity. Qed.

Lemma impute_low_column_keeps (col : string) (self self' : MLH.Handler) :
  MLH.impute_low_column col self = Ok self' ->
  frame_keeps (MLH.df self) (MLH.df self').
Proof.
  unfold MLH.impute_low_column.
  destruct (df_lookup (MLH.df self) col) as [s|] eqn:L;
    [|intros [= <-]; apply frame_keeps_refl].
  destruct (count_true (isna s) =? 0)%nat;
    [intros [= <-]; apply frame_keeps_refl|].
  destruct (fill_with_mode s) as [s'|] eqn:F;
    [|intros [= <-]; apply frame_keeps_refl].
  intros [= <-]. rewrite record_imputation_df. cbn [MLH.df MLH.with_df].
  apply frame_keeps_set with (s := s); [exact L|now apply fill_with_mode_keeps].
Qed.

Lemma impute_high_column_keeps (col : string) (self self' : MLH.Handler) :
  MLH.impute_high_column col self = Ok self' ->
  frame_keeps (MLH.df self) (MLH.df self').
Proof.
  unfold MLH.impute_high_column.
  destruct (df_lookup (MLH.df self) col) as [s|] eqn:L;
    [|intros [= <-]; apply frame_keeps_refl].
  destruct (count_true (isna s) =? 0)%nat;
    [intros [= <-]; apply frame_keeps_refl|].
  match goal with
  | |- bind ?r _ = _ -> _ => destruct r as [s'|e] eqn:F; [|discriminate]
  end.
  cbn [bind]. intros [= <-]. rewrite record_imputation_df.
  cbn [MLH.df MLH.with_df].
  apply frame_keeps_set with (s := s); [exact L|].
  destruct (String.eqb col "Insurance Provider");
    [now apply fillna_text_keeps in F|].
  destruct (String.eqb col "Medication");
    [now apply fillna_text_keeps in F|].
  destruct (String.eqb col "Admission Type");
    [|now apply fillna_text_keeps in F].
  destruct (fill_with_mode s) as [t|] eqn:M.
  - injection F as <-. now apply fill_with_mode_keeps.
  - now apply fillna_text_keeps in F.
Qed.

Lemma impute_numerical_column_keeps (col : string) (self self' : MLH.Handler) :
  MLH.impute_numerical_column col self = Ok self' ->
  frame_keeps (MLH.df self) (MLH.df self').
Proof.
  unfold MLH.impute_numerical_column.
  destruct (df_lookup (MLH.df self) col) as [s|] eqn:L;
    [|intros [= <-]; apply frame_keeps_refl].
  destruct (count_true (isna s) =? 0)%nat;
    [intros [= <-]; apply frame_keeps_refl|].
  destruct (statistic_cells s) as [xs|e] eqn:S; [|discriminate].
  cbn [bind]. intros [= <-]. rewrite record_imputation_df.
  match goal with
  | |- context [match ?v with Some _ => _ | None => _ end] =>
      destruct v as [m|] eqn:V
  end; [|apply frame_keeps_refl].
  cbn [MLH.df MLH.with_df].
  apply frame_keeps_set with (s := s); [exact L|].
  now apply statistic_cells_keeps.
Qed.

Lemma impute_date_column_keeps (col : string) (self self' : MLH.Handler) :
  MLH.impute_date_column col self = Ok self' ->
  frame_keeps (MLH.df self) (MLH.df self').
Proof.
  unfold MLH.impute_date_column.
  destruct (df_lookup (MLH.df self) col) as [s|] eqn:L;
    [|intros [= <-]; apply frame_keeps_refl].
  destruct (count_true (isna s) =? 0)%nat;
    [intros [= <-]; apply frame_keeps_refl|].
  intros [= <-]. rewrite record_imputation_df.
  destruct (contains_sub "admission" (PyStr.lower col));
    cbn [MLH.df MLH.with_df];
    (apply frame_keeps_set with (s := s); [exact L|apply ffill_bfill_keeps]).
Qed.

Lemma handle_gender_missing_keeps (self : MLH.Handler) :
  frame_keeps (MLH.df self) (MLH.df (MLH.handle_gender_missing self)).
Proof.
  unfold MLH.handle_gender_missing.
  destruct (df_lookup (MLH.df self) "Gender") as [s|] eqn:L;
    [|apply frame_keeps_refl].
  destruct (count_true (isna s) =? 0)%nat; [apply frame_keeps_refl|].
  destruct (fill_with_mode s) as [s'|] eqn:F; [|apply frame_keeps_refl].
  rewrite record_imputation_df. cbn [MLH.df MLH.with_df].
  apply frame_keeps_set with (s := s); [exact L|now apply fill_with_mode_keeps].
Qed.

Lemma for_each_keeps (body : string -> MLH.Handler -> result MLH.Handler) :
  (forall col self self',
      body col self = Ok self' -> frame_keeps (MLH.df self) (MLH.df self')) ->
  forall (L : list string) (self self' : MLH.Handler),
    for_each L body self = Ok self' ->
    frame_keeps (MLH.df self) (MLH.df self').
Proof.
  intros Hbody L. induction L as [|col r IH]; intros self self';
    cbn [for_each].
  - intros [= <-]. apply frame_keeps_refl.
  - destruct (body col self) as [s1|e] eqn:B; [|discriminate]. cbn [bind].
    intros H. apply frame_keeps_trans with (d2 := MLH.df s1);
      [now apply Hbody with (col := col)|now apply IH].
Qed.

Lemma drop_pii_columns_drops (self self' : MLH.Handler) :
  MLH.drop_pii_columns (MLH.analyze_missing_patterns self) = Ok self' ->
  MLH.df self' = df_drop (MLH.df self) ["Name"].
Proof.
  unfold MLH.drop_pii_columns, MLH.analyze_missing_patterns.
  cbn [MLH.get_buckets MLH.buckets MLH.with_buckets bind MLH.df].
  fold (analysis (MLH.df self)). rewrite analysis_lists.
  cbn [MLH.pii_columns filter].
  destruct (df_has (MLH.df self) "Name") eqn:E; intros [= <-].
  - reflexivity.
  - cbn [MLH.df MLH.with_buckets]. symmetry. apply df_drop_nothing.
    unfold df_has in E.
    destruct (df_lookup (MLH.df self) "Name"); [discriminate|reflexivity].
Qed.

(** Whenever the imputation steps return, the frame is the frame without
    [Name], with every present cell as it was. *)
Lemma impute_all_keeps (self self' : MLH.Handler) :
  MLH.impute_all self = Ok self' ->
  frame_keeps (df_drop (MLH.df self) ["Name"]) (MLH.df self').
Proof.
  unfold MLH.impute_all.
  destruct (MLH.drop_pii_columns (MLH.analyze_missing_patterns self))
    as [s1|e] eqn:E1; [|discriminate].
  rewrite <- (drop_pii_columns_drops _ E1). cbn [bind].
  unfold MLH.impute_categorical_low_missing,
    MLH.impute_categorical_high_missing, MLH.impute_numerical_data,
    MLH.impute_date_data.
  destruct (MLH.get_buckets s1) as [b1|e]; [|discriminate]. cbn [bind].
  destruct (for_each (MLH.categorical_low_missing b1) MLH.impute_low_column s1)
    as [s2|e] eqn:E2; [|discriminate]. cbn [bind].
  destruct (MLH.get_buckets s2) as [b2|e]; [|discriminate]. cbn [bind].
  destruct (for_each (MLH.categorical_high_missing b2)
                     MLH.impute_high_column s2)
    as [s3|e] eqn:E3; [|discriminate]. cbn [bind].
  destruct (MLH.get_buckets s3) as [b3|e]; [|discriminate]. cbn [bind].
  destruct (for_each (MLH.numerical_missing b3)
                     MLH.impute_numerical_column s3)
    as [s4|e] eqn:E4; [|discriminate]. cbn [bind].
  destruct (MLH.get_buckets s4) as [b4|e]; [|discriminate]. cbn [bind].
  destruct (for_each (MLH.date_missing b4) MLH.impute_date_column s4)
    as [s5|e] eqn:E5; [|discriminate]. cbn [bind].
  intros [= <-].
  apply (for_each_keeps _ impute_low_column_keeps) in E2.
  apply (for_each_keeps _ impute_high_column_keeps) in E3.
  apply (for_each_keeps _ impute_numerical_column_keeps) in E4.
  apply (for_each_keeps _ impute_date_column_keeps) in E5.
  pose proof (handle_gender_missing_keeps s5) as E6.
  eauto using frame_keeps_trans.
Qed.

(** X13.  The imputation steps of the pipeline, on a frame with distinct
    column names, remove the column [Name] and neither add, remove nor
    reorder another column.  Every other column keeps its dtype and its
    length, and every cell that was present keeps its value: only missing
    cells are written. *)
Theorem imputation_keeps_present_cells :
  forall self : MLH.Handler,
    unique_columns (MLH.df self) ->
    exists self' : MLH.Handler,
      MLH.impute_all self = Ok self'
      /\ df_columns (MLH.df self')
         = filter (fun c => negb (String.eqb c "Name"))
                  (df_columns (MLH.df self))
      /\ (forall c s,
             c <> "Name" -> df_lookup (MLH.df self) c = Some s ->
             exists s',
               df_lookup (MLH.df self') c = Some s'
               /\ same_dtype s s'
               /\ slen s' = slen s
               /\ (forall i v, nth_error (cells s) i = Some (Some v) ->
                               nth_error (cells s') i = Some (Some v))).
Proof.
  intros self Hu.
  destruct (impute_all_runs self Hu) as (self' & Hrun & Hev & _).
  pose proof (impute_all_keeps _ Hrun) as K.
  exists self'. split; [exact Hrun|]. split.
  { rewrite (frame_keeps_columns K), df_columns_drop.
    apply filter_ext. intros c. cbn [existsb]. now rewrite orb_false_r. }
  intros c s Hc Hl.
  destruct (Hev c s Hc Hl) as (s' & Hl' & Hd & Hlen & _).
  exists s'. split; [exact Hl'|]. split; [exact Hd|]. split; [exact Hlen|].
  assert (Hl0 : df_lookup (df_drop (MLH.df self) ["Name"]) c = Some s).
  { rewrite df_lookup_drop_other; [exact Hl|]. intros [<-|[]]. congruence. }
  destruct (frame_keeps_lookup c K Hl0) as (s'' & Hl'' & Hk).
  assert (s'' = s') by congruence. subst s''.
  intros i v. now apply kept_row.
Qed.

Lemma imputation_keeps_present_cells_witness :
  unique_columns (MLH.df (handler_on mixed_missing))
  /\ exists self' : MLH.Handler,
       MLH.impute_all (handler_on mixed_missing) = Ok self'
       /\ df_columns (MLH.df self')
          = ["Gender"; "Age"; "Discharge Date"; "Room Number"].
Proof.
  split; [exact unique_columns_mixed_missing|].
  destruct (@imputation_keeps_present_cells (handler_on mixed_missing)
              unique_columns_mixed_missing)
    as (self' & Hrun & Hcols & _).
  exists self'. split; [exact Hrun|exact Hcols].
Defined.

(* ================================================================== *)
(** * The value a fill writes *)
(* ================================================================== *)

Section ModeFacts.

Variable A : Type.
Variables eqb ltb : A -> A -> bool.

Hypothesis ltb_irrefl : forall x, ltb x x = false.
Hypothesis ltb_trans :
  forall x y z, ltb x y = true -> ltb y z = true -> ltb x z = true.

Variable l0 : list A.

Lemma mode_step_best (seen : list A) (b x : A) :
  best_of eqb ltb l0 seen b ->
  best_of eqb ltb l0 (x :: seen)
          (if (occurrences eqb b l0 <? occurrences eqb x l0)%nat
              || ((occurrences eqb b l0 =? occurrences eqb x l0)%nat
                  && ltb x b)
           then x else b).
Proof.
  intros [Hin Hbest].
  destruct (occurrences eqb b l0 <? occurrences eqb x l0)%nat eqn:L.
  - apply Nat.ltb_lt in L. cbn [orb].
    split; [now left|]. intros y [<-|Hy].
    + split; [lia|intros _; apply ltb_irrefl].
    + destruct (Hbest y Hy) as [H1 _]. split; lia.
  - apply Nat.ltb_ge in L. cbn [orb].
    destruct (occurrences eqb b l0 =? occurrences eqb x l0)%nat eqn:E.
    + apply Nat.eqb_eq in E. cbn [andb].
      destruct (ltb x b) eqn:Lt.
      * split; [now left|].
        intros y [<-|Hy]; [split; [lia|intros _; apply ltb_irrefl]|].
        destruct (Hbest y Hy) as [H1 H2]. split; [lia|].
        intros Hocc. destruct (ltb y x) eqn:Lyx; [|reflexivity].
        rewrite (@ltb_trans _ _ _ Lyx Lt) in H2.
        assert (true = false) by (apply H2; lia). discriminate.
      * split; [now right|].
        intros y [<-|Hy]; [split; [lia|intros _; exact Lt]|].
        now apply Hbest.
    + apply Nat.eqb_neq in E. cbn [andb].
      split; [now right|].
      intros y [<-|Hy]; [split; lia|]. now apply Hbest.
Qed.

Lemma mode_fold_best (l seen : list A) (b : A) :
  best_of eqb ltb l0 seen b ->
  exists m,
    fold_left
      (fun best x =>
         match best with
         | None => Some x
         | Some b =>
             if (occurrences eqb b l0 <? occurrences eqb x l0)%nat
                || ((occurrences eqb b l0 =? occurrences eqb x l0)%nat
                    && ltb x b)
             then Some x else best
         end) l (Some b) = Some m
    /\ best_of eqb ltb l0 (rev l ++ seen) m.
Proof.
  revert seen b. induction l as [|x r IH]; intros seen b H.
  - exists b. now split.
  - cbn [fold_left rev].
    pose proof (mode_step_best x H) as H'.
    destruct ((occurrences eqb b l0 <? occurrences eqb x l0)%nat
              || ((occurrences eqb b l0 =? occurrences eqb x l0)%nat
                  && ltb x b));
      destruct (IH _ _ H') as (m & Hm & Hbest); exists m;
      (split; [exact Hm|now rewrite <- app_assoc]).
Qed.

End ModeFacts.

(** [series.mode()[0]] is a present value that no present value
    outnumbers, and the first of those in the order. *)
Lemma mode_most_frequent (A : Type) (eqb ltb : A -> A -> bool)
  (xs : list (option A)) (m : A) :
  (forall x, ltb x x = false) ->
  (forall x y z, ltb x y = true -> ltb y z = true -> ltb x z = true) ->
  mode eqb ltb xs = Some m ->
  In (Some m) xs
  /\ forall y, In (Some y) xs ->
               (occurrences eqb y (present xs)
                <= occurrences eqb m (present xs))%nat
               /\ (occurrences eqb y (present xs)
                   = occurrences eqb m (present xs) -> ltb y m = false).
Proof.
  intros Hirr Htr. unfold mode.
  destruct (present xs) as [|x r] eqn:P; [discriminate|].
  cbn [fold_left]. intros Hm.
  assert (H0 : best_of eqb ltb (x :: r) [x] x).
  { split; [now left|]. intros y [<-|[]]. split; [lia|intros _; apply Hirr]. }
  destruct (@mode_fold_best A eqb ltb Hirr Htr (x :: r) r [x] x H0)
    as (m' & Hm' & Hin & Hb).
  rewrite Hm in Hm'. injection Hm' as <-.
  assert (Hsub : forall y, In y (rev r ++ [x]) <-> In (Some y) xs).
  { intros y. rewrite <- present_In, P, in_app_iff, <- in_rev.
    cbn [In]. tauto. }
  split; [now apply Hsub|].
  intros y Hy. apply Hb. now apply Hsub.
Qed.

Lemma string_ltb_irrefl (s : string) : string_ltb s s = false.
Proof.
  unfold string_ltb. pose proof (String.compare_antisym s s) as H.
  destruct (String.compare s s); try reflexivity; discriminate.
Qed.

Lemma string_ltb_trans (s t u : string) :
  string_ltb s t = true -> string_ltb t u = true -> string_ltb s u = true.
Proof.
  unfold string_ltb. intros H1 H2.
  assert (L1 : OrderedTypeEx.String_as_OT.lt s t).
  { apply OrderedTypeEx.String_as_OT.cmp_lt.
    change (String.compare s t = Lt).
    destruct (String.compare s t); [discriminate|reflexivity|discriminate]. }
  assert (L2 : OrderedTypeEx.String_as_OT.lt t u).
  { apply OrderedTypeEx.String_as_OT.cmp_lt.
    change (String.compare t u = Lt).
    destruct (String.compare t u); [discriminate|reflexivity|discriminate]. }
  pose proof (@OrderedTypeEx.String_as_OT.lt_trans s t u L1 L2) as L.
  apply OrderedTypeEx.String_as_OT.cmp_lt in L.
  change (String.compare s u = Lt) in L. now rewrite L.
Qed.

(** X14.  [handle_gender_missing] on a text column with a missing and a
    present cell writes one value into every missing cell and leaves the
    present cells as they are.  The value is a present value of the column
    that no other outnumbers, and among equally frequent values the first
    in the order of the texts.  The fill is recorded with the number of
    cells that were missing. *)
Theorem gender_filled_with_most_frequent :
  forall (self : MLH.Handler) (xs : list (option string)),
    df_lookup (MLH.df self) "Gender" = Some (SObject xs) ->
    (0 < count_true (map is_none xs))%nat ->
    some_present xs ->
    let self' := MLH.handle_gender_missing self in
    exists (m : string) (ys : list (option string)),
      df_lookup (MLH.df self') "Gender" = Some (SObject ys)
      /\ List.length ys = List.length xs
      /\ (forall i t, nth_error xs i = Some (Some t) ->
                      nth_error ys i = Some (Some t))
      /\ (forall i, nth_error xs i = Some None ->
                    nth_error ys i = Some (Some m))
      /\ In (Some m) xs
      /\ (forall t, In (Some t) xs ->
                    (occurrences String.eqb t (present xs)
                     <= occurrences String.eqb m (present xs))%nat
                    /\ (occurrences String.eqb t (present xs)
                        = occurrences String.eqb m (present xs) ->
                        string_ltb t m = false))
      /\ (forall c, c <> "Gender" ->
                    df_lookup (MLH.df self') c = df_lookup (MLH.df self) c)
      /\ MLH.strategies_applied self'
         = (MLH.strategies_applied self ++ [MLH.GenderModeImputation])%list
      /\ MLH.rows_affected self'
         = MLH.dict_set (MLH.rows_affected self) "Gender"
                        (count_true (map is_none xs)).
Proof.
  intros self xs Hg Hpos Hsome. cbv zeta.
  destruct (@mode_some _ String.eqb string_ltb xs Hsome) as (m & Hm).
  unfold MLH.handle_gender_missing. rewrite Hg. cbn [isna fill_with_mode].
  destruct (count_true (map is_none xs) =? 0)%nat eqn:E;
    [apply Nat.eqb_eq in E; lia|].
  rewrite Hm.
  destruct (mode_most_frequent _ _ xs string_ltb_irrefl string_ltb_trans Hm)
    as [Hin Hbest].
  exists m, (fillna (Some m) xs).
  cbn [MLH.df MLH.record_imputation MLH.extend_processed
       MLH.set_rows_affected MLH.add_strategy MLH.with_df
       MLH.strategies_applied MLH.rows_affected].
  split; [apply df_lookup_set_same|]. split; [apply fillna_length|].
  split; [intros i t H; now rewrite (fillna_row _ _ _ H)|].
  split; [intros i H; now rewrite (fillna_row _ _ _ H)|].
  split; [exact Hin|]. split; [exact Hbest|].
  split; [intros c Hc; apply df_lookup_set_other; congruence|].
  split; reflexivity.
Qed.

Lemma gender_filled_with_most_frequent_witness :
  df_lookup (MLH.df (handler_on mixed_missing)) "Gender"
  = Some (SObject [Some "Male"; None; Some "Male"; Some "Female"])
  /\ exists ys : list (option string),
       df_lookup (MLH.df (MLH.handle_gender_missing (handler_on mixed_missing)))
                 "Gender" = Some (SObject ys)
       /\ List.length ys = 4%nat.
Proof.
  split; [reflexivity|].
  destruct (@gender_filled_with_most_frequent
              (handler_on mixed_missing)
              [Some "Male"; None; Some "Male"; Some "Female"] eq_refl)
    as (m & ys & Hl & Hlen & _).
  - cbn. lia.
  - exists 0%nat. reflexivity.
  - exists ys. split; [exact Hl|exact Hlen].
Defined.





(* ================================================================== *)
(** * The success flag and the engineered columns *)
(* ================================================================== *)

Lemma in_df_set (d : DataFrame) (k : string) (v : Series) (c : string)
  (s : Series) :
  In (c, s) (df_set d k v) -> (c, s) = (k, v) \/ In (c, s) d.
Proof.
  induction d as [|[k0 s0] r IH]; cbn [df_set].
  - intros [[= -> ->]|[]]. now left.
  - destruct (String.eqb_spec k0 k) as [->|Hk].
    + intros [[= -> ->]|H]; [now left|right; now right].
    + intros [H|H]; [right; now left|].
      destruct (IH H) as [E|E]; [now left|right; now right].
Qed.

Lemma validate_imputation_complete (self : MLH.Handler) :
  MLH.validate_imputation self = true <->
  (forall c s, In (c, s) (MLH.df self) -> no_missing s).
Proof.
  unfold MLH.validate_imputation, no_missing. rewrite forallb_forall. split.
  - intros H c s Hin. apply Nat.eqb_eq. exact (H (c, s) Hin).
  - intros H [c s] Hin. apply Nat.eqb_eq. exact (H c s Hin).
Qed.

Lemma feature_length_of_stay_sets (self self' : MLH.Handler) :
  MLH.feature_length_of_stay self = Ok self' ->
  MLH.df self' = MLH.df self
  \/ exists dis adm,
       df_lookup (MLH.df self) "Discharge Date" = Some (SDatetime dis)
       /\ df_lookup (MLH.df self) "Date of Admission" = Some (SDatetime adm)
       /\ MLH.df self'
          = df_set (MLH.df self) "Length_of_Stay"
                   (SNum (map (option_map inject_Z) (los_cells dis adm))).
Proof.
  unfold MLH.feature_length_of_stay.
  destruct (df_has (MLH.df self) "Date of Admission"
            && df_has (MLH.df self) "Discharge Date");
    [|intros [= <-]; now left].
  unfold df_get.
  destruct (df_lookup (MLH.df self) "Discharge Date") as [dis|];
    [|discriminate].
  destruct (df_lookup (MLH.df self) "Date of Admission") as [adm|];
    [|discriminate].
  cbn [bind].
  destruct dis as [xe|xe|xe], adm as [xs|xs|xs]; cbn [timedelta_days bind];
    try discriminate.
  intros [= <-]. right. exists xe, xs.
  split; [reflexivity|]. split; [reflexivity|].
  match goal with
  | |- context [if ?c then _ else _] => destruct c
  end; reflexivity.
Qed.

Lemma feature_age_group_sets (self self' : MLH.Handler) :
  MLH.feature_age_group self = Ok self' ->
  MLH.df self' = MLH.df self
  \/ exists v, MLH.df self' = df_set (MLH.df self) "Age_Group" v.
Proof.
  unfold MLH.feature_age_group.
  destruct (df_lookup (MLH.df self) "Age") as [age|];
    [|intros [= <-]; now left].
  destruct (binned_cells age) as [ages|e]; [|discriminate].
  cbn [bind]. intros [= <-]. right. eexists. reflexivity.
Qed.

Lemma feature_billing_category_sets (self self' : MLH.Handler) :
  MLH.feature_billing_category self = Ok self' ->
  MLH.df self' = MLH.df self
  \/ exists v, MLH.df self' = df_set (MLH.df self) "Billing_Category" v.
Proof.
  unfold MLH.feature_billing_category.
  destruct (df_lookup (MLH.df self) "Billing Amount") as [billing|];
    [|intros [= <-]; now left].
  destruct (statistic_cells billing) as [amounts|e]; [|discriminate].
  cbn [bind].
  destruct (quantile (1 # 4) amounts) as [q25|]; [|discriminate].
  destruct (quantile (1 # 2) amounts) as [q50|]; [|discriminate].
  destruct (quantile (3 # 4) amounts) as [q75|]; [|discriminate].
  destruct (MLH.increasing_edges q25 q50 q75); [|discriminate].
  intros [= <-]. right. eexists. reflexivity.
Qed.

Lemma lookup_in (d : DataFrame) (c : string) (s : Series) :
  df_lookup d c = Some s -> In (c, s) d.
Proof.
  induction d as [|[k t] r IH]; [discriminate|]. cbn [df_lookup].
  destruct (String.eqb_spec k c) as [->|Hk].
  - intros [= ->]. now left.
  - intros H. right. now apply IH.
Qed.

Lemma los_cells_complete (dis adm : list (option Z)) :
  count_true (map is_none dis) = 0%nat ->
  count_true (map is_none adm) = 0%nat ->
  count_true (map is_none (map (option_map inject_Z) (los_cells dis adm)))
  = 0%nat.
Proof.
  unfold los_cells. revert adm.
  induction dis as [|d r IH]; intros [|a r2]; try reflexivity.
  cbn [map combine fst snd]. rewrite !count_true_cons.
  destruct d as [d|], a as [a|]; cbn [is_none days_between option_map];
    try discriminate.
  intros Hd Ha. now apply IH.
Qed.

(** X16.  When [run_ml_imputation_pipeline] returns the flag [True],
    every column of the frame it returns has no missing cell, the
    engineered columns [Age_Group] and [Billing_Category] apart: the flag
    is computed before the features are added. *)
Theorem success_flag_means_complete :
  forall (parse : string -> option Z) (raw : DataFrame) (self : MLH.Handler),
    MLH.run_ml_imputation_pipeline parse raw = Ok (self, true) ->
    forall c s,
      In (c, s) (MLH.df self) ->
      c <> "Age_Group" -> c <> "Billing_Category" ->
      no_missing s.
Proof.
  intros parse raw self. unfold MLH.run_ml_imputation_pipeline.
  destruct (MLH.load_data parse raw MLH.init) as [s0|e]; [|discriminate].
  cbn [bind].
  destruct (MLH.impute_all s0) as [s1|e]; [|discriminate]. cbn [bind].
  destruct (MLH.fix_date_logic_errors s1) as [s2|e]; [|discriminate].
  cbn [bind].
  destruct (MLH.generate_ml_ready_features s2) as [s3|e] eqn:G;
    [|discriminate].
  cbn [bind]. intros [= <- Hv].
  pose proof (proj1 (validate_imputation_complete s2) Hv) as Hall.
  unfold MLH.generate_ml_ready_features in G.
  destruct (MLH.feature_length_of_stay s2) as [f1|e] eqn:F1; [|discriminate].
  cbn [bind] in G.
  destruct (MLH.feature_age_group f1) as [f2|e] eqn:F2; [|discriminate].
  cbn [bind] in G.
  apply feature_length_of_stay_sets in F1.
  apply feature_age_group_sets in F2.
  apply feature_billing_category_sets in G.
  intros c s Hin Hage Hbill.
  assert (H2 : In (c, s) (MLH.df f2)).
  { destruct G as [G|(v & G)]; rewrite G in Hin; [exact Hin|].
    apply in_df_set in Hin. destruct Hin as [[= -> _]|Hin];
      [congruence|exact Hin]. }
  assert (H1 : In (c, s) (MLH.df f1)).
  { destruct F2 as [F2|(v & F2)]; rewrite F2 in H2; [exact H2|].
    apply in_df_set in H2. destruct H2 as [[= -> _]|H2];
      [congruence|exact H2]. }
  destruct F1 as [F1|(dis & adm & Hd & Ha & F1)]; rewrite F1 in H1;
    [now apply Hall with (c := c)|].
  apply in_df_set in H1. destruct H1 as [[= _ ->]|H1];
    [|now apply Hall with (c := c)].
  unfold no_missing. cbn [isna].
  apply los_cells_complete.
  - exact (Hall _ _ (lookup_in _ _ Hd)).
  - exact (Hall _ _ (lookup_in _ _ Ha)).
Qed.

Lemma success_flag_means_complete_witness :
  exists self : MLH.Handler,
    MLH.run_ml_imputation_pipeline Calendar.parse_iso_date age_only
    = Ok (self, true)
    /\ no_missing (SNum [Some 30%Q; Some 40%Q]).
Proof.
  eexists. split; [reflexivity|].
  eapply (@success_flag_means_complete Calendar.parse_iso_date age_only _
            eq_refl "Age").
  - left. reflexivity.
  - discriminate.
  - discriminate.
Defined.

Lemma all_missing_no_quantile (p : Q) (xs : list (option Q)) :
  forallb is_none xs = true -> quantile p xs = None.
Proof.
  intros H. unfold quantile.
  assert (P : present xs = []).
  { induction xs as [|[x|] r IH]; [reflexivity|discriminate|]. now apply IH. }
  now rewrite P.
Qed.

(** X17.  Feature 3 of [generate_ml_ready_features] cannot bin at
    quartiles that do not increase: on a numeric [Billing Amount] column
    without a present amount, or whose present amounts are all equal, it
    raises [ValueError]. *)
Theorem billing_category_needs_distinct_quartiles :
  (forall (self : MLH.Handler) (amounts : list (option Q)),
      df_lookup (MLH.df self) "Billing Amount" = Some (SNum amounts) ->
      forallb is_none amounts = true ->
      MLH.feature_billing_category self = Raise ValueError)
  /\ (forall (self : MLH.Handler) (amounts : list (option Q)) (v : Q),
         df_lookup (MLH.df self) "Billing Amount" = Some (SNum amounts) ->
         (forall q, In (Some q) amounts -> (q == v)%Q) ->
         MLH.feature_billing_category self = Raise ValueError).
Proof.
  split.
  - intros self amounts Hl Hall. unfold MLH.feature_billing_category.
    rewrite Hl. cbn [statistic_cells bind].
    now rewrite (all_missing_no_quantile _ _ Hall).
  - intros self amounts v Hl Hsame. unfold MLH.feature_billing_category.
    rewrite Hl. cbn [statistic_cells bind].
    assert (Hb : forall q, In (Some q) amounts -> (v <= q /\ q <= v)%Q).
    { intros q Hq. pose proof (Hsame q Hq). split; lra. }
    destruct (quantile (1 # 4) amounts) as [q25|] eqn:E25; [|reflexivity].
    destruct (quantile (1 # 2) amounts) as [q50|] eqn:E50; [|reflexivity].
    destruct (quantile (3 # 4) amounts) as [q75|] eqn:E75; [|reflexivity].
    pose proof (@quantile_between _ v v amounts q25 Hb E25) as B25.
    pose proof (@quantile_between _ v v amounts q50 Hb E50) as B50.
    unfold MLH.increasing_edges.
    destruct (Qlt_bool q25 q50) eqn:L.
    + apply Qlt_bool_iff in L. lra.
    + now rewrite andb_false_r.
Qed.

Lemma billing_category_needs_distinct_quartiles_witness :
  MLH.feature_billing_category (handler_on (HDC.df (cleaner_on two_patients)))
  = Raise ValueError.
Proof.
  destruct billing_category_needs_distinct_quartiles as [_ H].
  apply (H _ [Some 18856%Q; Some 18856%Q] 18856%Q); [reflexivity|].
  intros q [[= <-]|[[= <-]|[]]]; reflexivity.
Defined.

Lemma cut_billing (q25 q50 q75 q : Q) :
  (0 < q25)%Q -> (q25 < q50)%Q -> (q50 < q75)%Q ->
  cut [Finite 0; Finite q25; Finite q50; Finite q75; PlusInfinity]
      MLH.billing_labels (Some q)
  = if Qle_bool q 0 then None
    else if Qle_bool q q25 then Some "Low"
    else if Qle_bool q q50 then Some "Medium"
    else if Qle_bool q q75 then Some "High"
    else Some "Very_High".
Proof.
  intros H1 H2 H3.
  cbn [cut cut_from MLH.billing_labels above at_most]. unfold Qlt_bool.
  destruct (Qle_bool q 0) eqn:E0.
  - apply Qle_bool_iff in E0. cbn [negb andb].
    assert (F25 : Qle_bool q q25 = true) by (apply Qle_bool_iff; lra).
    assert (F50 : Qle_bool q q50 = true) by (apply Qle_bool_iff; lra).
    assert (F75 : Qle_bool q q75 = true) by (apply Qle_bool_iff; lra).
    now rewrite F25, F50, F75.
  - cbn [negb andb].
    destruct (Qle_bool q q25) eqn:E25; [reflexivity|].
    cbn [negb andb].
    destruct (Qle_bool q q50) eqn:E50; [reflexivity|].
    cbn [negb andb].
    destruct (Qle_bool q q75) eqn:E75; reflexivity.
Qed.

(** X18.  When the quartiles of a numeric [Billing Amount] column
    increase strictly from a positive first quartile, feature 3 returns
    and adds a text column [Billing_Category] of the same length: an
    amount up to the first quartile is "Low", up to the median "Medium",
    up to the third quartile "High", above it "Very_High"; an amount that
    is not positive, or missing, has no category.  No other column
    changes. *)
Theorem billing_category_by_quartile :
  forall (self : MLH.Handler) (amounts : list (option Q)) (q25 q50 q75 : Q),
    df_lookup (MLH.df self) "Billing Amount" = Some (SNum amounts) ->
    quantile (1 # 4) amounts = Some q25 ->
    quantile (1 # 2) amounts = Some q50 ->
    quantile (3 # 4) amounts = Some q75 ->
    (0 < q25)%Q -> (q25 < q50)%Q -> (q50 < q75)%Q ->
    exists (self' : MLH.Handler) (cats : list (option string)),
      MLH.feature_billing_category self = Ok self'
      /\ df_lookup (MLH.df self') "Billing_Category" = Some (SObject cats)
      /\ List.length cats = List.length amounts
      /\ (forall i, nth_error amounts i = Some None ->
                    nth_error cats i = Some None)
      /\ (forall i q, nth_error amounts i = Some (Some q) ->
                      ((q <= 0)%Q -> nth_error cats i = Some None)
                      /\ ((0 < q /\ q <= q25)%Q ->
                          nth_error cats i = Some (Some "Low"))
                      /\ ((q25 < q /\ q <= q50)%Q ->
                          nth_error cats i = Some (Some "Medium"))
                      /\ ((q50 < q /\ q <= q75)%Q ->
                          nth_error cats i = Some (Some "High"))
                      /\ ((q75 < q)%Q ->
                          nth_error cats i = Some (Some "Very_High")))
      /\ (forall c, c <> "Billing_Category" ->
                    df_lookup (MLH.df self') c = df_lookup (MLH.df self) c).
Proof.
  intros self amounts q25 q50 q75 Hl E25 E50 E75 H1 H2 H3.
  unfold MLH.feature_billing_category.
  rewrite Hl. cbn [statistic_cells bind]. rewrite E25, E50, E75.
  assert (Hinc : MLH.increasing_edges q25 q50 q75 = true).
  { unfold MLH.increasing_edges.
    rewrite !andb_true_iff, !Qlt_bool_iff. auto. }
  rewrite Hinc.
  eexists; eexists. split; [reflexivity|].
  cbn [MLH.df MLH.add_strategy MLH.with_df].
  split; [apply df_lookup_set_same|]. split; [apply length_map|].
  split; [intros i H; now rewrite nth_error_map, H|].
  split; [|intros c Hc; apply df_lookup_set_other; congruence].
  intros i q H. rewrite nth_error_map, H. cbn [option_map].
  rewrite (cut_billing q H1 H2 H3).
  repeat split; intros Hq;
    repeat match goal with
           | |- context [Qle_bool ?a ?b] =>
               let E := fresh "E" in
               destruct (Qle_bool a b) eqn:E;
               [apply Qle_bool_iff in E
               |assert (~ (a <= b)%Q)
                  by (intros C; apply Qle_bool_iff in C; congruence);
                clear E]
           end; try reflexivity; exfalso; lra.
Qed.

Lemma billing_category_by_quartile_witness :
  exists (self' : MLH.Handler) (cats : list (option string)),
    MLH.feature_billing_category
      (handler_on [("Billing Amount",
                    SNum [Some 10%Q; Some 20%Q; Some 30%Q; Some 40%Q;
                          Some 50%Q])])
    = Ok self'
    /\ df_lookup (MLH.df self') "Billing_Category" = Some (SObject cats)
    /\ nth_error cats 4 = Some (Some "Very_High").
Proof.
  destruct (@billing_category_by_quartile
              (handler_on [("Billing Amount",
                            SNum [Some 10%Q; Some 20%Q; Some 30%Q; Some 40%Q;
                                  Some 50%Q])])
              [Some 10%Q; Some 20%Q; Some 30%Q; Some 40%Q; Some 50%Q]
              (80 # 4)%Q (60 # 2)%Q (160 # 4)%Q
              eq_refl eq_refl eq_refl eq_refl eq_refl eq_refl eq_refl)
    as (self' & cats & Hrun & Hl & _ & _ & Hrow & _).
  exists self', cats. split; [exact Hrun|]. split; [exact Hl|].
  apply (Hrow 4%nat 50%Q); reflexivity.
Defined.

(* ================================================================== *)
(** * The shape of the frame through the cleaning pipeline *)
(* ================================================================== *)

Lemma shape_nrows (d d' : DataFrame) : shape d' = shape d -> nrows d' = nrows d.
Proof.
  destruct d as [|[c s] r], d' as [|[c' s'] r']; cbn [shape map nrows fst snd];
    try discriminate; [reflexivity|]. now intros [= _ -> _].
Qed.

Lemma shape_columns (d d' : DataFrame) :
  shape d' = shape d -> df_columns d' = df_columns d.
Proof.
  intros H. unfold df_columns.
  assert (E : forall x : DataFrame, map fst x = map fst (shape x))
    by (intros x; unfold shape; rewrite map_map; now apply map_ext).
  now rewrite (E d), (E d'), H.
Qed.

Lemma shape_rectangular (d d' : DataFrame) :
  shape d' = shape d -> rectangular d' = rectangular d.
Proof.
  intros H. unfold rectangular. rewrite (shape_nrows _ _ H).
  assert (E : forall (n : nat) (x : DataFrame),
             forallb (fun p : string * Series => (slen (snd p) =? n)%nat) x
             = forallb (fun q : string * nat => (snd q =? n)%nat) (shape x)).
  { intros n x. unfold shape. induction x as [|p r IH]; [reflexivity|].
    cbn [map forallb snd]. now rewrite IH. }
  now rewrite !E, H.
Qed.

Lemma shape_set (d : DataFrame) (c : string) (s s' : Series) :
  df_lookup d c = Some s -> slen s' = slen s ->
  shape (df_set d c s') = shape d.
Proof.
  intros Hl Hlen. unfold shape.
  induction d as [|[k t] r IH]; [discriminate|].
  cbn [df_lookup] in Hl. cbn [df_set].
  destruct (String.eqb k c).
  - injection Hl as ->. cbn [map fst snd]. now rewrite Hlen.
  - cbn [map fst snd]. now rewrite IH.
Qed.

Lemma assign_where_length (A : Type) (mask : list bool) (v : A) (xs : list A) :
  List.length mask = List.length xs ->
  List.length (assign_where mask v xs) = List.length xs.
Proof.
  intros H. unfold assign_where. rewrite length_map, length_combine. lia.
Qed.

Lemma update_where_length (A : Type) (mask : list bool) (f : A -> A)
  (xs : list A) :
  List.length mask = List.length xs ->
  List.length (update_where mask f xs) = List.length xs.
Proof.
  intros H. unfold update_where. rewrite length_map, length_combine. lia.
Qed.

Lemma mask_and_length (a b : list bool) (n : nat) :
  List.length a = n -> List.length b = n -> List.length (mask_and a b) = n.
Proof.
  intros Ha Hb. unfold mask_and. rewrite length_map, length_combine. lia.
Qed.

Lemma mask_or_length (a b : list bool) (n : nat) :
  List.length a = n -> List.length b = n -> List.length (mask_or a b) = n.
Proof.
  intros Ha Hb. unfold mask_or. rewrite length_map, length_combine. lia.
Qed.

Lemma isin_text_length (values : list string) (s : Series) :
  List.length (isin_text values s) = slen s.
Proof. destruct s; apply length_map. Qed.

Lemma notna_length (s : Series) : List.length (notna s) = slen s.
Proof. unfold notna. now rewrite length_map, isna_length. Qed.

Lemma assign_nan_length (mask : list bool) (s : Series) :
  List.length mask = slen s -> slen (assign_nan mask s) = slen s.
Proof. destruct s; cbn [assign_nan slen]; apply assign_where_length. Qed.

Lemma assign_text_length (mask : list bool) (v : string) (s s' : Series) :
  List.length mask = slen s ->
  assign_text mask v s = Ok s' -> slen s' = slen s.
Proof.
  intros Hm. destruct s as [xs|xs|xs]; cbn [assign_text slen] in *.
  - intros [= <-]. now apply assign_where_length.
  - destruct (count_true mask =? 0)%nat; [now intros [= <-]|].
    unfold overwrite_as_text.
    destruct (forallb _ (combine mask xs)); [|discriminate].
    cbn [bind]. intros [= <-]. cbn [slen].
    rewrite length_map, length_combine. lia.
  - destruct (count_true mask =? 0)%nat; [now intros [= <-]|].
    unfold overwrite_as_text.
    destruct (forallb _ (combine mask xs)); [|discriminate].
    cbn [bind]. intros [= <-]. cbn [slen].
    rewrite length_map, length_combine. lia.
Qed.

Lemma apply_length (f : option string -> option string) (s s' : Series) :
  apply f s = Ok s' -> slen s' = slen s.
Proof.
  destruct s as [xs|xs|xs]; cbn [apply].
  - intros [= <-]. apply length_map.
  - destruct (forallb is_none xs); [now intros [= <-]|discriminate].
  - destruct (forallb is_none xs); [now intros [= <-]|discriminate].
Qed.

Lemma to_datetime_length (parse : string -> option Z) (s s' : Series) :
  to_datetime parse s = Ok s' -> slen s' = slen s.
Proof.
  destruct s as [xs|xs|xs]; cbn [to_datetime].
  - intros [= <-]. apply length_map.
  - destruct (forallb is_none xs); [|discriminate].
    intros [= <-]. apply length_map.
  - now intros [= <-].
Qed.

Lemma numeric_cells_length (s : Series) (xs : list (option Q)) :
  numeric_cells s = Ok xs -> List.length xs = slen s.
Proof.
  destruct s as [ys|ys|ys]; cbn [numeric_cells].
  - destruct (forallb is_none ys); [|discriminate].
    intros [= <-]. apply length_map.
  - now intros [= <-].
  - discriminate.
Qed.

Lemma statistic_cells_length (s : Series) (xs : list (option Q)) :
  statistic_cells s = Ok xs -> List.length xs = slen s.
Proof.
  destruct s as [ys|ys|ys]; cbn [statistic_cells].
  - destruct (forallb is_none ys); [|discriminate].
    intros [= <-]. apply length_map.
  - now intros [= <-].
  - discriminate.
Qed.

Lemma lt_const_length (c : Q) (xs : list (option Q)) :
  List.length (lt_const c xs) = List.length xs.
Proof. apply length_map. Qed.

Lemma gt_const_length (c : Q) (xs : list (option Q)) :
  List.length (gt_const c xs) = List.length xs.
Proof. apply length_map. Qed.

Lemma df_get_ok (d : DataFrame) (c : string) (s : Series) :
  df_get d c = Ok s -> df_lookup d c = Some s.
Proof.
  unfold df_get. destruct (df_lookup d c); [now intros [= ->]|discriminate].
Qed.

Ltac get_column s H :=
  match goal with
  | |- context [df_get ?d ?c] =>
      destruct (df_get d c) as [s|?] eqn:H; [|discriminate];
      apply df_get_ok in H; cbn [bind]
  end.

Ltac run_step x H :=
  match goal with
  | |- bind ?r _ = _ -> _ =>
      destruct r as [x|?] eqn:H; [|discriminate]; cbn [bind]
  end.

Ltac shape_of_set old :=
  split; [apply shape_set with (s := old)|reflexivity].

Lemma keeps_shape_refl (self : HDC.Cleaner) : keeps_shape self self.
Proof. now split. Qed.

Lemma keeps_shape_trans (s1 s2 s3 : HDC.Cleaner) :
  keeps_shape s1 s2 -> keeps_shape s2 s3 -> keeps_shape s1 s3.
Proof. unfold keeps_shape. intros [A B] [C D]. split; congruence. Qed.

Lemma clean_names_shape (self self' : HDC.Cleaner) :
  HDC.clean_names self = Ok self' -> keeps_shape self self'.
Proof.
  unfold HDC.clean_names. get_column name Hn.
  run_step texts Ht.
  run_step name' Ha. intros [= <-].
  shape_of_set name; [exact Hn|now apply apply_length in Ha].
Qed.

Lemma clean_hospital_names_shape (self self' : HDC.Cleaner) :
  HDC.clean_hospital_names self = Ok self' -> keeps_shape self self'.
Proof.
  unfold HDC.clean_hospital_names. get_column hospital Hn.
  run_step texts Ht.
  run_step hospital' Ha. intros [= <-].
  shape_of_set hospital; [exact Hn|now apply apply_length in Ha].
Qed.

Lemma gender_literal_pass_shape (self : HDC.Cleaner) (gender : Series) :
  df_lookup (HDC.df self) "Gender" = Some gender ->
  keeps_shape self (HDC.gender_literal_pass self gender)
  /\ exists gender',
       df_lookup (HDC.df (HDC.gender_literal_pass self gender)) "Gender"
       = Some gender'
       /\ slen gender' = slen gender.
Proof.
  intros Hg. unfold HDC.gender_literal_pass.
  destruct gender as [xs|xs|xs];
    try (split; [apply keeps_shape_refl|eauto]).
  destruct (0 <? count_true (HDC.literal_nan_mask xs))%nat;
    [|split; [apply keeps_shape_refl|eauto]].
  assert (L : List.length (assign_where (HDC.literal_nan_mask xs) None xs)
              = List.length xs).
  { apply assign_where_length. unfold HDC.literal_nan_mask.
    apply mask_and_length.
    - unfold str_test, HDC.astype_str. now rewrite !length_map.
    - apply (notna_length (SObject xs)). }
  split; [shape_of_set (SObject xs); [exact Hg|exact L]|].
  eexists. split; [apply df_lookup_set_same|exact L].
Qed.

Lemma clean_gender_data_shape (self self' : HDC.Cleaner) :
  HDC.clean_gender_data self = Ok self' -> keeps_shape self self'.
Proof.
  unfold HDC.clean_gender_data. get_column gender Hg.
  destruct (gender_literal_pass_shape self Hg) as (S1 & g1 & Hg1 & L1).
  rewrite (df_get_lookup _ _ Hg1). cbn [bind].
  match goal with
  | |- context [if ?c then _ else _] => destruct c
  end; intros [= <-]; [|exact S1].
  apply keeps_shape_trans with (s2 := HDC.gender_literal_pass self gender);
    [exact S1|].
  shape_of_set g1; [exact Hg1|].
  apply assign_nan_length. apply mask_and_length.
  - unfold mask_not. now rewrite length_map, isin_text_length.
  - apply notna_length.
Qed.

Lemma clean_blood_types_shape (self self' : HDC.Cleaner) :
  HDC.clean_blood_types self = Ok self' -> keeps_shape self self'.
Proof.
  unfold HDC.clean_blood_types. get_column blood Hb.
  match goal with
  | |- context [if ?c then _ else _] => destruct c
  end; [|intros [= <-]; apply keeps_shape_refl].
  run_step blood' Ha. intros [= <-].
  shape_of_set blood; [exact Hb|].
  apply assign_text_length in Ha; [exact Ha|].
  unfold mask_not. now rewrite length_map, isin_text_length.
Qed.

Lemma clean_age_shape (self self' : HDC.Cleaner) (n : nat) :
  HDC.clean_age self = Ok (self', n) -> keeps_shape self self'.
Proof.
  unfold HDC.clean_age. get_column age Ha. run_step ages Hc.
  apply numeric_cells_length in Hc.
  match goal with
  | |- context [if ?c then _ else _] => destruct c
  end; intros [= <- _]; [|apply keeps_shape_refl].
  shape_of_set age; [exact Ha|]. cbn [slen].
  rewrite assign_where_length; [exact Hc|].
  apply mask_or_length; [apply lt_const_length|apply gt_const_length].
Qed.

Lemma clean_room_shape (self self' : HDC.Cleaner) (n : nat) :
  HDC.clean_room self = Ok (self', n) -> keeps_shape self self'.
Proof.
  unfold HDC.clean_room. get_column room Ha. run_step rooms Hc.
  apply numeric_cells_length in Hc.
  match goal with
  | |- context [if ?c then _ else _] => destruct c
  end; intros [= <- _]; [|apply keeps_shape_refl].
  shape_of_set room; [exact Ha|]. cbn [slen].
  rewrite assign_where_length; [exact Hc|].
  apply mask_or_length; [apply lt_const_length|apply gt_const_length].
Qed.

Lemma clean_billing_shape (self self' : HDC.Cleaner) (n : nat) :
  HDC.clean_billing self = Ok (self', n) -> keeps_shape self self'.
Proof.
  unfold HDC.clean_billing. get_column billing Ha. run_step amounts Hc.
  apply numeric_cells_length in Hc.
  assert (Lf : List.length (update_where (lt_const 0 amounts) (option_map Qabs)
                                         amounts) = slen billing)
    by (rewrite update_where_length; [exact Hc|apply lt_const_length]).
  assert (Lc : forall ys : list (option Q),
             List.length
               (assign_where
                  (lt_const 1 (assign_where (gt_const 1000000 ys)
                                            (Some 1000000%Q) ys))
                  None
                  (assign_where (gt_const 1000000 ys) (Some 1000000%Q) ys))
             = List.length ys).
  { intros ys. rewrite assign_where_length.
    - apply assign_where_length, gt_const_length.
    - apply lt_const_length. }
  destruct (0 <? count_true (lt_const 0 amounts))%nat.
  - match goal with
    | |- context [if ?c then _ else _] => destruct c
    end; intros [= <- _].
    + apply keeps_shape_trans
        with (s2 := HDC.with_df self
                      (df_set (HDC.df self) "Billing Amount"
                              (SNum (update_where (lt_const 0 amounts)
                                                  (option_map Qabs) amounts)))).
      * shape_of_set billing; [exact Ha|exact Lf].
      * shape_of_set (SNum (update_where (lt_const 0 amounts)
                                         (option_map Qabs) amounts));
          [apply df_lookup_set_same|]. cbn [slen]. apply Lc.
    + shape_of_set billing; [exact Ha|exact Lf].
  - match goal with
    | |- context [if ?c then _ else _] => destruct c
    end; intros [= <- _]; [|apply keeps_shape_refl].
    shape_of_set billing; [exact Ha|]. cbn [slen]. now rewrite Lc.
Qed.

Lemma report_if_shape (n : nat) (i : HDC.issue) (self : HDC.Cleaner) :
  keeps_shape self (HDC.report_if n i self).
Proof. unfold HDC.report_if. destruct (0 <? n)%nat; now split. Qed.

Lemma clean_numerical_data_shape (self self' : HDC.Cleaner) :
  HDC.clean_numerical_data self = Ok self' -> keeps_shape self self'.
Proof.
  unfold HDC.clean_numerical_data.
  destruct (HDC.clean_age self) as [[s1 n1]|e] eqn:E1; [|discriminate].
  cbn [bind].
  destruct (HDC.clean_billing s1) as [[s2 n2]|e] eqn:E2; [|discriminate].
  cbn [bind].
  destruct (HDC.clean_room s2) as [[s3 n3]|e] eqn:E3; [|discriminate].
  cbn [bind]. intros [= <-].
  apply clean_age_shape in E1. apply clean_billing_shape in E2.
  apply clean_room_shape in E3.
  repeat (eapply keeps_shape_trans; [|apply report_if_shape]).
  eauto using keeps_shape_trans.
Qed.

Lemma clean_categorical_data_shape (self self' : HDC.Cleaner) :
  HDC.clean_categorical_data self = Ok self' -> keeps_shape self self'.
Proof.
  unfold HDC.clean_categorical_data.
  get_column c1 H1. get_column c2 H2. get_column c3 H3.
  get_column insurance Hi. run_step insurance' Ai.
  cbn [HDC.df HDC.with_df].
  get_column medication Hm. run_step medication' Am.
  intros [= <-]. split; [|reflexivity].
  cbn [HDC.df HDC.report HDC.with_df].
  rewrite (@shape_set _ _ _ medication' Hm (apply_length _ _ Am)).
  exact (@shape_set _ _ _ insurance' Hi (apply_length _ _ Ai)).
Qed.

Lemma handle_missing_values_shape (self self' : HDC.Cleaner) :
  HDC.handle_missing_values self = Ok self' -> keeps_shape self self'.
Proof.
  unfold HDC.handle_missing_values.
  destruct (0 <? List.length (HDC.missing_summary (HDC.df self)))%nat;
    [|intros [= <-]; apply keeps_shape_refl].
  destruct (find _ (HDC.missing_summary (HDC.df self))) as [[k missing_age]|].
  - get_column age Ha.
    destruct (statistic_cells age) as [ages|e] eqn:Hc; [|discriminate].
    cbn [bind]. apply statistic_cells_length in Hc.
    intros [= <-].
    destruct (median ages) as [m|]; [|now split].
    shape_of_set age; [exact Ha|]. cbn [slen].
    now rewrite fillna_length.
  - cbn [bind]. intros [= <-]. now split.
Qed.

Lemma clean_date_column_shape (parse : string -> option Z) (col : string)
  (self self' : HDC.Cleaner) :
  HDC.clean_date_column parse col self = Ok self' -> keeps_shape self self'.
Proof.
  unfold HDC.clean_date_column. get_column s Hs. run_step s' Ht.
  apply to_datetime_length in Ht.
  match goal with
  | |- context [if ?c then _ else _] => destruct c
  end; intros [= <-]; shape_of_set s; assumption.
Qed.

Lemma datetime_lt_length (a b : Series) (mask : list bool) (n : nat) :
  slen a = n -> slen b = n -> datetime_lt a b = Ok mask -> List.length mask = n.
Proof.
  intros Ha Hb. destruct a as [xa|xa|xa], b as [xb|xb|xb];
    cbn [datetime_lt]; try discriminate.
  intros [= <-]. cbn [slen] in Ha, Hb.
  rewrite length_map, length_combine. lia.
Qed.

Lemma clean_dates_shape (parse : string -> option Z)
  (self self' : HDC.Cleaner) :
  rectangular (HDC.df self) = true ->
  HDC.clean_dates parse self = Ok self' -> keeps_shape self self'.
Proof.
  intros Hr. unfold HDC.clean_dates, HDC.date_columns. cbn [for_each].
  destruct (HDC.clean_date_column parse "Date of Admission" self)
    as [s1|e] eqn:E1; [|discriminate]. cbn [bind].
  destruct (HDC.clean_date_column parse "Discharge Date" s1)
    as [s2|e] eqn:E2; [|discriminate]. cbn [bind].
  apply clean_date_column_shape in E1, E2.
  pose proof (keeps_shape_trans E1 E2) as S2.
  assert (R2 : rectangular (HDC.df s2) = true)
    by (rewrite (shape_rectangular _ _ (proj1 S2)); exact Hr).
  destruct (df_has (HDC.df s2) "Date of Admission"
            && df_has (HDC.df s2) "Discharge Date");
    [|now intros [= <-]].
  get_column discharge Hd. get_column admission Ha. run_step mask Hm.
  match goal with
  | |- context [if ?c then _ else _] => destruct c
  end; intros [= <-]; [|exact S2].
  apply keeps_shape_trans with (s2 := s2); [exact S2|].
  shape_of_set discharge; [exact Hd|].
  apply assign_nan_length.
  apply (@datetime_lt_length discharge admission mask (slen discharge));
    [reflexivity| |exact Hm].
  now rewrite (rectangular_lookup _ _ R2 Ha), (rectangular_lookup _ _ R2 Hd).
Qed.

(** X19.  [run_full_cleaning] on a rectangular frame, when it returns:
    the frame has the columns of the input, in their order, and is
    rectangular, and the only rows removed are the duplicates.  So the
    number of rows removed that the report prints, the number recorded by
    [load_data] less the number of rows left, is the number of rows
    [duplicated] marks in the input. *)
Theorem run_full_cleaning_keeps_shape :
  forall (parse : string -> option Z) (raw : DataFrame) (self' : HDC.Cleaner),
    rectangular raw = true ->
    HDC.run_full_cleaning parse raw = Ok self' ->
    df_columns (HDC.df self') = df_columns raw
    /\ rectangular (HDC.df self') = true
    /\ HDC.original_rows self' = nrows raw
    /\ (nrows (HDC.df self') + count_true (duplicated raw) = nrows raw)%nat.
Proof.
  intros parse raw self' Hr. unfold HDC.run_full_cleaning.
  set (s0 := HDC.load_data raw HDC.init).
  assert (Hr0 : rectangular (HDC.df s0) = true) by exact Hr.
  destruct (remove_duplicates_shape s0 Hr0) as (Hcols & Hrect & Hrows & Horig).
  set (s1 := HDC.remove_duplicates s0) in *.
  destruct (HDC.clean_names s1) as [s2|e] eqn:E2; [|discriminate].
  cbn [bind].
  destruct (HDC.clean_gender_data s2) as [s3|e] eqn:E3; [|discriminate].
  cbn [bind].
  destruct (HDC.clean_blood_types s3) as [s4|e] eqn:E4; [|discriminate].
  cbn [bind].
  destruct (HDC.clean_dates parse s4) as [s5|e] eqn:E5; [|discriminate].
  cbn [bind].
  destruct (HDC.clean_hospital_names s5) as [s6|e] eqn:E6; [|discriminate].
  cbn [bind].
  destruct (HDC.clean_numerical_data s6) as [s7|e] eqn:E7; [|discriminate].
  cbn [bind].
  destruct (HDC.clean_categorical_data s7) as [s8|e] eqn:E8; [|discriminate].
  cbn [bind].
  destruct (HDC.handle_missing_values s8) as [s9|e] eqn:E9; [|discriminate].
  cbn [bind].
  destruct (HDC.detect_outliers s9) as [s10|e] eqn:E10; [|discriminate].
  cbn [bind]. intros [= <-].
  apply detect_outliers_returns_self in E10. subst s10.
  apply clean_names_shape in E2. apply clean_gender_data_shape in E3.
  apply clean_blood_types_shape in E4.
  assert (S4 : keeps_shape s1 s4) by eauto using keeps_shape_trans.
  apply clean_dates_shape in E5;
    [|rewrite (shape_rectangular _ _ (proj1 S4)); exact Hrect].
  apply clean_hospital_names_shape in E6.
  apply clean_numerical_data_shape in E7.
  apply clean_categorical_data_shape in E8.
  apply handle_missing_values_shape in E9.
  assert (S9 : keeps_shape s1 s9) by eauto 10 using keeps_shape_trans.
  destruct S9 as [S9 O9].
  split; [rewrite (shape_columns _ _ S9); exact Hcols|].
  split; [rewrite (shape_rectangular _ _ S9); exact Hrect|].
  split; [rewrite O9, Horig; reflexivity|].
  rewrite (shape_nrows _ _ S9). exact Hrows.
Qed.

Lemma rectangular_two_patients : rectangular two_patients = true.
Proof. reflexivity. Qed.

Lemma run_full_cleaning_keeps_shape_witness :
  exists self' : HDC.Cleaner,
    HDC.run_full_cleaning Calendar.parse_iso_date two_patients = Ok self'
    /\ df_columns (HDC.df self') = df_columns two_patients
    /\ nrows (HDC.df self') = 2%nat.
Proof.
  eexists. split; [vm_compute; reflexivity|].
  destruct (@run_full_cleaning_keeps_shape
              Calendar.parse_iso_date two_patients _ eq_refl eq_refl)
    as (Hc & _ & _ & Hn).
  split; [exact Hc|]. vm_compute in Hn. vm_compute. lia.
Defined.

(* ================================================================== *)
(** * Title case and stripping *)
(* ================================================================== *)










Lemma same_spaces_refl (s : string) : same_spaces s s.
Proof. induction s; cbn; auto. Qed.























(* ================================================================== *)
(** * The dispatch, phase by phase *)
(* ================================================================== *)

Lemma for_each_app (A S : Type) (body : A -> S -> result S) (l1 l2 : list A)
  (s : S) :
  for_each (l1 ++ l2)%list body s
  = (s' <- for_each l1 body s ;; for_each l2 body s').
Proof.
  revert s. induction l1 as [|x r IH]; intros s; [reflexivity|].
  cbn [for_each app]. destruct (body x s) as [s1|e]; [|reflexivity].
  cbn [bind]. apply IH.
Qed.

Section OwnColumn.

Variable body : string -> MLH.Handler -> result MLH.Handler.
Variable ok : Series -> bool.
Hypothesis body_ok : body_spec body ok.
Hypothesis ok_dtype : forall s s', same_dtype s s' -> ok s = ok s'.

(** In a loop over distinct columns, the body of column [c] finds the
    column as it was before the loop, and what it leaves is what the loop
    leaves. *)
Lemma phase_column (L : list string) (d0 : DataFrame) (c : string) :
  NoDup L -> In c L ->
  (forall c', In c' L -> exists s, df_lookup d0 c' = Some s /\ ok s = true) ->
  forall self : MLH.Handler,
    evolves d0 (MLH.df self) ->
    exists mid after final : MLH.Handler,
      body c mid = Ok after
      /\ for_each L body self = Ok final
      /\ df_lookup (MLH.df mid) c = df_lookup (MLH.df self) c
      /\ df_lookup (MLH.df final) c = df_lookup (MLH.df after) c.
Proof.
  intros Hnd Hin Hpre self Hev.
  destruct (in_split _ _ Hin) as (L1 & L2 & ->).
  pose proof (NoDup_remove_2 _ _ _ Hnd) as Hnot.
  assert (N1 : ~ In c L1) by (intros H; apply Hnot, in_or_app; now left).
  assert (N2 : ~ In c L2) by (intros H; apply Hnot, in_or_app; now right).
  assert (P1 : forall c', In c' L1 ->
                          exists s, df_lookup d0 c' = Some s /\ ok s = true)
    by (intros c' H; apply Hpre, in_or_app; now left).
  assert (P2 : forall c', In c' L2 ->
                          exists s, df_lookup d0 c' = Some s /\ ok s = true)
    by (intros c' H; apply Hpre, in_or_app; right; now right).
  destruct (phase_runs body_ok ok_dtype _ P1 self Hev)
    as (mid & E1 & _ & Ev1 & Fr1 & _).
  pose proof (evolves_trans Hev Ev1) as Hev1.
  destruct (Hpre c Hin) as (s0 & L0 & Ok0).
  destruct (Hev1 c s0 L0) as (s1 & Lm & D1 & _).
  assert (Hbody : forall s, df_lookup (MLH.df mid) c = Some s -> ok s = true).
  { intros s Hs. assert (s = s1) by congruence. subst s.
    now rewrite <- (ok_dtype _ _ D1). }
  destruct (body_ok c mid Hbody) as (after & E2 & _ & T2 & _).
  pose proof (evolves_trans Hev1 (touches_evolves T2)) as Hev2.
  destruct (phase_runs body_ok ok_dtype _ P2 after Hev2)
    as (final & E3 & _ & _ & Fr3 & _).
  exists mid, after, final. split; [exact E2|]. split.
  { rewrite for_each_app, E1. cbn [bind for_each]. rewrite E2. exact E3. }
  split; [now apply Fr1|now apply Fr3].
Qed.

End OwnColumn.

(** The states of the dispatch after each of its phases. *)
Lemma impute_all_by_phase (self : MLH.Handler) :
  unique_columns (MLH.df self) ->
  let b := analysis (MLH.df self) in
  exists s1 s2 s3 s4 s5 : MLH.Handler,
    MLH.drop_pii_columns (MLH.analyze_missing_patterns self) = Ok s1
    /\ for_each (MLH.categorical_low_missing b) MLH.impute_low_column s1 = Ok s2
    /\ for_each (MLH.categorical_high_missing b) MLH.impute_high_column s2
       = Ok s3
    /\ for_each (MLH.numerical_missing b) MLH.impute_numerical_column s3
       = Ok s4
    /\ for_each (MLH.date_missing b) MLH.impute_date_column s4 = Ok s5
    /\ (MLH.buckets s1 = Some b /\ MLH.buckets s2 = Some b
        /\ MLH.buckets s3 = Some b /\ MLH.buckets s4 = Some b)
    /\ (forall c, c <> "Name" ->
                  df_lookup (MLH.df s1) c = df_lookup (MLH.df self) c)
    /\ (evolves (MLH.df s1) (MLH.df s2) /\ evolves (MLH.df s1) (MLH.df s3)
        /\ evolves (MLH.df s1) (MLH.df s4) /\ evolves (MLH.df s1) (MLH.df s5))
    /\ (forall c, ~ In c (MLH.categorical_low_missing b) ->
                  df_lookup (MLH.df s2) c = df_lookup (MLH.df s1) c)
    /\ (forall c, ~ In c (MLH.categorical_high_missing b) ->
                  df_lookup (MLH.df s3) c = df_lookup (MLH.df s2) c)
    /\ (forall c, ~ In c (MLH.numerical_missing b) ->
                  df_lookup (MLH.df s4) c = df_lookup (MLH.df s3) c)
    /\ (forall c, ~ In c (MLH.date_missing b) ->
                  df_lookup (MLH.df s5) c = df_lookup (MLH.df s4) c)
    /\ (forall c s, In c (fill_columns b) ->
                    df_lookup (MLH.df self) c = Some s -> has_present s ->
                    filled c (MLH.df s5)).
Proof.
  intros Hu. cbv zeta. set (b := analysis (MLH.df self)).
  destruct (analysis_ok Hu) as [Hp Hk Hl Hh Hn Hd].
  fold b in Hp, Hk, Hl, Hh, Hn, Hd.
  set (self0 := MLH.analyze_missing_patterns self).
  assert (B0 : MLH.buckets self0 = Some b) by reflexivity.
  assert (D0 : MLH.df self0 = MLH.df self) by reflexivity.
  destruct (drop_pii_columns_frame self0 B0 Hp) as (s1 & E1 & B1 & F1).
  rewrite D0 in F1.
  assert (P2 : forall c, In c (MLH.categorical_low_missing b) ->
                         exists s, df_lookup (MLH.df s1) c = Some s
                                   /\ (fun _ : Series => true) s = true).
  { intros c Hc. destruct (Hl c Hc) as (Hne & s & L & _).
    exists s. split; [now rewrite F1|reflexivity]. }
  destruct (phase_runs impute_low_column_spec (fun _ _ _ => eq_refl) _ P2
                       s1 (evolves_refl _))
    as (s2 & E2 & B2 & Ev2 & Fr2 & Fi2).
  assert (P3 : forall c, In c (MLH.categorical_high_missing b) ->
                         exists s, df_lookup (MLH.df s1) c = Some s
                                   /\ MLH.is_object s = true).
  { intros c Hc. destruct (Hh c Hc) as (Hne & s & L & O).
    exists s. split; [now rewrite F1|exact O]. }
  destruct (phase_runs impute_high_column_spec is_object_dtype _ P3 s2 Ev2)
    as (s3 & E3 & B3 & Ev3 & Fr3 & Fi3).
  pose proof (evolves_trans Ev2 Ev3) as Ev13.
  assert (P4 : forall c, In c (MLH.numerical_missing b) ->
                         exists s, df_lookup (MLH.df s1) c = Some s
                                   /\ MLH.is_number s = true).
  { intros c Hc. destruct (Hn c Hc) as (Hne & s & L & O).
    exists s. split; [now rewrite F1|exact O]. }
  destruct (phase_runs impute_numerical_column_spec is_number_dtype _ P4
                       s3 Ev13)
    as (s4 & E4 & B4 & Ev4 & Fr4 & Fi4).
  pose proof (evolves_trans Ev13 Ev4) as Ev14.
  assert (P5 : forall c, In c (MLH.date_missing b) ->
                         exists s, df_lookup (MLH.df s1) c = Some s
                                   /\ (fun _ : Series => true) s = true).
  { intros c Hc. destruct (Hd c Hc) as (Hne & s & L).
    exists s. split; [now rewrite F1|reflexivity]. }
  destruct (phase_runs impute_date_column_spec (fun _ _ _ => eq_refl) _ P5
                       s4 Ev14)
    as (s5 & E5 & B5 & Ev5 & Fr5 & Fi5).
  pose proof (evolves_trans Ev14 Ev5) as Ev15.
  exists s1, s2, s3, s4, s5.
  split; [exact E1|]. split; [exact E2|]. split; [exact E3|].
  split; [exact E4|]. split; [exact E5|].
  split; [repeat split; congruence|]. split; [exact F1|].
  split; [repeat split; assumption|].
  split; [exact Fr2|]. split; [exact Fr3|]. split; [exact Fr4|].
  split; [exact Fr5|].
  intros c s Hin L Hpres. unfold fill_columns in Hin.
  apply in_app_or in Hin. destruct Hin as [Hin|Hin].
  { destruct (Hl c Hin) as (Hne & _).
    apply filled_evolves with (d := MLH.df s2);
      [apply (Fi2 c s Hin); [now rewrite F1|exact Hpres]|].
    exact (evolves_trans Ev3 (evolves_trans Ev4 Ev5)). }
  apply in_app_or in Hin. destruct Hin as [Hin|Hin].
  { destruct (Hh c Hin) as (Hne & _).
    apply filled_evolves with (d := MLH.df s3);
      [apply (Fi3 c s Hin); [now rewrite F1|exact Hpres]|].
    exact (evolves_trans Ev4 Ev5). }
  apply in_app_or in Hin. destruct Hin as [Hin|Hin].
  { destruct (Hn c Hin) as (Hne & _).
    apply filled_evolves with (d := MLH.df s4);
      [apply (Fi4 c s Hin); [now rewrite F1|exact Hpres]|exact Ev5]. }
  destruct (Hd c Hin) as (Hne & _).
  apply (Fi5 c s Hin); [now rewrite F1|exact Hpres].
Qed.

(** The dispatch is its phases, one after the other. *)
Lemma impute_all_phases (self s1 s2 s3 s4 s5 : MLH.Handler) (b : MLH.Buckets) :
  MLH.drop_pii_columns (MLH.analyze_missing_patterns self) = Ok s1 ->
  for_each (MLH.categorical_low_missing b) MLH.impute_low_column s1 = Ok s2 ->
  for_each (MLH.categorical_high_missing b) MLH.impute_high_column s2 = Ok s3 ->
  for_each (MLH.numerical_missing b) MLH.impute_numerical_column s3 = Ok s4 ->
  for_each (MLH.date_missing b) MLH.impute_date_column s4 = Ok s5 ->
  MLH.buckets s1 = Some b -> MLH.buckets s2 = Some b ->
  MLH.buckets s3 = Some b -> MLH.buckets s4 = Some b ->
  (s1 <- MLH.drop_pii_columns (MLH.analyze_missing_patterns self) ;;
   s2 <- MLH.impute_categorical_low_missing s1 ;;
   s3 <- MLH.impute_categorical_high_missing s2 ;;
   s4 <- MLH.impute_numerical_data s3 ;;
   MLH.impute_date_data s4) = Ok s5
  /\ MLH.impute_all self = Ok (MLH.handle_gender_missing s5).
Proof.
  intros E1 E2 E3 E4 E5 B1 B2 B3 B4.
  unfold MLH.impute_all, MLH.impute_categorical_low_missing,
    MLH.impute_categorical_high_missing, MLH.impute_numerical_data,
    MLH.impute_date_data, MLH.get_buckets.
  rewrite E1. cbn [bind]. rewrite B1. cbn [bind]. rewrite E2. cbn [bind].
  rewrite B2. cbn [bind]. rewrite E3. cbn [bind].
  rewrite B3. cbn [bind]. rewrite E4. cbn [bind].
  rewrite B4. cbn [bind]. rewrite E5. cbn [bind]. now split.
Qed.

Lemma fill_with_mode_absent (s : Series) :
  ~ has_present s -> fill_with_mode s = None.
Proof.
  intros H.
  destruct (fill_with_mode s) as [s'|] eqn:F; [|reflexivity].
  exfalso. apply H. unfold has_present.
  assert (P : forall (A : Type) (xs : list (option A)),
             present xs <> [] -> exists i, nth_error (map is_none xs) i
                                           = Some false).
  { intros A xs. induction xs as [|[x|] r IH]; cbn [present]; [easy| |].
    - intros _. now exists 0%nat.
    - intros Hp. destruct (IH Hp) as (i & Hi). now exists (S i). }
  destruct s as [xs|xs|xs]; cbn [fill_with_mode isna] in *;
    apply P; unfold mode in F; intros E; rewrite E in F; discriminate.
Qed.

Lemma handle_gender_missing_idle (self : MLH.Handler) :
  (forall s, df_lookup (MLH.df self) "Gender" = Some s ->
             no_missing s \/ ~ has_present s) ->
  MLH.handle_gender_missing self = self.
Proof.
  intros H. unfold MLH.handle_gender_missing.
  destruct (df_lookup (MLH.df self) "Gender") as [s|]; [|reflexivity].
  destruct (H s eq_refl) as [Hn|Hn].
  - unfold no_missing in Hn. now rewrite Hn.
  - rewrite (fill_with_mode_absent Hn).
    now destruct (count_true (isna s) =? 0)%nat.
Qed.

Lemma designated_when_missing (d : DataFrame) (c : string) (s : Series) :
  unique_columns d -> df_lookup d c = Some s -> c <> "Name" ->
  ~ no_missing s -> In c (fill_columns (analysis d)).
Proof.
  intros Hu Hl Hc Hm. rewrite analysis_lists. unfold fill_columns.
  cbn [MLH.categorical_low_missing MLH.categorical_high_missing
       MLH.numerical_missing MLH.date_missing].
  assert (Hn : needs_fill (c, s) = true) by now apply needs_fill_spec.
  rewrite !in_app_iff, !(fun f => @in_taken_at f d c s Hu Hl).
  destruct (@takes_one (nrows d) (c, s) Hn) as [H|[H|[H|H]]];
    destruct H as (H1 & H2 & H3 & H4); tauto.
Qed.

Lemma designated_exists (d : DataFrame) (c : string) :
  unique_columns d -> In c (fill_columns (analysis d)) ->
  exists s, df_lookup d c = Some s.
Proof.
  intros Hu. rewrite analysis_lists. unfold fill_columns.
  cbn [MLH.categorical_low_missing MLH.categorical_high_missing
       MLH.numerical_missing MLH.date_missing].
  rewrite !in_app_iff, !(in_taken _ c Hu).
  intros [(s & H & _)|[(s & H & _)|[(s & H & _)|(s & H & _)]]]; now exists s.
Qed.

Lemma has_present_dec (s : Series) : has_present s \/ ~ has_present s.
Proof.
  unfold has_present.
  assert (P : forall m : list bool,
             (exists i, nth_error m i = Some false)
             \/ ~ (exists i, nth_error m i = Some false)).
  { induction m as [|x m IH].
    - right. intros ([|i] & Hi); discriminate.
    - destruct x; [|left; now exists 0%nat].
      destruct IH as [(i & Hi)|IH]; [left; now exists (S i)|].
      right. intros ([|i] & Hi); [discriminate|].
      apply IH. now exists i. }
  apply P.
Qed.

(** What the dispatch returns: the state its five loops leave, which the
    gender step does not change. *)
Lemma impute_all_result (self : MLH.Handler) :
  unique_columns (MLH.df self) ->
  let b := analysis (MLH.df self) in
  exists s1 s2 s3 s4 s5 : MLH.Handler,
    for_each (MLH.categorical_low_missing b) MLH.impute_low_column s1 = Ok s2
    /\ for_each (MLH.categorical_high_missing b) MLH.impute_high_column s2
       = Ok s3
    /\ (forall c, c <> "Name" ->
                  df_lookup (MLH.df s1) c = df_lookup (MLH.df self) c)
    /\ evolves (MLH.df s1) (MLH.df s2)
    /\ (forall c, ~ In c (MLH.categorical_low_missing b) ->
                  df_lookup (MLH.df s2) c = df_lookup (MLH.df s1) c)
    /\ (forall c, ~ In c (MLH.categorical_high_missing b) ->
                  df_lookup (MLH.df s3) c = df_lookup (MLH.df s2) c)
    /\ (forall c, ~ In c (MLH.numerical_missing b) ->
                  df_lookup (MLH.df s4) c = df_lookup (MLH.df s3) c)
    /\ (forall c, ~ In c (MLH.date_missing b) ->
                  df_lookup (MLH.df s5) c = df_lookup (MLH.df s4) c)
    /\ (s1 <- MLH.drop_pii_columns (MLH.analyze_missing_patterns self) ;;
        s2 <- MLH.impute_categorical_low_missing s1 ;;
        s3 <- MLH.impute_categorical_high_missing s2 ;;
        s4 <- MLH.impute_numerical_data s3 ;;
        MLH.impute_date_data s4) = Ok s5
    /\ MLH.handle_gender_missing s5 = s5
    /\ MLH.impute_all self = Ok s5.
Proof.
  intros Hu. cbv zeta.
  destruct (impute_all_by_phase self Hu)
    as (s1 & s2 & s3 & s4 & s5 & E1 & E2 & E3 & E4 & E5
        & (B1 & B2 & B3 & B4) & F1 & (Ev2 & _ & _ & Ev5)
        & Fr2 & Fr3 & Fr4 & Fr5 & Fi).
  destruct (impute_all_phases self E1 E2 E3 E4 E5 B1 B2 B3 B4) as [Hph Hall].
  assert (Idle : MLH.handle_gender_missing s5 = s5).
  { apply handle_gender_missing_idle. intros t Ht.
    destruct (df_lookup (MLH.df self) "Gender") as [s|] eqn:Hs.
    - assert (Hs1 : df_lookup (MLH.df s1) "Gender" = Some s)
        by (rewrite F1 by discriminate; exact Hs).
      destruct (Ev5 _ _ Hs1) as (t' & Ht' & D & Len & Same).
      assert (t' = t) by congruence. subst t'.
      destruct Same as [->|Hn]; [|now left].
      destruct (Nat.eq_dec (count_true (isna s)) 0) as [Z|NZ]; [now left|].
      destruct (has_present_dec s) as [Hp|Hp]; [|now right].
      assert (Hin : In "Gender" (fill_columns (analysis (MLH.df self))))
        by (apply designated_when_missing with (s := s);
            [exact Hu|exact Hs|discriminate|exact NZ]).
      destruct (Fi _ _ Hin Hs Hp) as (u & Hu' & Hn).
      assert (u = s) by congruence. subst u. now left.
    - exfalso.
      assert (Hnot : ~ In "Gender" (fill_columns (analysis (MLH.df self)))).
      { intros Hin. destruct (designated_exists _ Hu Hin) as (s & Hs').
        congruence. }
      unfold fill_columns in Hnot. rewrite !in_app_iff in Hnot.
      rewrite Fr5, Fr4, Fr3, Fr2, F1 in Ht by (try discriminate; tauto).
      congruence. }
  exists s1, s2, s3, s4, s5.
  split; [exact E2|]. split; [exact E3|]. split; [exact F1|].
  split; [exact Ev2|].
  split; [exact Fr2|]. split; [exact Fr3|]. split; [exact Fr4|].
  split; [exact Fr5|]. split; [exact Hph|]. split; [exact Idle|].
  now rewrite Hall, Idle.
Qed.



Lemma fillna_text_cells (v : string) (xs : list (option string)) :
  fillna_text v (SObject xs) = Ok (SObject (fillna (Some v) xs)).
Proof.
  unfold fillna_text. cbn [assign_text isna fillna]. f_equal. f_equal.
  rewrite assign_where_map. apply map_ext. now intros [t|].
Qed.

Lemma impute_low_column_text (c : string) (mid after : MLH.Handler)
  (xs : list (option string)) (m : string) :
  MLH.impute_low_column c mid = Ok after ->
  df_lookup (MLH.df mid) c = Some (SObject xs) ->
  count_true (map is_none xs) <> 0%nat ->
  mode String.eqb string_ltb xs = Some m ->
  df_lookup (MLH.df after) c = Some (SObject (fillna (Some m) xs)).
Proof.
  intros Hrun Hl Hk Hm. unfold MLH.impute_low_column in Hrun.
  rewrite Hl in Hrun. cbn [isna fill_with_mode] in Hrun.
  apply Nat.eqb_neq in Hk. rewrite Hk, Hm in Hrun.
  injection Hrun as <-. rewrite record_imputation_df.
  cbn [MLH.df MLH.with_df]. apply df_lookup_set_same.
Qed.

Lemma impute_high_column_text (c : string) (mid after : MLH.Handler)
  (xs : list (option string)) :
  MLH.impute_high_column c mid = Ok after ->
  df_lookup (MLH.df mid) c = Some (SObject xs) ->
  count_true (map is_none xs) <> 0%nat ->
  df_lookup (MLH.df after) c
  = Some (SObject (fillna (Some (high_fill_value c xs)) xs)).
Proof.
  intros Hrun Hl Hk. unfold MLH.impute_high_column in Hrun.
  rewrite Hl in Hrun. cbn [isna] in Hrun.
  apply Nat.eqb_neq in Hk. rewrite Hk in Hrun.
  assert (V : (if String.eqb c "Insurance Provider"
               then fillna_text "Self-Pay" (SObject xs)
               else if String.eqb c "Medication"
                    then fillna_text "No Medication" (SObject xs)
                    else if String.eqb c "Admission Type"
                         then match fill_with_mode (SObject xs) with
                              | Some filled => Ok filled
                              | None => fillna_text "Emergency" (SObject xs)
                              end
                         else fillna_text "Unknown" (SObject xs))
              = Ok (SObject (fillna (Some (high_fill_value c xs)) xs))).
  { unfold high_fill_value.
    destruct (String.eqb c "Insurance Provider"); [apply fillna_text_cells|].
    destruct (String.eqb c "Medication"); [apply fillna_text_cells|].
    destruct (String.eqb c "Admission Type"); [|apply fillna_text_cells].
    cbn [fill_with_mode].
    destruct (mode String.eqb string_ltb xs);
      [reflexivity|apply fillna_text_cells]. }
  rewrite V in Hrun. cbn [bind] in Hrun.
  injection Hrun as <-. rewrite record_imputation_df.
  cbn [MLH.df MLH.with_df]. apply df_lookup_set_same.
Qed.

Lemma some_present_count (A : Type) (xs : list (option A)) :
  (count_true (map is_none xs) < List.length xs)%nat -> some_present xs.
Proof.
  unfold some_present. induction xs as [|[x|] r IH]; cbn [map List.length].
  - intros H. cbn in H. lia.
  - intros _. now exists 0%nat.
  - rewrite count_true_cons. cbn [is_none]. intros H.
    destruct IH as (i & Hi); [lia|]. now exists (S i).
Qed.

(** X22.  What the pipeline writes into the missing cells of a text
    column, [Name] and the columns named as dates apart, on a rectangular
    frame with distinct column names: when fewer than one in twenty of the
    cells are missing, the most frequent present text; otherwise
    "Self-Pay" for [Insurance Provider], "No Medication" for [Medication],
    the most frequent text for [Admission Type], and "Unknown" for any
    other column, [Gender] included.  The present cells are as they
    were. *)
Theorem categorical_fill_by_share :
  forall (self : MLH.Handler) (c : string) (xs : list (option string)),
    unique_columns (MLH.df self) ->
    rectangular (MLH.df self) = true ->
    c <> "Name" ->
    contains_sub "date" (PyStr.lower c) = false ->
    df_lookup (MLH.df self) c = Some (SObject xs) ->
    let k := count_true (map is_none xs) in
    (0 < k)%nat ->
    exists (self' : MLH.Handler) (v : string),
      MLH.impute_all self = Ok self'
      /\ df_lookup (MLH.df self') c = Some (SObject (fillna (Some v) xs))
      /\ ((20 * k < List.length xs)%nat ->
          mode String.eqb string_ltb xs = Some v)
      /\ ((List.length xs <= 20 * k)%nat -> v = high_fill_value c xs).
Proof.
  intros self c xs Hu Hr Hc Hdate Hl k Hk.
  set (d := MLH.df self) in *. set (b := analysis d).
  destruct (impute_all_result self Hu)
    as (s1 & s2 & s3 & s4 & s5 & E2 & E3 & F1 & Ev2 & Fr2 & Fr3 & Fr4 & Fr5
        & _ & _ & Hall).
  fold d in F1. fold d b in E2, E3, Fr2, Fr3, Fr4, Fr5.
  destruct (analysis_ok Hu) as [Hp _ Oklow Okhigh _ _].
  fold d b in Hp, Oklow, Okhigh.
  assert (Hn : needs_fill (c, SObject xs) = true).
  { apply needs_fill_spec. split; [exact Hc|].
    unfold no_missing. cbn [isna]. fold k. lia. }
  assert (Hlen : List.length xs = nrows d)
    by exact (rectangular_lookup _ _ Hr Hl).
  assert (Hpos : (0 < nrows d)%nat).
  { pose proof (count_true_le_length (map is_none xs)) as L.
    rewrite length_map in L. fold k in L. lia. }
  assert (Hshare : low_share (nrows d) (c, SObject xs)
                   = (20 * k <? List.length xs)%nat).
  { unfold low_share. cbn [snd isna]. fold k.
    now rewrite (missing_pct_low _ Hpos), Hlen. }
  assert (Hmember : forall f, In c (map fst (filter f d)) <->
                              f (c, SObject xs) = true)
    by (intros f; exact (@in_taken_at f d c (SObject xs) Hu Hl)).
  assert (Hlists : b = analysis d) by reflexivity.
  rewrite analysis_lists in Hlists.
  assert (Lnum : ~ In c (MLH.numerical_missing b)).
  { rewrite Hlists. cbn [MLH.numerical_missing]. rewrite Hmember.
    unfold takes_number. cbn [snd MLH.is_number].
    rewrite andb_false_r. discriminate. }
  assert (Ldate : ~ In c (MLH.date_missing b)).
  { rewrite Hlists. cbn [MLH.date_missing]. rewrite Hmember.
    unfold takes_date, date_like. cbn [fst snd MLH.is_datetime].
    rewrite Hdate, Hn. discriminate. }
  assert (Hlow : In c (MLH.categorical_low_missing b) <->
                 (20 * k < List.length xs)%nat).
  { rewrite Hlists. cbn [MLH.categorical_low_missing]. rewrite Hmember.
    unfold takes_low, date_like. cbn [fst snd MLH.is_datetime MLH.is_object].
    rewrite Hdate, Hn, Hshare. cbn [orb negb andb]. apply Nat.ltb_lt. }
  assert (Hhi : In c (MLH.categorical_high_missing b) <->
                (List.length xs <= 20 * k)%nat).
  { rewrite Hlists. cbn [MLH.categorical_high_missing]. rewrite Hmember.
    unfold takes_high, date_like. cbn [fst snd MLH.is_datetime MLH.is_object].
    rewrite Hdate, Hn, Hshare. cbn [orb negb andb].
    rewrite negb_true_iff. apply Nat.ltb_ge. }
  assert (Hl1 : df_lookup (MLH.df s1) c = Some (SObject xs))
    by (rewrite F1 by exact Hc; exact Hl).
  assert (Kne : count_true (map is_none xs) <> 0%nat) by (fold k; lia).
  destruct (Nat.lt_ge_cases (20 * k) (List.length xs)) as [Hlt|Hge].
  - (* the low list: the mode *)
    assert (Hin : In c (MLH.categorical_low_missing b)) by now apply Hlow.
    assert (Hnh : ~ In c (MLH.categorical_high_missing b))
      by (rewrite Hhi; lia).
    assert (Hnd : NoDup (MLH.categorical_low_missing b)).
    { rewrite Hlists. cbn [MLH.categorical_low_missing].
      now apply NoDup_map_filter. }
    assert (P : forall c', In c' (MLH.categorical_low_missing b) ->
                           exists s, df_lookup (MLH.df s1) c' = Some s
                                     /\ (fun _ : Series => true) s = true).
    { intros c' Hc'. destruct (Oklow c' Hc') as (Hne & s & L & _).
      exists s. split; [now rewrite F1|reflexivity]. }
    destruct (@phase_column _ _ impute_low_column_spec
                            (fun _ _ _ => eq_refl) _ (MLH.df s1) c
                            Hnd Hin P s1 (evolves_refl _))
      as (mid & after & final & Eb & Ef & Lm & Lf).
    assert (final = s2) by congruence. subst final.
    assert (Hsome : some_present xs) by (apply some_present_count; fold k; lia).
    destruct (@mode_some _ String.eqb string_ltb xs Hsome) as (m & Hm).
    rewrite Hl1 in Lm.
    pose proof (@impute_low_column_text c mid after xs m Eb Lm Kne Hm) as La.
    exists s5, m. split; [exact Hall|]. split.
    + now rewrite Fr5, Fr4, Fr3, Lf by assumption.
    + split; [intros _; exact Hm|intros H; lia].
  - (* the high list: the sentinel of the column *)
    assert (Hin : In c (MLH.categorical_high_missing b)) by now apply Hhi.
    assert (Hnl : ~ In c (MLH.categorical_low_missing b))
      by (rewrite Hlow; lia).
    assert (Hnd : NoDup (MLH.categorical_high_missing b)).
    { rewrite Hlists. cbn [MLH.categorical_high_missing].
      now apply NoDup_map_filter. }
    assert (P : forall c', In c' (MLH.categorical_high_missing b) ->
                           exists s, df_lookup (MLH.df s1) c' = Some s
                                     /\ MLH.is_object s = true).
    { intros c' Hc'. destruct (Okhigh c' Hc') as (Hne & s & L & O).
      exists s. split; [now rewrite F1|exact O]. }
    destruct (@phase_column _ _ impute_high_column_spec is_object_dtype
                            _ (MLH.df s1) c Hnd Hin P s2 Ev2)
      as (mid & after & final & Eb & Ef & Lm & Lf).
    assert (final = s3) by congruence. subst final.
    rewrite (Fr2 c Hnl), Hl1 in Lm.
    pose proof (@impute_high_column_text c mid after xs Eb Lm Kne) as La.
    exists s5, (high_fill_value c xs). split; [exact Hall|]. split.
    + now rewrite Fr5, Fr4, Lf by assumption.
    + split; [intros H; lia|reflexivity].
Qed.

Lemma categorical_fill_by_share_witness :
  exists (self' : MLH.Handler) (v : string),
    MLH.impute_all (handler_on mixed_missing) = Ok self'
    /\ df_lookup (MLH.df self') "Gender"
       = Some (SObject (fillna (Some v)
                               [Some "Male"; None; Some "Male"; Some "Female"]))
    /\ v = "Unknown".
Proof.
  destruct (@categorical_fill_by_share
              (handler_on mixed_missing) "Gender"
              [Some "Male"; None; Some "Male"; Some "Female"]
              unique_columns_mixed_missing eq_refl)
    as (self' & v & Hrun & Hl & _ & Hhigh);
    [discriminate|reflexivity|reflexivity|cbn; lia|].
  exists self', v. split; [exact Hrun|]. split; [exact Hl|].
  apply Hhigh. cbn. lia.
Defined.

(* ================================================================== *)
(** * Forward and backward fill, cell by cell *)
(* ================================================================== *)

Section FillSteps.

Variable A : Type.

Implicit Types xs : list (option A).

Lemma ffill_from_head (prev : option A) xs :
  nth_error xs 0 = Some None ->
  nth_error (ffill_from prev xs) 0 = Some prev.
Proof. destruct xs as [|[x|] r]; try discriminate. reflexivity. Qed.

Lemma ffill_from_cons (prev : option A) (x : option A) xs :
  ffill_from prev (x :: xs)
  = (match x with Some _ => x | None => prev end)
      :: ffill_from (match x with Some _ => x | None => prev end) xs.
Proof. now destruct x. Qed.

(** After a forward fill a cell that was missing repeats the cell above
    it. *)
Lemma ffill_from_step (prev : option A) xs (i : nat) :
  nth_error xs (S i) = Some None ->
  nth_error (ffill_from prev xs) (S i) = nth_error (ffill_from prev xs) i.
Proof.
  revert prev i. induction xs as [|x r IH]; intros prev i; [discriminate|].
  rewrite ffill_from_cons. cbn [nth_error]. intros H.
  destruct i as [|j].
  - now rewrite (ffill_from_head _ _ H).
  - cbn [nth_error]. now apply IH.
Qed.

Lemma ffill_from_first_present xs :
  hd_error (present (ffill_from None xs)) = hd_error (present xs).
Proof.
  induction xs as [|[x|] r IH]; [reflexivity|reflexivity|].
  cbn [ffill_from present]. exact IH.
Qed.

Lemma last_default (B : Type) (l : list B) (d d' : B) :
  l <> [] -> last l d = last l d'.
Proof.
  induction l as [|x r IH]; [easy|]. intros _.
  destruct r as [|y r']; [reflexivity|].
  change (last (y :: r') d = last (y :: r') d'). apply IH. discriminate.
Qed.

Lemma ffill_from_snoc (prev : option A) xs (x : option A) :
  ffill_from prev (xs ++ [x])
  = (ffill_from prev xs
     ++ [match x with
         | Some _ => x
         | None => last (ffill_from prev xs) prev
         end])%list.
Proof.
  revert prev. induction xs as [|y r IH]; intros prev.
  - now destruct x.
  - cbn [app]. rewrite !ffill_from_cons, IH. cbn [app]. f_equal. f_equal.
    destruct x as [x|]; [reflexivity|]. f_equal.
    set (p := match y with Some _ => y | None => prev end).
    destruct (ffill_from p r) as [|z l] eqn:E; [reflexivity|].
    change (last (z :: l) p = last (z :: l) prev).
    apply last_default. discriminate.
Qed.

Lemma hd_rev (B : Type) (l : list B) (d : B) : hd d (rev l) = last l d.
Proof.
  induction l as [|x r IH]; [reflexivity|].
  cbn [rev]. destruct r as [|y r']; [reflexivity|].
  change (last (x :: y :: r') d) with (last (y :: r') d). rewrite <- IH.
  cbn [rev]. destruct (rev r' ++ [y])%list eqn:E; [|reflexivity].
  destruct (rev r'); discriminate.
Qed.

Lemma bfill_cons (x : option A) xs :
  bfill (x :: xs)
  = (match x with Some _ => x | None => hd None (bfill xs) end) :: bfill xs.
Proof.
  unfold bfill, ffill. cbn [rev]. rewrite ffill_from_snoc, rev_app_distr.
  cbn [rev app]. f_equal. destruct x; [reflexivity|]. now rewrite hd_rev.
Qed.

Lemma bfill_length xs : List.length (bfill xs) = List.length xs.
Proof.
  unfold bfill, ffill. now rewrite length_rev, ffill_from_length, length_rev.
Qed.

(** After a backward fill a cell that was missing repeats the cell below
    it. *)
Lemma bfill_step xs (i : nat) (w : option A) :
  nth_error xs i = Some None -> nth_error xs (S i) = Some w ->
  nth_error (bfill xs) i = nth_error (bfill xs) (S i).
Proof.
  revert i. induction xs as [|x r IH]; intros i; [destruct i; discriminate|].
  rewrite bfill_cons. destruct i as [|j]; cbn [nth_error].
  - intros [= ->] Hw.
    pose proof (bfill_length r) as L.
    destruct (bfill r) as [|y l]; [destruct r; discriminate|reflexivity].
  - apply IH.
Qed.

Lemma bfill_first_present xs :
  hd None (bfill xs) = hd_error (present xs).
Proof.
  induction xs as [|[x|] r IH]; [reflexivity| |]; rewrite bfill_cons;
    [reflexivity|exact IH].
Qed.

Lemma bfill_kept xs : Forall2 kept xs (bfill xs).
Proof.
  unfold bfill. rewrite <- (rev_involutive xs) at 1.
  apply kept_rev. apply kept_ffill_from.
Qed.

(** Forward fill, then backward fill: a missing cell below the first row
    repeats the cell above it, and a missing first cell takes the first
    present value. *)
Lemma bfill_ffill_step xs (i : nat) :
  nth_error xs (S i) = Some None ->
  nth_error (bfill (ffill xs)) (S i) = nth_error (bfill (ffill xs)) i.
Proof.
  intros H. unfold ffill.
  pose proof (ffill_from_step None xs i H) as Z.
  set (z := ffill_from None xs) in *.
  assert (Hlen : (S i < List.length z)%nat).
  { unfold z. rewrite ffill_from_length. apply nth_error_Some. congruence. }
  destruct (nth_error z i) as [[v|]|] eqn:Zi.
  - rewrite (kept_row _ (bfill_kept z) Z), (kept_row _ (bfill_kept z) Zi).
    reflexivity.
  - symmetry. apply bfill_step with (w := None); assumption.
  - apply nth_error_None in Zi. lia.
Qed.

Lemma bfill_ffill_head xs :
  xs <> [] ->
  nth_error (bfill (ffill xs)) 0 = Some (hd_error (present xs)).
Proof.
  intros Hne.
  pose proof (bfill_first_present (ffill xs)) as H.
  unfold ffill in H at 2. rewrite ffill_from_first_present in H.
  rewrite <- H.
  pose proof (bfill_ffill_length xs) as L.
  destruct (bfill (ffill xs)) as [|y l]; [|reflexivity].
  destruct xs; [congruence|discriminate].
Qed.

End FillSteps.

(** X23.  The loop body of [impute_date_data] on a datetime column with a
    missing cell, whatever the name of the column: the column keeps its
    length and its present dates; a missing date below the first row
    becomes the date the row above ends up with, and a missing date in the
    first row becomes the first present date of the column (it stays
    missing when there is none).  The fill is recorded with the number of
    cells that were missing. *)
Theorem date_fill_repeats_previous_row :
  forall (self : MLH.Handler) (col : string) (xs : list (option Z)),
    df_lookup (MLH.df self) col = Some (SDatetime xs) ->
    (0 < count_true (map is_none xs))%nat ->
    exists (self' : MLH.Handler) (ys : list (option Z)),
      MLH.impute_date_column col self = Ok self'
      /\ df_lookup (MLH.df self') col = Some (SDatetime ys)
      /\ List.length ys = List.length xs
      /\ (forall i t, nth_error xs i = Some (Some t) ->
                      nth_error ys i = Some (Some t))
      /\ (forall i, nth_error xs (S i) = Some None ->
                    nth_error ys (S i) = nth_error ys i)
      /\ nth_error ys 0 = Some (hd_error (present xs))
      /\ (forall c, c <> col ->
                    df_lookup (MLH.df self') c = df_lookup (MLH.df self) c)
      /\ MLH.strategies_applied self'
         = (MLH.strategies_applied self ++ [MLH.ForwardBackwardFill col])%list
      /\ MLH.rows_affected self'
         = MLH.dict_set (MLH.rows_affected self) col
                        (count_true (map is_none xs)).
Proof.
  intros self col xs Hl Hk. unfold MLH.impute_date_column.
  rewrite Hl. cbn [isna].
  destruct (count_true (map is_none xs) =? 0)%nat eqn:E;
    [apply Nat.eqb_eq in E; lia|].
  assert (Hne : xs <> []) by (intros ->; cbn in Hk; lia).
  exists (MLH.record_imputation
            (MLH.with_df self
               (df_set (MLH.df self) col (SDatetime (bfill (ffill xs)))))
            (MLH.ForwardBackwardFill col) col (count_true (map is_none xs))),
    (bfill (ffill xs)).
  split; [now destruct (contains_sub "admission" (PyStr.lower col))|].
  cbn [MLH.df MLH.record_imputation MLH.extend_processed
       MLH.set_rows_affected MLH.add_strategy MLH.with_df
       MLH.strategies_applied MLH.rows_affected].
  split; [apply df_lookup_set_same|]. split; [apply bfill_ffill_length|].
  split; [intros i t; apply kept_row, kept_bfill_ffill|].
  split; [intros i; apply bfill_ffill_step|].
  split; [now apply bfill_ffill_head|].
  split; [intros c Hc; apply df_lookup_set_other; congruence|].
  split; reflexivity.
Qed.

Lemma date_fill_repeats_previous_row_witness :
  exists (self' : MLH.Handler) (ys : list (option Z)),
    MLH.impute_date_column "Discharge Date" (handler_on mixed_missing)
    = Ok self'
    /\ df_lookup (MLH.df self') "Discharge Date" = Some (SDatetime ys)
    /\ nth_error ys 0 = Some (Some (Calendar.timestamp 2024 5 1))
    /\ nth_error ys 3 = nth_error ys 2.
Proof.
  destruct (@date_fill_repeats_previous_row
              (handler_on mixed_missing) "Discharge Date"
              [None; Some (Calendar.timestamp 2024 5 1); None; None] eq_refl)
    as (self' & ys & Hrun & Hl & _ & _ & Hstep & Hhead & _); [cbn; lia|].
  exists self', ys. split; [exact Hrun|]. split; [exact Hl|].
  split; [exact Hhead|]. now apply Hstep.
Defined.

(* ================================================================== *)
(** * Rows and columns through the imputation pipeline *)
(* ================================================================== *)

Lemma all_rows_set (n : nat) (d : DataFrame) (k : string) (v : Series) :
  all_rows n d -> slen v = n -> all_rows n (df_set d k v).
Proof.
  unfold all_rows. intros H Hv. induction H as [|[c s] r Hp Hr IH].
  - cbn [df_set]. constructor; [exact Hv|constructor].
  - cbn [df_set]. destruct (String.eqb c k); constructor; assumption.
Qed.

Lemma all_rows_lookup (n : nat) (d : DataFrame) (c : string) (s : Series) :
  all_rows n d -> df_lookup d c = Some s -> slen s = n.
Proof.
  unfold all_rows. intros H Hl. apply lookup_in in Hl.
  rewrite Forall_forall in H. exact (H _ Hl).
Qed.

Lemma rectangular_all_rows (d : DataFrame) :
  rectangular d = true -> all_rows (nrows d) d.
Proof.
  unfold rectangular, all_rows. intros H. rewrite forallb_forall in H.
  apply Forall_forall. intros p Hp. now apply Nat.eqb_eq, H.
Qed.

Lemma all_rows_drop (n : nat) (d : DataFrame) (cols : list string) :
  all_rows n d -> all_rows n (df_drop d cols).
Proof.
  unfold all_rows, df_drop. intros H. rewrite Forall_forall in *.
  intros p Hp. apply filter_In in Hp. now apply H.
Qed.

Lemma keeps_present_length (s s' : Series) :
  keeps_present s s' -> slen s' = slen s.
Proof.
  unfold keeps_present. intros H. apply kept_length in H.
  now rewrite !cells_length in H.
Qed.

Lemma all_rows_keeps (n : nat) (d d' : DataFrame) :
  frame_keeps d d' -> all_rows n d -> all_rows n d'.
Proof.
  unfold all_rows. induction 1 as [|p q r r' [_ Hk] _ IH]; intros H;
    [constructor|].
  inversion H as [|? ? Hp Hr]; subst. constructor; [|now apply IH].
  now rewrite (keeps_present_length Hk).
Qed.

Lemma in_columns_has (d : DataFrame) (c : string) :
  In c (df_columns d) <-> df_has d c = true.
Proof.
  unfold df_columns, df_has. induction d as [|[k s] r IH]; cbn [map In df_lookup fst].
  - split; [easy|discriminate].
  - destruct (String.eqb_spec k c) as [->|Hk].
    + split; [reflexivity|now left].
    + rewrite <- IH. split; [intros [H|H]; [congruence|exact H]|now right].
Qed.

Lemma in_columns_set (d : DataFrame) (k : string) (v : Series) (c : string) :
  In c (df_columns (df_set d k v)) <-> In c (df_columns d) \/ c = k.
Proof.
  unfold df_columns. induction d as [|[k0 s0] r IH]; cbn [df_set map In fst].
  - split; [intros [H|[]]; now right|intros [[] | H]; now left].
  - destruct (String.eqb_spec k0 k) as [->|Hk]; cbn [map In fst].
    + split; [tauto|]. intros [H | ->]; [exact H|now left].
    + rewrite IH. tauto.
Qed.

Lemma in_columns_set_existing (d : DataFrame) (k : string) (v s : Series)
  (c : string) :
  df_lookup d k = Some s ->
  In c (df_columns (df_set d k v)) <-> In c (df_columns d).
Proof.
  intros Hl. rewrite in_columns_set. split; [|now left].
  intros [H | ->]; [exact H|]. apply in_columns_has. now apply df_has_lookup with (s := s).
Qed.

(** [load_data] keeps the columns and their lengths. *)
Lemma load_data_keeps (parse : string -> option Z) (raw : DataFrame)
  (self self' : MLH.Handler) (n : nat) :
  MLH.load_data parse raw self = Ok self' ->
  (all_rows n raw -> all_rows n (MLH.df self'))
  /\ (forall c, In c (df_columns (MLH.df self')) <-> In c (df_columns raw)).
Proof.
  unfold MLH.load_data, MLH.date_cols. cbn [for_each].
  assert (Step : forall (col : string) (d d' : DataFrame),
             match df_lookup d col with
             | Some s => s' <- to_datetime parse s ;; Ok (df_set d col s')
             | None => Ok d
             end = Ok d' ->
             (all_rows n d -> all_rows n d')
             /\ (forall c, In c (df_columns d') <-> In c (df_columns d))).
  { intros col d d'. destruct (df_lookup d col) as [s|] eqn:L.
    - destruct (to_datetime parse s) as [s'|e] eqn:T; [|discriminate].
      cbn [bind]. intros [= <-]. split.
      + intros H. apply all_rows_set; [exact H|].
        rewrite (to_datetime_length _ _ T). now apply all_rows_lookup with (d := d) (c := col).
      + intros c. now apply in_columns_set_existing with (s := s).
    - intros [= <-]. now split. }
  match goal with
  | |- bind (bind ?r _) _ = _ -> _ => destruct r as [d1|e] eqn:E1
  end; [|discriminate].
  cbn [bind].
  match goal with
  | |- bind (bind ?r _) _ = _ -> _ => destruct r as [d2|e] eqn:E2
  end; [|discriminate].
  cbn [bind]. intros [= <-]. cbn [MLH.df MLH.with_df].
  destruct (Step _ _ _ E1) as [A1 C1]. destruct (Step _ _ _ E2) as [A2 C2].
  split; [auto|]. intros c. now rewrite C2, C1.
Qed.

Lemma take_where_length (A : Type) (mask : list bool) (other xs : list A)
  (n : nat) :
  List.length mask = n -> List.length other = n -> List.length xs = n ->
  List.length (take_where mask other xs) = n.
Proof.
  intros Hm Ho Hx. unfold take_where.
  rewrite length_map, !length_combine. lia.
Qed.

Lemma verify_date_fix_df (self self' : MLH.Handler) :
  MLH.verify_date_fix self = Ok self' -> MLH.df self' = MLH.df self.
Proof.
  unfold MLH.verify_date_fix.
  destruct (df_get (MLH.df self) "Discharge Date") as [dis|e]; [|discriminate].
  destruct (df_get (MLH.df self) "Date of Admission") as [adm|e];
    [|discriminate].
  cbn [bind].
  destruct (timedelta_days dis adm) as [los|e]; [|discriminate]. cbn [bind].
  destruct (count_true (negative_days los) =? 0)%nat; now intros [= <-].
Qed.

(** [fix_date_logic_errors] keeps the columns and their lengths. *)
Lemma fix_date_logic_errors_keeps (self self' : MLH.Handler) (n : nat) :
  MLH.fix_date_logic_errors self = Ok self' ->
  (all_rows n (MLH.df self) -> all_rows n (MLH.df self'))
  /\ (forall c, In c (df_columns (MLH.df self'))
                <-> In c (df_columns (MLH.df self))).
Proof.
  unfold MLH.fix_date_logic_errors.
  destruct (df_has (MLH.df self) "Date of Admission"
            && df_has (MLH.df self) "Discharge Date");
    [|intros [= <-]; now split].
  unfold df_get.
  destruct (df_lookup (MLH.df self) "Discharge Date") as [dis|] eqn:Ld;
    [|discriminate].
  destruct (df_lookup (MLH.df self) "Date of Admission") as [adm|] eqn:La;
    [|discriminate].
  cbn [bind].
  destruct (timedelta_days dis adm) as [los|e] eqn:T; [|discriminate].
  cbn [bind].
  destruct (0 <? count_true (negative_days los))%nat;
    [|intros [= <-]; now split].
  destruct dis as [xd|xd|xd], adm as [xa|xa|xa]; cbn [MLH.swap_dates bind];
    try discriminate.
  intros H. apply verify_date_fix_df in H.
  cbn [MLH.df MLH.set_rows_affected MLH.add_strategy MLH.with_df] in H.
  rewrite H. cbn [timedelta_days] in T. injection T as <-.
  split.
  - intros Hall.
    pose proof (@all_rows_lookup _ _ _ _ Hall Ld) as Nd.
    pose proof (@all_rows_lookup _ _ _ _ Hall La) as Na.
    cbn [slen] in Nd, Na.
    assert (Nm : List.length
                   (negative_days
                      (map (fun p : option Z * option Z =>
                              days_between (fst p) (snd p)) (combine xd xa)))
                 = n)
      by (unfold negative_days; rewrite !length_map, length_combine; lia).
    apply all_rows_set; [apply all_rows_set; [exact Hall|]|];
      cbn [slen]; now apply take_where_length.
  - intros c.
    rewrite in_columns_set, in_columns_set. split; [|tauto].
    intros [[Hc| ->]| ->]; [exact Hc| |];
      apply in_columns_has;
      [apply df_has_lookup with (s := SDatetime xa)
      |apply df_has_lookup with (s := SDatetime xd)]; assumption.
Qed.

Lemma los_cells_rows (dis adm : list (option Z)) (n : nat) :
  List.length dis = n -> List.length adm = n ->
  List.length (map (option_map inject_Z) (los_cells dis adm)) = n.
Proof.
  intros Hd Ha. unfold los_cells. rewrite !length_map, length_combine. lia.
Qed.

Lemma binned_cells_length (s : Series) (xs : list (option Q)) :
  binned_cells s = Ok xs -> List.length xs = slen s.
Proof.
  destruct s as [ys|ys|ys]; cbn [binned_cells].
  - destruct (forallb is_none ys); [|discriminate].
    intros [= <-]. apply length_map.
  - now intros [= <-].
  - discriminate.
Qed.

(** [generate_ml_ready_features] keeps the columns and the lengths, and
    adds feature columns of the same length only. *)
Lemma generate_ml_ready_features_keeps (self self' : MLH.Handler) (n : nat) :
  MLH.generate_ml_ready_features self = Ok self' ->
  (all_rows n (MLH.df self) -> all_rows n (MLH.df self'))
  /\ (forall c, In c (df_columns (MLH.df self)) ->
                In c (df_columns (MLH.df self')))
  /\ (forall c, In c (df_columns (MLH.df self')) ->
                In c (df_columns (MLH.df self)) \/ In c feature_columns).
Proof.
  unfold MLH.generate_ml_ready_features.
  destruct (MLH.feature_length_of_stay self) as [f1|e] eqn:F1; [|discriminate].
  cbn [bind].
  destruct (MLH.feature_age_group f1) as [f2|e] eqn:F2; [|discriminate].
  cbn [bind]. intros F3.
  assert (S1 : (all_rows n (MLH.df self) -> all_rows n (MLH.df f1))
               /\ (forall c, In c (df_columns (MLH.df self)) ->
                             In c (df_columns (MLH.df f1)))
               /\ (forall c, In c (df_columns (MLH.df f1)) ->
                             In c (df_columns (MLH.df self)) \/ c = "Length_of_Stay")).
  { destruct (feature_length_of_stay_sets _ F1)
      as [->|(dis & adm & Hd & Ha & ->)]; [split; [auto|split; auto]|].
    split.
    - intros Hall. apply all_rows_set; [exact Hall|]. cbn [slen].
      apply los_cells_rows;
        [exact (@all_rows_lookup _ _ _ _ Hall Hd)|exact (@all_rows_lookup _ _ _ _ Hall Ha)].
    - split; intros c; rewrite in_columns_set; tauto. }
  assert (S2 : (all_rows n (MLH.df f1) -> all_rows n (MLH.df f2))
               /\ (forall c, In c (df_columns (MLH.df f1)) ->
                             In c (df_columns (MLH.df f2)))
               /\ (forall c, In c (df_columns (MLH.df f2)) ->
                             In c (df_columns (MLH.df f1)) \/ c = "Age_Group")).
  { unfold MLH.feature_age_group in F2.
    destruct (df_lookup (MLH.df f1) "Age") as [age|] eqn:La;
      [|injection F2 as <-; split; [auto|split; auto]].
    destruct (binned_cells age) as [ages|e] eqn:B; [|discriminate].
    cbn [bind] in F2. injection F2 as <-.
    cbn [MLH.df MLH.add_strategy MLH.with_df]. split.
    - intros Hall. apply all_rows_set; [exact Hall|]. cbn [slen].
      rewrite length_map, (binned_cells_length _ B).
      exact (@all_rows_lookup _ _ _ _ Hall La).
    - split; intros c; rewrite in_columns_set; tauto. }
  assert (S3 : (all_rows n (MLH.df f2) -> all_rows n (MLH.df self'))
               /\ (forall c, In c (df_columns (MLH.df f2)) ->
                             In c (df_columns (MLH.df self')))
               /\ (forall c, In c (df_columns (MLH.df self')) ->
                             In c (df_columns (MLH.df f2)) \/ c = "Billing_Category")).
  { unfold MLH.feature_billing_category in F3.
    destruct (df_lookup (MLH.df f2) "Billing Amount") as [billing|] eqn:Lb;
      [|injection F3 as <-; split; [auto|split; auto]].
    destruct (statistic_cells billing) as [amounts|e] eqn:B; [|discriminate].
    cbn [bind] in F3.
    destruct (quantile (1 # 4) amounts) as [q25|]; [|discriminate].
    destruct (quantile (1 # 2) amounts) as [q50|]; [|discriminate].
    destruct (quantile (3 # 4) amounts) as [q75|]; [|discriminate].
    destruct (MLH.increasing_edges q25 q50 q75); [|discriminate].
    injection F3 as <-.
    cbn [MLH.df MLH.add_strategy MLH.with_df]. split.
    - intros Hall. apply all_rows_set; [exact Hall|]. cbn [slen].
      rewrite length_map, (statistic_cells_length _ B).
      exact (@all_rows_lookup _ _ _ _ Hall Lb).
    - split; intros c; rewrite in_columns_set; tauto. }
  destruct S1 as (A1 & C1 & D1), S2 as (A2 & C2 & D2), S3 as (A3 & C3 & D3).
  split; [auto|]. split; [auto|].
  intros c Hc. unfold feature_columns. cbn [In].
  apply D3 in Hc. destruct Hc as [Hc|Hc]; [|auto].
  apply D2 in Hc. destruct Hc as [Hc|Hc]; [|auto].
  apply D1 in Hc. destruct Hc as [Hc|Hc]; auto.
Qed.

(** X24.  [run_ml_imputation_pipeline] on a rectangular frame, when it
    returns: no row is added or removed, so every column of the returned
    frame, the engineered ones included, has as many cells as the input has
    rows; the column [Name] is gone, every other column of the input is
    still there, and the only new columns are [Length_of_Stay],
    [Age_Group] and [Billing_Category]. *)
Theorem ml_pipeline_keeps_rows :
  forall (parse : string -> option Z) (raw : DataFrame) (self : MLH.Handler)
         (success : bool),
    rectangular raw = true ->
    MLH.run_ml_imputation_pipeline parse raw = Ok (self, success) ->
    (forall c s, df_lookup (MLH.df self) c = Some s -> slen s = nrows raw)
    /\ ~ In "Name" (df_columns (MLH.df self))
    /\ (forall c, In c (df_columns raw) -> c <> "Name" ->
                  In c (df_columns (MLH.df self)))
    /\ (forall c, In c (df_columns (MLH.df self)) ->
                  In c (df_columns raw) \/ In c feature_columns).
Proof.
  intros parse raw self success Hr. unfold MLH.run_ml_imputation_pipeline.
  destruct (MLH.load_data parse raw MLH.init) as [s0|e] eqn:E0;
    [|discriminate]. cbn [bind].
  destruct (MLH.impute_all s0) as [s1|e] eqn:E1; [|discriminate].
  cbn [bind].
  destruct (MLH.fix_date_logic_errors s1) as [s2|e] eqn:E2; [|discriminate].
  cbn [bind].
  destruct (MLH.generate_ml_ready_features s2) as [s3|e] eqn:E3;
    [|discriminate].
  cbn [bind]. intros [= <- _].
  set (n := nrows raw).
  destruct (load_data_keeps _ _ _ n E0) as [A0 C0].
  pose proof (impute_all_keeps _ E1) as K1.
  destruct (fix_date_logic_errors_keeps _ n E2) as [A2 C2].
  destruct (generate_ml_ready_features_keeps _ n E3) as (A3 & C3 & C3').
  assert (C1 : forall c, In c (df_columns (MLH.df s1)) <->
                         In c (df_columns raw) /\ c <> "Name").
  { intros c. rewrite (frame_keeps_columns K1), df_columns_drop, filter_In.
    cbn [existsb]. rewrite orb_false_r, negb_true_iff, String.eqb_neq.
    now rewrite C0. }
  assert (Hall : all_rows n (MLH.df s3)).
  { apply A3, A2. apply (all_rows_keeps K1). apply all_rows_drop.
    apply A0. now apply rectangular_all_rows. }
  split; [intros c s Hl; exact (@all_rows_lookup _ _ _ _ Hall Hl)|].
  split.
  { intros Hin. apply C3' in Hin. destruct Hin as [Hin|Hin].
    - apply C2, C1 in Hin. now destruct Hin.
    - unfold feature_columns in Hin. cbn [In] in Hin.
      destruct Hin as [H|[H|[H|[]]]]; discriminate. }
  split.
  - intros c Hc Hname. apply C3, C2, C1. now split.
  - intros c Hc. apply C3' in Hc. destruct Hc as [Hc|Hc]; [left|now right].
    apply C2, C1 in Hc. now destruct Hc.
Qed.

Lemma ml_pipeline_keeps_rows_witness :
  exists (self : MLH.Handler) (success : bool),
    MLH.run_ml_imputation_pipeline Calendar.parse_iso_date age_only
    = Ok (self, success)
    /\ (forall c s, df_lookup (MLH.df self) c = Some s -> slen s = 2%nat)
    /\ In "Age" (df_columns (MLH.df self)).
Proof.
  eexists; eexists. split; [vm_compute; reflexivity|].
  destruct (@ml_pipeline_keeps_rows Calendar.parse_iso_date age_only
              _ _ eq_refl eq_refl) as (Hrows & _ & Hkeep & _).
  split; [exact Hrows|]. apply Hkeep; [|discriminate].
  left. reflexivity.
Defined.

(* ================================================================== *)
(** * When the flag is true, and what the rules reject *)
(* ================================================================== *)






(** X26.  What the cleaning rules reject: [clean_names] and
    [clean_hospital_names] raise [AttributeError] on a numeric or datetime
    column, which has no text accessor.  [clean_numerical_data] and
    [detect_outliers] raise [TypeError] on an [Age] column of texts with a
    present cell, which does not compare with a number. *)
Theorem cleaning_rules_reject_wrong_dtype :
  forall (self : HDC.Cleaner),
    (forall s, df_lookup (HDC.df self) "Name" = Some s ->
               MLH.is_object s = false ->
               HDC.clean_names self = Raise AttributeError)
    /\ (forall s, df_lookup (HDC.df self) "Hospital" = Some s ->
                  MLH.is_object s = false ->
                  HDC.clean_hospital_names self = Raise AttributeError)
    /\ (forall xs, df_lookup (HDC.df self) "Age" = Some (SObject xs) ->
                   forallb is_none xs = false ->
                   HDC.clean_numerical_data self = Raise TypeError
                   /\ HDC.detect_outliers self = Raise TypeError).
Proof.
  intros self. split; [|split].
  - intros s Hl Ho. unfold HDC.clean_names.
    rewrite (df_get_lookup _ _ Hl). cbn [bind].
    destruct s; [discriminate|reflexivity|reflexivity].
  - intros s Hl Ho. unfold HDC.clean_hospital_names.
    rewrite (df_get_lookup _ _ Hl). cbn [bind].
    destruct s; [discriminate|reflexivity|reflexivity].
  - intros xs Hl Hp. split.
    + unfold HDC.clean_numerical_data, HDC.clean_age.
      rewrite (df_get_lookup _ _ Hl). cbn [bind numeric_cells].
      now rewrite Hp.
    + unfold HDC.detect_outliers, HDC.numerical_columns. cbn [for_each].
      rewrite (df_has_lookup _ _ Hl), (df_get_lookup _ _ Hl).
      cbn [bind statistic_cells]. now rewrite Hp.
Qed.

Lemma cleaning_rules_reject_wrong_dtype_witness :
  HDC.clean_names (cleaner_on [("Name", SNum [Some 1%Q])])
  = Raise AttributeError
  /\ HDC.clean_numerical_data (cleaner_on [("Age", SObject [Some "old"])])
     = Raise TypeError.
Proof.
  split.
  - destruct (cleaning_rules_reject_wrong_dtype
                (cleaner_on [("Name", SNum [Some 1%Q])])) as (H & _).
    now apply (H (SNum [Some 1%Q])).
  - destruct (cleaning_rules_reject_wrong_dtype
                (cleaner_on [("Age", SObject [Some "old"])])) as (_ & _ & H).
    now apply (H [Some "old"]).
Defined.
